(** * Raven WPS processes: a shallow embedding of the service wrappers

    The repository wraps an external hydrological modelling library as
    PyWPS processes.  This development embeds the process descriptors and
    the request handlers found in

    - [raven/processes/wps_regionalisation.py],
    - [raven/processes/wps_graph_forecast_uncertainty.py],
    - [raven/processes/wps_raven_hbv_ec.py],

    and proves what their natural-language specification says about them.

    Python dictionaries are finite maps ([gmap]); the handlers run in a
    state-and-exception monad over the request, the response, the logger,
    the working directory and the trace of calls made to the library. *)

From Stdlib Require Import ZArith String Ascii DecimalString.
From stdpp Require Import gmap strings list fin_maps.

Set Warnings "-register-all".
Local Open Scope string_scope.

(** ** Python values, exceptions *)

Module Py.

(** A float is only ever carried around or printed by this code, never
    computed with: it is represented by the decimal literal that denotes
    it, [f_digits * 10 ^ (- f_scale)]. *)
Record pyfloat := Float { f_digits : Z; f_scale : nat }.

(** The values that travel through a request: literal data and decoded
    JSON documents. *)
Inductive pyval :=
| PNone
| PBool (b : bool)
| PInt (z : Z)
| PFloat (f : pyfloat)
| PStr (s : string)
| PList (l : list pyval)
| PDict (d : gmap string pyval).

(** Instances of [Exception].  [PyExc cls msg] is an exception of the
    Python runtime or of a library; [ProcessError] is the PyWPS exception,
    with the arguments its constructor is given and the exception it is
    raised [from]. *)
Inductive exn :=
| PyExc (cls msg : string)
| ProcessError (msg : string) (max_length : nat) (allowed_chars : string)
               (cause : option exn).

Definition KeyError (key : string) : exn := PyExc "KeyError" key.
Definition IndexError : exn := PyExc "IndexError" "deque index out of range".
Definition AttributeError (attr : string) : exn := PyExc "AttributeError" attr.
Definition TypeError (msg : string) : exn := PyExc "TypeError" msg.

Definition result (A : Type) : Type := exn + A.

(** [string.printable]: digits, letters, punctuation and whitespace. *)
Definition digits : string := "0123456789".
Definition ascii_lowercase : string := "abcdefghijklmnopqrstuvwxyz".
Definition ascii_uppercase : string := "ABCDEFGHIJKLMNOPQRSTUVWXYZ".
Definition punctuation : string :=
  "!" ++ String (ascii_of_nat 34) "#$%&'()*+,-./:;<=>?@[\]^_`{|}~".
Definition whitespace : string :=
  String (ascii_of_nat 32) (String (ascii_of_nat 9) (String (ascii_of_nat 10)
    (String (ascii_of_nat 13) (String (ascii_of_nat 11)
      (String (ascii_of_nat 12) EmptyString))))).
Definition printable : string :=
  digits ++ ascii_lowercase ++ ascii_uppercase ++ punctuation ++ whitespace.

(** Keyword arguments under construction.  A keyword dictionary is only
    observed where it is unpacked into a call, which needs every key to
    be a string: [kw_named] holds the string-keyed entries and [kw_other]
    records whether a key that is not a string was ever stored. *)
Record kwargs := Kwargs { kw_named : gmap string pyval; kw_other : bool }.

Definition kw_empty : kwargs := Kwargs ∅ false.

(** [kwds[key] = v] *)
Definition kw_set (key : string) (v : pyval) (kw : kwargs) : kwargs :=
  Kwargs (<[key := v]> (kw_named kw)) (kw_other kw).

(** A loop over [l] that threads an accumulator and stops at the first
    exception. *)
Fixpoint fold_result {A B} (g : B → A → result B) (acc : B) (l : list A)
  : result B :=
  match l with
  | [] => inr acc
  | x :: l' =>
      match g acc x with
      | inr acc' => fold_result g acc' l'
      | inl e => inl e
      end
  end.

(** What the handlers use of the Python runtime and standard library.
    - [json_loads]: [json.loads], which raises on a value that is not a
      JSON text;
    - [update_iterable]: [dict.update] with an argument that is not a
      dictionary (it raises, or reads the argument as key/value pairs);
    - [format_exc]: [traceback.format_exc()] while the given exception is
      being handled;
    - [path_join]: [str(Path(directory) / name)]. *)
Class Runtime := {
  json_loads : pyval → result pyval;
  update_iterable : kwargs → pyval → result kwargs;
  format_exc : exn → string;
  path_join : string → string → string
}.

(** [kwds.update(v)]: the entries of a dictionary [v] override those of
    [kwds]. *)
Definition kw_update `{Runtime} (kw : kwargs) (v : pyval) : result kwargs :=
  match v with
  | PDict d => inr (Kwargs (d ∪ kw_named kw) (kw_other kw))
  | _ => update_iterable kw v
  end.

End Py.
Import Py.

(** ** The PyWPS request/response objects and the handler monad *)

Module Wps.

(** One occurrence of an input: [.data] and [.file]. *)
Record wps_input := Input { data : pyval; file : string }.

(** An entry of [response.outputs]: only [.file] is ever assigned. *)
Record wps_output := Output { out_file : option string }.

Section State.
(** [file_t]: what a written file holds; [call_t]: the calls a handler
    makes outside this repository's code. *)
Context {file_t call_t : Type}.

Record state := State {
  req_inputs : gmap string (list wps_input);  (* request.inputs *)
  resp_status : list (string * Z);            (* response.update_status *)
  resp_outputs : gmap string wps_output;      (* response.outputs *)
  log : list exn;                             (* records sent to LOGGER *)
  files : gmap string file_t;                 (* the file system *)
  calls : list call_t                         (* trace of outside calls *)
}.

Definition M (A : Type) : Type := state → result A * state.

Definition ret {A} (a : A) : M A := λ s, (inr a, s).
Definition raise {A} (e : exn) : M A := λ s, (inl e, s).
Definition bind {A B} (m : M A) (k : A → M B) : M B := λ s,
  match m s with
  | (inr a, s') => k a s'
  | (inl e, s') => (inl e, s')
  end.
Definition lift {A} (r : result A) : M A := λ s, (r, s).

(** [try: m except Exception as exc: h exc] *)
Definition try_except {A} (m : M A) (h : exn → M A) : M A := λ s,
  match m s with
  | (inr a, s') => (inr a, s')
  | (inl e, s') => h e s'
  end.

(** A [for] loop threading an accumulator. *)
Fixpoint for_each {A B} (f : B → A → M B) (acc : B) (l : list A) : M B :=
  match l with
  | [] => ret acc
  | x :: l' => bind (f acc x) (λ acc', for_each f acc' l')
  end.

(** [request.inputs.pop(key)] *)
Definition pop_input (key : string) : M (list wps_input) := λ s,
  match req_inputs s !! key with
  | Some v =>
      (inr v, State (delete key (req_inputs s)) (resp_status s) (resp_outputs s)
                    (log s) (files s) (calls s))
  | None => (inl (KeyError key), s)
  end.

(** [request.inputs.pop(key, default)] *)
Definition pop_input_default (key : string) (dflt : list wps_input)
  : M (list wps_input) :=
  λ s,
  match req_inputs s !! key with
  | Some v =>
      (inr v, State (delete key (req_inputs s)) (resp_status s) (resp_outputs s)
                    (log s) (files s) (calls s))
  | None => (inr dflt, s)
  end.

(** [request.inputs[key]] *)
Definition get_input (key : string) : M (list wps_input) := λ s,
  match req_inputs s !! key with
  | Some v => (inr v, s)
  | None => (inl (KeyError key), s)
  end.

(** [key in request.inputs] *)
Definition has_input (key : string) : M bool := λ s,
  (inr (bool_decide (is_Some (req_inputs s !! key))), s).

(** [request.inputs.items()], in the order the map lists its keys. *)
Definition input_items : M (list (string * list wps_input)) := λ s,
  (inr (map_to_list (req_inputs s)), s).

(** [l[0]] *)
Definition first {A} (l : list A) : M A :=
  match l with
  | x :: _ => ret x
  | [] => raise IndexError
  end.

(** [response.update_status(msg, pct)] *)
Definition update_status (msg : string) (pct : Z) : M unit := λ s,
  (inr tt, State (req_inputs s) (resp_status s ++ [(msg, pct)]) (resp_outputs s)
                  (log s) (files s) (calls s)).

(** [response.outputs[key].file = path] *)
Definition set_output_file (key path : string) : M unit := λ s,
  match resp_outputs s !! key with
  | Some _ =>
      (inr tt, State (req_inputs s) (resp_status s)
                     (<[key := Output (Some path)]> (resp_outputs s))
                     (log s) (files s) (calls s))
  | None => (inl (KeyError key), s)
  end.

(** [LOGGER.exception(exc)] *)
Definition log_exception (e : exn) : M unit := λ s,
  (inr tt, State (req_inputs s) (resp_status s) (resp_outputs s)
                  (log s ++ [e]) (files s) (calls s)).

(** Writing [content] at [path] ([to_netcdf], [savefig]); the write itself
    is taken to succeed. *)
Definition write_file (path : string) (content : file_t) : M unit := λ s,
  (inr tt, State (req_inputs s) (resp_status s) (resp_outputs s)
                  (log s) (<[path := content]> (files s)) (calls s)).

(** A call that leaves this repository: the call is recorded in the
    trace, then it returns or raises as [r] says. *)
Definition call {A} (c : call_t) (r : result A) : M A := λ s,
  (r, State (req_inputs s) (resp_status s) (resp_outputs s)
            (log s) (files s) (calls s ++ [c])).

End State.

Arguments state : clear implicits.
Arguments M : clear implicits.

End Wps.
Import Wps.

Notation "x <- m ;; k" := (bind m (λ x, k))
  (at level 100, m at next level, right associativity, only parsing).
Notation "m ;;; k" := (bind m (λ _, k))
  (at level 100, right associativity, only parsing).

(** ** Process descriptors *)

Module Descriptor.

(** [pywps.FORMATS.JSON], [pywps.FORMATS.NETCDF], [Format(mime_type=..)] *)
Inductive format :=
| FORMATS_JSON
| FORMATS_NETCDF
| Format (mime_type : string).

(** The keyword arguments of a [LiteralInput] declaration; an argument
    that a declaration leaves out is [None]. *)
Record LiteralInput := {
  lit_identifier : string;
  lit_title : string;
  lit_abstract : string;
  lit_data_type : string;
  lit_allowed_values : option (list pyval);
  lit_default : option pyval;
  lit_min_occurs : option nat;
  lit_max_occurs : option nat
}.

Record ComplexInput := {
  cx_identifier : string;
  cx_title : string;
  cx_abstract : string;
  cx_min_occurs : option nat;
  cx_max_occurs : option nat;
  cx_supported_formats : list format
}.

Record ComplexOutput := {
  co_identifier : string;
  co_title : string;
  co_abstract : string;
  co_as_reference : bool;
  co_supported_formats : list format
}.

(** An entry of a process's [inputs] or [outputs] list: an input or an
    output declared in the module itself, or one taken from [wpsio] by
    name. *)
Inductive declaration :=
| Literal (i : LiteralInput)
| Complex (i : ComplexInput)
| ComplexOut (o : ComplexOutput)
| Wio (name : string).

(** Does a literal input with [allowed_values] take the value [v]? *)
Definition allows (i : LiteralInput) (v : string) : Prop :=
  match lit_allowed_values i with
  | Some vs => PStr v ∈ vs
  | None => True
  end.

End Descriptor.
Import Descriptor.

(** ** [wps_regionalisation.py] *)

Module Regionalisation.

Definition identifier : string := "regionalisation".
Definition title : string :=
  "Simulate streamflow at an ungauged site based on surrounding or similar gauged catchments.".
Definition abstract : string :=
  "Compute the hydrograph for an ungauged catchment using a regionalization method.".
Definition version : string := "0.1".

Definition method : LiteralInput := {|
  lit_identifier := "method";
  lit_title := "Regionalisation method";
  lit_abstract := "
    Regionalisation method to use, one of MLR, SP, PS, SP_IDW,
    PS_IDW, SP_IDW_RA, PS_IDW_RA.

    The available regionalization methods are:

        Multiple linear regression (MLR)
            Ungauged catchment parameters are estimated individually by a linear regression
            against catchment properties.

        Spatial proximity (SP)
            The ungauged hydrograph is an average of the `n` closest catchments' hydrographs.

        Physical similarity (PS)
            The ungauged hydrograph is an average of the `n` most similar catchments' hydrographs.

        Spatial proximity with inverse distance weighting (SP_IDW)
            The ungauged hydrograph is an average of the `n` closest catchments' hydrographs, but
            the average is weighted using inverse distance weighting

        Physical similarity with inverse distance weighting (PS_IDW)
            The ungauged hydrograph is an average of the `n` most similar catchments' hydrographs, but
            the average is weighted using inverse distance weighting

        Spatial proximity with IDW and regression-based augmentation (SP_IDW_RA)
            The ungauged hydrograph is an average of the `n` closest catchments' hydrographs, but
            the average is weighted using inverse distance weighting. Furthermore, the method uses the CANOPEX/USGS
            dataset to estimate model parameters using Multiple Linear Regression. Parameters whose regression r-squared
            is higher than 0.5 are replaced by the MLR-estimated value.

        Physical Similarity with IDW and regression-based augmentation (PS_IDW_RA)
            The ungauged hydrograph is an average of the `n` most similar catchments' hydrographs, but
            the average is weighted using inverse distance weighting. Furthermore, the method uses the CANOPEX/USGS
            dataset to estimate model parameters using Multiple Linear Regression. Parameters whose regression r-squared
            is higher than 0.5 are replaced by the MLR-estimated value.

    ";
  lit_data_type := "string";
  lit_allowed_values :=
    Some [PStr "MLR"; PStr "SP"; PStr "PS"; PStr "SP_IDW"; PStr "PS_IDW";
          PStr "SP_IDW_RA"; PStr "PS_IDW_RA"];
  lit_default := Some (PStr "SP_IDW");
  lit_min_occurs := Some 0;
  lit_max_occurs := None
|}.

Definition ndonors : LiteralInput := {|
  lit_identifier := "ndonors";
  lit_title := "Number of gauged catchments to use for the regionalizaion.";
  lit_abstract :=
    "Number of close or similar catchments to use to generate the representative "
    ++ "hydrograph at the ungauged site.";
  lit_data_type := "integer";
  lit_allowed_values := None;
  lit_default := Some (PInt 5);
  lit_min_occurs := Some 0;
  lit_max_occurs := None
|}.

Definition min_NSE : LiteralInput := {|
  lit_identifier := "min_NSE";
  lit_title := "NSE Score (unitless)";
  lit_abstract :=
    "Minimum calibration NSE value required to be considered in the regionalization.";
  lit_data_type := "float";
  lit_allowed_values := None;
  lit_default := Some (PFloat (Float 6 1));
  lit_min_occurs := Some 0;
  lit_max_occurs := None
|}.

Definition properties : ComplexInput := {|
  cx_identifier := "properties";
  cx_title := "Regionalization properties";
  cx_abstract :=
    "json string storing dictionary of properties. The available properties are: "
    ++ "area (km2), longitude (dec.degrees), latitude (dec. degrees), gravelius, perimeter (m), "
    ++ "elevation (m), slope(%), aspect, forest (%), grass (%), wetland (%), water (%), "
    ++ "urban (%), shrubs (%), crops (%) and snowIce (%).";
  cx_min_occurs := Some 1;
  cx_max_occurs := Some 1;
  cx_supported_formats := [FORMATS_JSON]
|}.

Definition inputs : list declaration :=
  [Wio "ts"; Wio "start_date"; Wio "end_date"; Wio "latitude";
   Wio "longitude"; Wio "rain_snow_fraction"; Wio "nc_spec";
   Wio "model_name"; Literal ndonors; Literal min_NSE; Literal method;
   Complex properties; Wio "area"; Wio "elevation"].

Definition outputs : list declaration := [Wio "hydrograph"; Wio "ensemble"].

Section Handler.

(** The objects of [ravenpy] that pass through the handler: calibration
    scores, parameter sets and catchment properties of the gauged
    catchments, and the simulated datasets. *)
Context {nash_t params_t props_t dataset_t : Type}.

(** The arguments of the call to [regionalize], in the order of the
    call: six positional arguments, then [size], [min_NSE], [ts] and
    the unpacked [kwds]. *)
Record regionalize_args := Args {
  a_method : pyval;
  a_model_name : pyval;
  a_nash : nash_t;
  a_params : params_t;
  a_props : props_t;
  a_ungauged_props : gmap string pyval;
  a_size : pyval;
  a_min_NSE : pyval;
  a_ts : list string;
  a_kwds : kwargs
}.

(** [ravenpy.utilities]: the three routines the handler calls.  Each
    returns or raises. *)
Class RavenPy := {
  read_gauged_params : pyval → result (nash_t * params_t);
  read_gauged_properties : gset string → result props_t;
  regionalize : regionalize_args → result (dataset_t * dataset_t)
}.

Context {rt : Runtime} {lib : RavenPy}.

(** A file written by [to_netcdf]. *)
Inductive nc_file := NetCDF (d : dataset_t).

Inductive lib_call :=
| Call_read_gauged_params (model_name : pyval)
| Call_read_gauged_properties (keys : gset string)
| Call_regionalize (a : regionalize_args).

Local Abbreviation M := (M nc_file lib_call).

(** [request.inputs.pop(key)[0].data] *)
Definition pop_data (key : string) : M pyval :=
  l <- pop_input key ;;
  e <- first l ;;
  ret (data e).

(** Lines 179-181: the keyword arguments given as [nc_spec]. *)
Definition read_nc_spec : M kwargs :=
  specs <- pop_input_default "nc_spec" [] ;;
  for_each
    (λ kwds spec,
       v <- lift (json_loads (data spec)) ;;
       lift (kw_update kwds v))
    kw_empty specs.

(** Lines 183-184: every input still in the request becomes a keyword
    argument. *)
Definition read_remaining (kwds : kwargs) : M kwargs :=
  items <- input_items ;;
  for_each
    (λ kwds item,
       l <- get_input (fst item) ;;
       e <- first l ;;
       ret (kw_set (fst item) (data e) kwds))
    kwds items.

(** [properties.keys()] *)
Definition keys (properties : pyval) : M (gset string) :=
  match properties with
  | PDict d => ret (dom d)
  | _ => raise (AttributeError "keys")
  end.

(** [{key: properties[key] for key in properties}] *)
Definition copy_properties (properties : pyval) : M (gmap string pyval) :=
  match properties with
  | PDict d =>
      for_each
        (λ acc key,
           match d !! key with
           | Some v => ret (<[key := v]> acc)
           | None => raise (KeyError key)
           end)
        ∅ (map_to_list d).*1
  | _ => raise (TypeError "not iterable")
  end.

(** The call [regionalize(.., size=ndonors, min_NSE=min_NSE, ts=ts,
    **kwds)]: unpacking [kwds] raises [TypeError] when a key is not a
    string or repeats one of the keywords written in the call;
    otherwise [regionalize] runs (and may itself raise, also on a keyword
    it does not take). *)
Definition call_regionalize (a : regionalize_args)
  : result (dataset_t * dataset_t) :=
  if kw_other (a_kwds a) then
    inl (TypeError "keywords must be strings")
  else if bool_decide (is_Some (kw_named (a_kwds a) !! "size")
                       ∨ is_Some (kw_named (a_kwds a) !! "min_NSE")
                       ∨ is_Some (kw_named (a_kwds a) !! "ts")) then
    inl (TypeError "got multiple values for keyword argument")
  else regionalize a.

Definition _handler (workdir : string) : M unit :=
  ts_in <- pop_input "ts" ;;
  let ts := file <$> ts_in in
  model_name <- pop_data "model_name" ;;
  method <- pop_data "method" ;;
  ndonors <- pop_data "ndonors" ;;
  min_NSE <- pop_data "min_NSE" ;;
  properties <- pop_data "properties" ;;
  properties <- lift (json_loads properties) ;;

  kwds <- read_nc_spec ;;
  kwds <- read_remaining kwds ;;

  update_status "Inputs are read" 1 ;;;

  np <- call (Call_read_gauged_params model_name)
             (read_gauged_params model_name) ;;
  let '(nash, params) := np in
  update_status "Gauged params are read" 2 ;;;

  ks <- keys properties ;;
  props <- call (Call_read_gauged_properties ks)
                (read_gauged_properties ks) ;;
  ungauged_props <- copy_properties properties ;;
  update_status "Gauged properties are read" 3 ;;;

  let a := Args method model_name nash params props ungauged_props
                ndonors min_NSE ts kwds in
  qe <- try_except
          (call (Call_regionalize a) (call_regionalize a))
          (λ exc,
             log_exception exc ;;;
             let err_msg := format_exc exc in
             raise (ProcessError err_msg (String.length err_msg)
                                 printable (Some exc))) ;;
  let '(qsim, ensemble) := qe in

  update_status "Computed regionalization" 99 ;;;

  let nc_qsim := path_join workdir "qsim.nc" in
  write_file nc_qsim (NetCDF qsim) ;;;
  set_output_file "hydrograph" nc_qsim ;;;

  let nc_ensemble := path_join workdir "ensemble.nc" in
  write_file nc_ensemble (NetCDF ensemble) ;;;
  set_output_file "ensemble" nc_ensemble ;;;

  ret tt.

End Handler.

Arguments regionalize_args : clear implicits.
Arguments RavenPy : clear implicits.
Arguments nc_file : clear implicits.
Arguments lib_call : clear implicits.

End Regionalisation.

(** ** [wps_graph_forecast_uncertainty.py] *)

Module GraphFcstUncertainty.

Definition fcst : ComplexInput := {|
  cx_identifier := "fcst";
  cx_title := "Stream flow forecasts";
  cx_abstract := "Stream flow forecast time series";
  cx_min_occurs := None;
  cx_max_occurs := None;
  cx_supported_formats := [FORMATS_NETCDF]
|}.

Definition fcst_var : LiteralInput := {|
  lit_identifier := "fcst_var";
  lit_title := "name of the streamflow variable in fcst";
  lit_abstract := "name of the streamflow variable in fcst";
  lit_data_type := "string";
  lit_allowed_values := None;
  lit_default := Some (PStr "q_sim");
  lit_min_occurs := Some 0;
  lit_max_occurs := Some 1
|}.

Definition qobs : ComplexInput := {|
  cx_identifier := "qobs";
  cx_title := "Stream flow observation";
  cx_abstract := "Stream flow observation for hindcasting";
  cx_min_occurs := Some 0;
  cx_max_occurs := Some 1;
  cx_supported_formats := [FORMATS_NETCDF]
|}.

Definition qobs_var : LiteralInput := {|
  lit_identifier := "qobs_var";
  lit_title := "name of the streamflow variable in qobs";
  lit_abstract := "name of the streamflow variable in qobs";
  lit_data_type := "string";
  lit_allowed_values := None;
  lit_default := Some (PStr "q_obs");
  lit_min_occurs := Some 0;
  lit_max_occurs := Some 1
|}.

Definition inputs : list declaration :=
  [Complex fcst; Literal fcst_var; Complex qobs; Literal qobs_var].

Definition graph_forecasts : ComplexOutput := {|
  co_identifier := "graph_forecasts";
  co_title := "Figure showing the forecast hydrographs.";
  co_abstract := "Figure showing the forecast hydrographs";
  co_as_reference := true;
  co_supported_formats := [Format "image/png"]
|}.

Definition outputs : list declaration := [ComplexOut graph_forecasts].

Definition identifier : string := "graph_forecast_uncertainty".
Definition version : string := "1.0".

Section Handler.

(** A matplotlib figure. *)
Context {figure_t : Type}.

(** The plotting helpers of [raven.utilities.graphs]; each returns a
    figure or raises. *)
Class Graphs := {
  hindcast : string → pyval → string → pyval → result figure_t;
  forecast : string → pyval → result figure_t
}.

Context {rt : Runtime} {lib : Graphs}.

(** A file written by [savefig]. *)
Inductive fig_file := Saved (fig : figure_t).

Inductive lib_call :=
| Call_hindcast (sim_fn : string) (fcst_var : pyval)
                (qobs_fn : string) (qobs_var : pyval)
| Call_forecast (sim_fn : string) (fcst_var : pyval)
| Call_close (fig : figure_t).

Local Abbreviation M := (M fig_file lib_call).

(** [request.inputs[key][0]] *)
Definition input0 (key : string) : M wps_input :=
  l <- get_input key ;;
  first l.

Definition _handler (workdir : string) : M unit :=
  sim <- input0 "fcst" ;;
  let sim_fn := file sim in
  fv <- input0 "fcst_var" ;;
  let fcst_var := data fv in

  with_qobs <- has_input "qobs" ;;
  fig <- (if with_qobs : bool then
            qo <- input0 "qobs" ;;
            let qobs_fn := file qo in
            qv <- input0 "qobs_var" ;;
            let qobs_var := data qv in
            call (Call_hindcast sim_fn fcst_var qobs_fn qobs_var)
                 (hindcast sim_fn fcst_var qobs_fn qobs_var)
          else
            call (Call_forecast sim_fn fcst_var)
                 (forecast sim_fn fcst_var)) ;;

  let fig_fn_fcst := path_join workdir "forecast_hydrographs.png" in
  write_file fig_fn_fcst (Saved fig) ;;;
  call (Call_close fig) (inr tt) ;;;

  set_output_file "graph_forecasts" fig_fn_fcst ;;;

  ret tt.

End Handler.

Arguments Graphs : clear implicits.
Arguments fig_file : clear implicits.
Arguments lib_call : clear implicits.

End GraphFcstUncertainty.

(** ** [wps_raven_hbv_ec.py] *)

Module HbvEc.

(** [str] of a float written as a short decimal literal: the digits
    before the point, the point, and the digits after it without their
    trailing zeros (at least one is kept). *)
Definition digit (n : Z) : ascii := ascii_of_nat (48 + Z.to_nat n).

Fixpoint fixed_digits (width : nat) (n : Z) (acc : string) : string :=
  match width with
  | O => acc
  | S w => fixed_digits w (n / 10) (String (digit (n mod 10)) acc)
  end.

Fixpoint strip_zeros (rev_digits : list ascii) : list ascii :=
  match rev_digits with
  | c :: l => if bool_decide (c = "0"%char) then strip_zeros l else c :: l
  | [] => []
  end.

Definition fraction (scale : nat) (n : Z) : string :=
  match rev (strip_zeros (rev (list_ascii_of_string (fixed_digits scale n "")))) with
  | [] => "0"
  | l => string_of_list_ascii l
  end.

Definition str (f : pyfloat) : string :=
  let p := (10 ^ Z.of_nat (f_scale f))%Z in
  let a := Z.abs (f_digits f) in
  (if (f_digits f <? 0)%Z then "-" else "")
  ++ NilZero.string_of_uint (N.to_uint (Z.to_N (a / p)))
  ++ "." ++ fraction (f_scale f) (a mod p).

(** The literals on which [str] prints a float as above: at most 15
    significant digits, and a magnitude from [1e-4] up to [1e16]
    (outside that range Python switches to the exponent notation). *)
Definition plain (f : pyfloat) : bool :=
  let a := Z.abs (f_digits f) in
  let p := (10 ^ Z.of_nat (f_scale f))%Z in
  bool_decide (0 < a < 10 ^ 15 ∧ p ≤ a * 10 ^ 4 ∧ a < 10 ^ 16 * p)%Z.

(** Modelled from the spec: the dataclass [HBVEC.Params] belongs to
    [ravenpy] and is not part of the sources; its fields are the 21
    parameters [par_x01] to [par_x21], in this order. *)
Definition Params_fields : list string :=
  ["par_x01"; "par_x02"; "par_x03"; "par_x04"; "par_x05"; "par_x06"; "par_x07"; "par_x08";
   "par_x09"; "par_x10"; "par_x11"; "par_x12"; "par_x13"; "par_x14"; "par_x15";
   "par_x16"; "par_x17"; "par_x18"; "par_x19"; "par_x20"; "par_x21"].

(** An instance of the dataclass: the field names, and the value of each
    field. *)
Record Params := {
  field_names : list string;
  field_value : gmap string pyfloat
}.

(** [HBVEC.Params(name=value, ..)] *)
Definition HBVEC_Params (kw : list (string * pyfloat)) : Params :=
  {| field_names := Params_fields; field_value := list_to_map kw |}.

(** [dataclasses.fields] (the names) and [dataclasses.astuple]. *)
Definition fields (p : Params) : list string := field_names p.
Definition astuple (p : Params) : list pyfloat :=
  omap (λ name, field_value p !! name) (field_names p).

Definition params_defaults : Params :=
  HBVEC_Params [
    ("par_x01", Float 5984519 8);
    ("par_x02", Float 4072232 6);
    ("par_x03", Float 2001574 6);
    ("par_x04", Float 3473693 8);
    ("par_x05", Float 9985144 8);
    ("par_x06", Float 506052 6);
    ("par_x07", Float 3438486 6);
    ("par_x08", Float 3832455 5);
    ("par_x09", Float 4606565 7);
    ("par_x10", Float 6303738 8);
    ("par_x11", Float 2277781 6);
    ("par_x12", Float 4873686 6);
    ("par_x13", Float 5718813 7);
    ("par_x14", Float 4505643 8);
    ("par_x15", Float 877607 6);
    ("par_x16", Float 1894145 5);
    ("par_x17", Float 2036937 6);
    ("par_x18", Float 4452843 7);
    ("par_x19", Float 6771759 7);
    ("par_x20", Float 1141608 6);
    ("par_x21", Float 1024278 6)
  ].

Section Config.
(** [raven.config.max_parallel_processes] *)
Variable max_parallel_processes : nat.

Definition params : LiteralInput := {|
  lit_identifier := "params";
  lit_title := "Comma separated list of model parameters";
  lit_abstract := "Parameters: " ++ String.concat ", " (fields params_defaults);
  lit_data_type := "string";
  lit_allowed_values := None;
  lit_default :=
    Some (PStr (String.concat ", " (map str (astuple params_defaults))));
  lit_min_occurs := Some 0;
  lit_max_occurs := Some max_parallel_processes
|}.

Definition inputs : list declaration :=
  [Wio "ts"; Wio "nc_spec"; Literal params; Wio "start_date";
   Wio "end_date"; Wio "nc_index"; Wio "duration"; Wio "run_name";
   Wio "area"; Wio "latitude"; Wio "longitude"; Wio "elevation";
   Wio "rain_snow_fraction"; Wio "evaporation"; Wio "ow_evaporation"].
End Config.

End HbvEc.

(** ** How PyWPS shows a [ProcessError]

    [pywps.app.exceptions] belongs to the framework: the class
    [ProcessError] that the regionalisation handler raises is not part of
    the sources.  The handler chooses the arguments of [ProcessError]
    against the framework's defaults, which its comment recalls: by default
    the message is limited to 300 characters and many special characters
    are stripped. *)

Module PywpsExceptions.

Definition DEFAULT_ALLOWED_CHARS : string := ".:!?=,;-_/".
Definition default_min_length : nat := 3.
Definition default_max_length : nat := 300.
Definition default_msg : string :=
  "Sorry, process failed. Please check server error log.".

(** [\w] of Python's [re] on text: a character of a [string] stands for
    the code point of the same number, from 0 to 255; the word characters
    among these are the digits, the ASCII letters, the underscore, and the
    letters and numbers of the Latin-1 supplement (as [µ], [²], [¼], [é];
    not [×] and [÷]). *)
Definition word_ranges : list (nat * nat) :=
  [(48, 57); (65, 90); (95, 95); (97, 122); (170, 170); (178, 179);
   (181, 181); (185, 186); (188, 190); (192, 214); (216, 246);
   (248, 255)]%nat.

Definition is_word (c : ascii) : bool :=
  let n := nat_of_ascii c in
  existsb (λ range, (fst range <=? n) && (n <=? snd range))%nat word_ranges.

Definition allowed (allowed_chars : string) (c : ascii) : bool :=
  is_word c || bool_decide (c ∈ list_ascii_of_string allowed_chars).

(** [re.findall] of a pattern [[...]+]: the maximal runs of characters
    that satisfy [ok]; [cur] is the run being read. *)
Fixpoint findall (ok : ascii → bool) (text cur : string) : list string :=
  match text with
  | EmptyString => match cur with EmptyString => [] | _ => [cur] end
  | String c text' =>
      if ok c then findall ok text' (cur ++ String c EmptyString)
      else match cur with
           | EmptyString => findall ok text' EmptyString
           | _ => cur :: findall ok text' EmptyString
           end
  end.

(** Modelled from the spec: the rendering of a [ProcessError] is missing
    from the sources.  The spec has the error strings truncated and escaped
    for transport, and the handler's comment gives the defaults; the rest
    is as the framework documents it.  The text is cut into its maximal
    runs of characters that are word characters or listed in
    [allowed_chars], and the runs are joined by single spaces; an outcome
    of at least [min_length] characters is truncated to its first
    [max_length] characters ([msg[:max_length]]), a shorter one is not
    kept. *)
Definition format_message (text : string) (min_length max_length : nat)
    (allowed_chars : string) : string :=
  let msg := String.concat " " (findall (allowed allowed_chars) text "") in
  if (min_length <=? String.length msg)%nat
  then substring 0 max_length msg else "".

(** Modelled from the spec: [ProcessError(msg, max_length=..,
    allowed_chars=..).message], what the client is shown.  No allowed
    characters means the default ones, the minimal length is the default
    one, and a fixed sentence stands for a text that was not kept. *)
Definition message (msg : string) (max_length : nat) (allowed_chars : string)
  : string :=
  let allowed_chars :=
    match allowed_chars with
    | EmptyString => DEFAULT_ALLOWED_CHARS
    | _ => allowed_chars
    end in
  match format_message msg default_min_length max_length allowed_chars with
  | EmptyString => default_msg
  | m => m
  end.

(** The text without what the allowed characters leave out, before any
    test on its length and before it is truncated. *)
Definition cleaned (allowed_chars text : string) : string :=
  String.concat " " (findall (allowed allowed_chars) text "").

(** What the client reads of an exception that leaves a handler, when it
    is a [ProcessError]. *)
Definition shown (e : exn) : option string :=
  match e with
  | ProcessError msg max_length allowed_chars _ =>
      Some (message msg max_length allowed_chars)
  | PyExc _ _ => None
  end.

(** The framework's defaults, as properties of a shown message: it is
    limited in length, and it holds no special character. *)
Definition limited_in_length (m : string) : Prop :=
  (String.length m ≤ default_max_length)%nat.

Definition stripped_of_special_characters (m : string) : Prop :=
  ∀ c, c ∈ list_ascii_of_string m →
       allowed DEFAULT_ALLOWED_CHARS c = true ∨ c = " "%char.

End PywpsExceptions.

(** ** What an invocation owns, and what it finds

    A handler is given a request and a response by the framework.  The
    logger, the file system and the trace outlive the invocation: [fresh]
    forgets them, and [extend s0 s'] puts what a run from [fresh s0] left
    in [s'] on top of what [s0] held. *)

Module Frame.

Section Frame.

Context {file_t call_t : Type}.

Definition fresh (s : state file_t call_t) : state file_t call_t :=
  State (req_inputs s) (resp_status s) (resp_outputs s) [] ∅ [].





End Frame.

End Frame.
Import Frame.

(** ** What the regionalisation handler is expected to do *)

Module RegionalisationSpec.
Import Regionalisation.

Section Spec.

Context {nash_t params_t props_t dataset_t : Type}.
Context {rt : Runtime} {lib : RavenPy nash_t params_t props_t dataset_t}.

Local Abbreviation state :=
  (state (nc_file dataset_t) (lib_call nash_t params_t props_t)).
Local Abbreviation regionalize_args :=
  (regionalize_args nash_t params_t props_t).

(** The inputs the handler takes out of the request by name. *)
Definition consumed : list string :=
  ["ts"; "model_name"; "method"; "ndonors"; "min_NSE"; "properties"; "nc_spec"].

(** [v] is the data of the first occurrence of the input [key]. *)
Definition first_data (inp : gmap string (list wps_input)) (key : string)
    (v : pyval) : Prop :=
  ∃ e rest, inp !! key = Some (e :: rest) ∧ v = data e.

(** The arguments [a] are those of the request [inp], as they are: the
    literal inputs, the files of [ts], what the library read for the model,
    and the decoded properties, both as the keys the gauged properties are
    read for and as the properties of the ungauged catchment. *)
Record forwarded (inp : gmap string (list wps_input))
    (a : regionalize_args) : Prop := {
  fw_method : first_data inp "method" (a_method a);
  fw_model_name : first_data inp "model_name" (a_model_name a);
  fw_size : first_data inp "ndonors" (a_size a);
  fw_min_NSE : first_data inp "min_NSE" (a_min_NSE a);
  fw_ts : ∃ ts_in, inp !! "ts" = Some ts_in ∧ a_ts a = file <$> ts_in;
  fw_gauged_params :
    read_gauged_params (a_model_name a) = inr (a_nash a, a_params a);
  fw_properties :
    ∃ p, first_data inp "properties" p
         ∧ json_loads p = inr (PDict (a_ungauged_props a));
  fw_gauged_properties :
    read_gauged_properties (dom (a_ungauged_props a)) = inr (a_props a)
}.

(** Every input left in the request is a keyword argument, with the data
    of its first occurrence. *)
Definition keywords_forwarded (inp : gmap string (list wps_input))
    (a : regionalize_args) : Prop :=
  ∀ key e rest,
    key ∉ consumed → inp !! key = Some (e :: rest) →
    kw_named (a_kwds a) !! key = Some (data e).

(** One turn of the loop over the inputs left in the request [inp], seen
    as a function of the keyword arguments. *)
Definition remaining_step (inp : gmap string (list wps_input))
    (kwds : kwargs) (item : string * list wps_input) : result kwargs :=
  match inp !! item.1 with
  | Some (e :: _) => inr (kw_set item.1 (data e) kwds)
  | Some [] => inl IndexError
  | None => inl (KeyError item.1)
  end.

(** The calls of a run that reaches [regionalize]. *)
Definition library_calls (a : regionalize_args)
  : list (lib_call nash_t params_t props_t) :=
  [Call_read_gauged_params (a_model_name a);
   Call_read_gauged_properties (dom (a_ungauged_props a));
   Call_regionalize a].

(** Nothing was logged, written or set in the response's outputs. *)
Definition quiet (s s' : state) : Prop :=
  log s' = log s ∧ files s' = files s ∧ resp_outputs s' = resp_outputs s.

(** The exception the handler raises when the call to [regionalize] raised
    [exc]. *)
Definition reported (exc : exn) : exn :=
  ProcessError (format_exc exc) (String.length (format_exc exc)) printable
               (Some exc).

(** The library call [c] raised [e]. *)
Definition raised_in (c : lib_call nash_t params_t props_t) (e : exn) : Prop :=
  match c with
  | Call_read_gauged_params m => read_gauged_params m = inl e
  | Call_read_gauged_properties ks => read_gauged_properties ks = inl e
  | Call_regionalize a => call_regionalize a = inl e
  end.

(** The run from [s] that ended in [s'] with [r] caught [e], logged it and
    raised the [ProcessError] that carries its formatted traceback. *)
Definition caught_logged_converted (s : state) (r : result unit) (s' : state)
    (e : exn) : Prop :=
  r = inl (reported e) ∧ log s' = (log s ++ [e])%list.

(** The run let [e] through as it was, unlogged. *)
Definition propagated (s : state) (r : result unit) (s' : state)
    (e : exn) : Prop :=
  r = inl e ∧ log s' = log s.

(** [c] is the last call of the trace, and was made once. *)
Definition last_call (c : lib_call nash_t params_t props_t)
    (trace : list (lib_call nash_t params_t props_t)) : Prop :=
  ∃ before, trace = (before ++ [c])%list ∧ c ∉ before.

(** The keyword arguments can be unpacked in the call of [regionalize]:
    every key is a string, and none is [size], [min_NSE] or [ts], which the
    call names itself. *)
Definition unpackable (kw : kwargs) : Prop :=
  kw_other kw = false
  ∧ kw_named kw !! "size" = None
  ∧ kw_named kw !! "min_NSE" = None
  ∧ kw_named kw !! "ts" = None.

(** The run from [s] that ended in [s'] with [r] is the one that follows
    from what the library's [regionalize] answers on the arguments [a]:
    when it raises, its exception is the one that is logged and reported,
    and no file is written; when it returns two datasets, these are the
    datasets written as [qsim.nc] and, when the response has the
    [hydrograph] output, as [ensemble.nc]. *)
Definition answered (workdir : string) (a : regionalize_args)
    (s : state) (r : result unit) (s' : state) : Prop :=
  match regionalize a with
  | inl e =>
      r = inl (reported e)
      ∧ log s' = (log s ++ [e])%list
      ∧ files s' = files s
  | inr (qsim, ensemble) =>
      log s' = log s
      ∧ files s'
        = match resp_outputs s !! "hydrograph" with
          | Some _ =>
              <[path_join workdir "ensemble.nc" := NetCDF ensemble]>
                (<[path_join workdir "qsim.nc" := NetCDF qsim]> (files s))
          | None => <[path_join workdir "qsim.nc" := NetCDF qsim]> (files s)
          end
  end.

(** The ways a run of the handler from [s] can end. *)
Inductive outcome (workdir : string) (s : state)
  : result unit → state → Prop :=
| failed_reading e s' :
    calls s' = calls s → quiet s s' →
    outcome workdir s (inl e) s'
| failed_gauged_params m e s' :
    read_gauged_params m = inl e →
    calls s' = (calls s ++ [Call_read_gauged_params m])%list → quiet s s' →
    outcome workdir s (inl e) s'
| failed_keys m np s' :
    read_gauged_params m = inr np →
    calls s' = (calls s ++ [Call_read_gauged_params m])%list → quiet s s' →
    outcome workdir s (inl (AttributeError "keys")) s'
| failed_gauged_properties m np ks e s' :
    read_gauged_params m = inr np →
    read_gauged_properties ks = inl e →
    calls s' = (calls s ++ [Call_read_gauged_params m;
                            Call_read_gauged_properties ks])%list →
    quiet s s' →
    outcome workdir s (inl e) s'
| failed_regionalize a e s' :
    forwarded (req_inputs s) a → keywords_forwarded (req_inputs s) a →
    call_regionalize a = inl e →
    calls s' = (calls s ++ library_calls a)%list →
    log s' = (log s ++ [e])%list →
    files s' = files s → resp_outputs s' = resp_outputs s →
    outcome workdir s (inl (reported e)) s'
| failed_output a qe key s' :
    forwarded (req_inputs s) a → keywords_forwarded (req_inputs s) a →
    call_regionalize a = inr qe →
    calls s' = (calls s ++ library_calls a)%list →
    log s' = log s →
    outcome workdir s (inl (KeyError key)) s'
| completed a qsim ensemble s' :
    forwarded (req_inputs s) a → keywords_forwarded (req_inputs s) a →
    call_regionalize a = inr (qsim, ensemble) →
    calls s' = (calls s ++ library_calls a)%list →
    log s' = log s →
    files s' = <[path_join workdir "ensemble.nc" := NetCDF ensemble]>
                 (<[path_join workdir "qsim.nc" := NetCDF qsim]> (files s)) →
    resp_outputs s' =
      <["ensemble" := Output (Some (path_join workdir "ensemble.nc"))]>
        (<["hydrograph" := Output (Some (path_join workdir "qsim.nc"))]>
           (resp_outputs s)) →
    outcome workdir s (inr tt) s'.

End Spec.

End RegionalisationSpec.
Import RegionalisationSpec.

(** ** A request, a runtime and some libraries to run the handlers on *)

Module Example.
Import Regionalisation.

Definition quote : string := String (ascii_of_nat 34) "".
Definition newline : string := String (ascii_of_nat 10) "".

(** The text of the [properties] input and the dictionary it denotes. *)
Definition properties_json : string :=
  "{" ++ quote ++ "area" ++ quote ++ ": 4250.6, "
      ++ quote ++ "latitude" ++ quote ++ ": 54.4848, "
      ++ quote ++ "longitude" ++ quote ++ ": -123.3659}".

Definition properties_dict : gmap string pyval :=
  {[ "area" := PFloat (Float 42506 1);
     "latitude" := PFloat (Float 544848 4);
     "longitude" := PFloat (Float (-1233659) 4) ]}.

(** The text of the [nc_spec] input and the dictionary it denotes. *)
Definition nc_spec_json : string :=
  "{" ++ quote ++ "elevation" ++ quote ++ ": 0.0, "
      ++ quote ++ "tasmax" ++ quote ++ ": {"
      ++ quote ++ "linear_transform" ++ quote ++ ": [1.0, -273.15]}}".

Definition nc_spec_dict : gmap string pyval :=
  {[ "elevation" := PFloat (Float 0 1);
     "tasmax" :=
       PDict {[ "linear_transform" :=
                  PList [PFloat (Float 10 1); PFloat (Float (-27315) 2)] ]} ]}.

(** A decoder that knows the two texts above. *)
Definition decode (v : pyval) : result pyval :=
  match v with
  | PStr text =>
      if bool_decide (text = properties_json) then inr (PDict properties_dict)
      else if bool_decide (text = nc_spec_json) then inr (PDict nc_spec_dict)
      else inl (PyExc "JSONDecodeError" "Expecting value")
  | _ => inl (TypeError "the JSON object must be str, bytes or bytearray")
  end.

(** A traceback: the header, the frames of the handler and of the library,
    and the exception. *)
Definition frames : string :=
  "  File " ++ quote ++ "/opt/raven/raven/processes/wps_regionalisation.py"
            ++ quote ++ ", line 196, in _handler" ++ newline
  ++ "    qsim, ensemble = regionalize(" ++ newline
  ++ "  File " ++ quote ++ "/opt/ravenpy/ravenpy/utilities/regionalization.py"
               ++ quote ++ ", line 118, in regionalize" ++ newline
  ++ "    qsims = [run(*params, **kwds) for params in reg_params]" ++ newline
  ++ "  File " ++ quote ++ "/opt/ravenpy/ravenpy/models/base.py"
               ++ quote ++ ", line 512, in run" ++ newline
  ++ "    raise RavenError(<messages of the Raven executable>)" ++ newline.

Definition traceback (e : exn) : string :=
  "Traceback (most recent call last):" ++ newline ++ frames
  ++ match e with
     | PyExc cls msg => cls ++ ": " ++ msg
     | ProcessError msg _ _ _ => "pywps.app.exceptions.ProcessError: " ++ msg
     end
  ++ newline.

Definition runtime : Runtime := {|
  json_loads := decode;
  update_iterable := λ _ _,
    inl (TypeError "cannot convert dictionary update sequence element");
  format_exc := traceback;
  path_join := λ directory name, directory ++ "/" ++ name
|}.

(** Libraries whose routines return, or raise, what they are given.  The
    scores are numbers, a parameter set is a list of numbers, the gauged
    properties are the names of the properties read, and a dataset is its
    name. *)
Definition library
    (gauged_params : result (list pyfloat * list (list pyfloat)))
    (properties_error : option exn)
    (regionalized : result (string * string))
  : RavenPy (list pyfloat) (list (list pyfloat)) (gset string) string := {|
  read_gauged_params := λ _, gauged_params;
  read_gauged_properties := λ keys,
    match properties_error with None => inr keys | Some e => inl e end;
  regionalize := λ _, regionalized
|}.

Definition scores : list pyfloat := [Float 71 2; Float 65 2].
Definition parameter_sets : list (list pyfloat) :=
  [[Float 529 3; Float (-3396) 3]; [Float 9 1; Float (-21) 1]].

Definition lib_ok :=
  library (inr (scores, parameter_sets)) None (inr ("qsim", "ensemble")).

Definition missing_file : exn :=
  PyExc "FileNotFoundError" "GR4JCN_parameters.csv".
Definition lib_no_params :=
  library (inl missing_file) None (inr ("qsim", "ensemble")).

Definition unknown_property : exn := PyExc "KeyError" "area".
Definition lib_no_properties :=
  library (inr (scores, parameter_sets)) (Some unknown_property)
          (inr ("qsim", "ensemble")).

Definition raven_error : exn := PyExc "RavenError" "no convergence".
Definition lib_failing :=
  library (inr (scores, parameter_sets)) None (inl raven_error).

(** A request: [latitude] occurs twice, and [elevation] is also a key of
    [nc_spec]. *)
Definition request : gmap string (list wps_input) :=
  {[ "ts" := [Input (PStr "") "/data/meteo.nc"; Input (PStr "") "/data/qobs.nc"];
     "model_name" := [Input (PStr "GR4JCN") ""];
     "method" := [Input (PStr "SP_IDW") ""];
     "ndonors" := [Input (PInt 5) ""];
     "min_NSE" := [Input (PFloat (Float 6 1)) ""];
     "properties" := [Input (PStr properties_json) "/tmp/properties.json"];
     "nc_spec" := [Input (PStr nc_spec_json) ""];
     "latitude" := [Input (PFloat (Float 544848 4)) "";
                    Input (PFloat (Float 0 1)) ""];
     "elevation" := [Input (PFloat (Float 8430 1)) ""] ]}.

Definition start
  : state (nc_file string)
          (lib_call (list pyfloat) (list (list pyfloat)) (gset string)) :=
  State request []
        {[ "hydrograph" := Output None; "ensemble" := Output None ]}
        [] ∅ [].

Definition workdir : string := "/tmp/pywps/job-1".

(** The runs of the handler on this request, with each library. *)
Definition run_ok := _handler (rt := runtime) (lib := lib_ok) workdir start.
Definition run_no_params :=
  _handler (rt := runtime) (lib := lib_no_params) workdir start.
Definition run_no_properties :=
  _handler (rt := runtime) (lib := lib_no_properties) workdir start.
Definition run_failing :=
  _handler (rt := runtime) (lib := lib_failing) workdir start.

(** The same request and response, at a later time: the logger, the file
    system and the trace hold what earlier invocations left. *)
Definition start_later
  : state (nc_file string)
          (lib_call (list pyfloat) (list (list pyfloat)) (gset string)) :=
  State request []
        {[ "hydrograph" := Output None; "ensemble" := Output None ]}
        [missing_file]
        {[ "/tmp/pywps/job-0/qsim.nc" := NetCDF "qsim of job-0" ]}
        [Call_read_gauged_params (PStr "HMETS")].

(** The arguments [regionalize] is expected to be called with. *)
Definition expected_args
  : regionalize_args (list pyfloat) (list (list pyfloat)) (gset string) :=
  Args (PStr "SP_IDW") (PStr "GR4JCN") scores parameter_sets
       (dom properties_dict) properties_dict
       (PInt 5) (PFloat (Float 6 1)) ["/data/meteo.nc"; "/data/qobs.nc"]
       (Kwargs {[ "latitude" := PFloat (Float 544848 4);
                  "elevation" := PFloat (Float 8430 1);
                  "tasmax" :=
                    PDict {[ "linear_transform" :=
                      PList [PFloat (Float 10 1); PFloat (Float (-27315) 2)] ]} ]}
               false).

(** A library whose [regionalize] returns what it is given: a dataset is
    its name with the arguments of the call that made it.  The gauged
    parameters are known for the model [GR4JCN] only. *)
Definition echo : Type :=
  string * regionalize_args (list pyfloat) (list (list pyfloat)) (gset string).

Definition lib_echo
  : RavenPy (list pyfloat) (list (list pyfloat)) (gset string) echo := {|
  read_gauged_params := λ model_name,
    match model_name with
    | PStr name =>
        if bool_decide (name = "GR4JCN") then inr (scores, parameter_sets)
        else inl missing_file
    | _ => inl missing_file
    end;
  read_gauged_properties := λ keys, inr keys;
  regionalize := λ a, inr (("qsim", a), ("ensemble", a))
|}.

Definition start_echo
  : state (nc_file echo)
          (lib_call (list pyfloat) (list (list pyfloat)) (gset string)) :=
  State request []
        {[ "hydrograph" := Output None; "ensemble" := Output None ]}
        [] ∅ [].

Definition run_echo :=
  _handler (rt := runtime) (lib := lib_echo) workdir start_echo.

End Example.

(** ** What the forecast-graph handler is expected to do *)

Module GraphFcstSpec.
Import GraphFcstUncertainty.

Section Spec.

Context {figure_t : Type} {rt : Runtime} {lib : Graphs figure_t}.

Local Abbreviation state := (state (fig_file figure_t) (lib_call figure_t)).

(** The file the figure is saved in. *)
Definition figure_path (workdir : string) : string :=
  path_join workdir "forecast_hydrographs.png".

(** From [s] to [s'], the figure [fig] was saved in the working directory
    and that file was set as the [graph_forecasts] output; nothing else was
    written or set. *)
Definition saved (workdir : string) (fig : figure_t) (s s' : state) : Prop :=
  files s' = <[figure_path workdir := Saved fig]> (files s)
  ∧ resp_outputs s'
    = <["graph_forecasts" := Output (Some (figure_path workdir))]>
        (resp_outputs s).

End Spec.

End GraphFcstSpec.
Import GraphFcstSpec.

Module GraphExample.
Import GraphFcstUncertainty Example.

(** Plotting helpers that return the description of the figure they would
    draw. *)
Definition graphs : Graphs string := {|
  hindcast := λ sim_fn _ qobs_fn _,
    inr ("hindcast of " ++ sim_fn ++ " against " ++ qobs_fn);
  forecast := λ sim_fn _, inr ("forecast of " ++ sim_fn)
|}.

Definition fcst_in : wps_input := Input (PStr "") "/data/fcst.nc".
Definition fcst_var_in : wps_input := Input (PStr "q_sim") "".
Definition qobs_in : wps_input := Input (PStr "") "/data/qobs.nc".
Definition qobs_var_in : wps_input := Input (PStr "q_obs") "".

(** A request with observations, and one without. *)
Definition hindcast_request : gmap string (list wps_input) :=
  {[ "fcst" := [fcst_in]; "fcst_var" := [fcst_var_in];
     "qobs" := [qobs_in]; "qobs_var" := [qobs_var_in] ]}.

Definition forecast_request : gmap string (list wps_input) :=
  {[ "fcst" := [fcst_in]; "fcst_var" := [fcst_var_in];
     "qobs_var" := [qobs_var_in] ]}.

Definition start (request : gmap string (list wps_input))
  : state (fig_file string) (lib_call string) :=
  State request [] {[ "graph_forecasts" := Output None ]} [] ∅ [].

Definition start_later (request : gmap string (list wps_input))
  : state (fig_file string) (lib_call string) :=
  State request [] {[ "graph_forecasts" := Output None ]}
        [raven_error]
        {[ "/tmp/pywps/job-0/forecast_hydrographs.png" := Saved "old figure" ]}
        [Call_close "old figure"].

Definition run_hindcast :=
  _handler (rt := runtime) (lib := graphs) workdir (start hindcast_request).
Definition run_forecast :=
  _handler (rt := runtime) (lib := graphs) workdir (start forecast_request).

End GraphExample.


(** ** What a handler may do to the state it is given *)

Module Effects.

Section Effects.

Context {file_t call_t : Type}.

(** From [s] to [s']: inputs were only taken out of the request; status
    updates, log records and calls were only added; the response has the
    same outputs, changed at most at the keys in [set]; no file was
    removed, and files were changed at most at the paths in [written]. *)
Record bounded (written set : string → Prop)
    (s s' : state file_t call_t) : Prop := Bounded {
  b_inputs : req_inputs s' ⊆ req_inputs s;
  b_status : resp_status s `prefix_of` resp_status s';
  b_outputs_dom : dom (resp_outputs s') = dom (resp_outputs s);
  b_outputs : ∀ key, ¬ set key → resp_outputs s' !! key = resp_outputs s !! key;
  b_log : log s `prefix_of` log s';
  b_files_dom : dom (files s) ⊆ dom (files s');
  b_files : ∀ path, ¬ written path → files s' !! path = files s !! path;
  b_calls : calls s `prefix_of` calls s'
}.

(** Every run of [m] relates the state it starts from and the state it
    ends in by [R], whether it returns or raises. *)
Definition keeps {A} (R : relation (state file_t call_t))
    (m : M file_t call_t A) : Prop :=
  ∀ s, R s (m s).2.

End Effects.

End Effects.
Import Effects.

(** ** The regionalisation handler, run forward *)

Module RegionalisationRun.
Import Regionalisation.

Section Run.

Context {nash_t params_t props_t dataset_t : Type}.
Context {rt : Runtime} {lib : RavenPy nash_t params_t props_t dataset_t}.

Local Abbreviation state :=
  (state (nc_file dataset_t) (lib_call nash_t params_t props_t)).
Local Abbreviation regionalize_args :=
  (regionalize_args nash_t params_t props_t).

(** The two files of the process, and the two outputs they are for. *)
Definition qsim_path (workdir : string) : string :=
  path_join workdir "qsim.nc".
Definition ensemble_path (workdir : string) : string :=
  path_join workdir "ensemble.nc".

Definition output_file (workdir path : string) : Prop :=
  path = qsim_path workdir ∨ path = ensemble_path workdir.

Definition output_key (key : string) : Prop :=
  key = "hydrograph" ∨ key = "ensemble".

(** The inputs the handler cannot do without, in the order it takes them
    out of the request. *)
Definition required : list string :=
  ["ts"; "model_name"; "method"; "ndonors"; "min_NSE"; "properties"].

(** The input [key] is in the request [inp], with an occurrence. *)
Definition occurs (inp : gmap string (list wps_input)) (key : string)
  : Prop :=
  ∃ e rest, inp !! key = Some (e :: rest).

(** From [s] to [s'] nothing but the request has changed. *)
Definition only_request_changed (s s' : state) : Prop :=
  resp_status s' = resp_status s
  ∧ resp_outputs s' = resp_outputs s
  ∧ log s' = log s
  ∧ files s' = files s
  ∧ calls s' = calls s.

(** The request once the handler has taken its own inputs out. *)
Definition left_over (inp : gmap string (list wps_input))
  : gmap string (list wps_input) :=
  delete "nc_spec" (delete "properties" (delete "min_NSE" (delete "ndonors"
    (delete "method" (delete "model_name" (delete "ts" inp)))))).

(** The occurrences of [nc_spec], none when the input is not there. *)
Definition nc_specs (inp : gmap string (list wps_input)) : list wps_input :=
  default [] (inp !! "nc_spec").

(** One turn of the loop over the occurrences of [nc_spec], seen as a
    function of the keyword arguments. *)
Definition nc_step (kwds : kwargs) (spec : wps_input) : result kwargs :=
  match json_loads (data spec) with
  | inr v => kw_update kwds v
  | inl e => inl e
  end.

(** The occurrences [specs] decode to the dictionaries [ds]. *)
Definition decoded (specs : list wps_input) (ds : list (gmap string pyval))
  : Prop :=
  Forall2 (λ spec d, json_loads (data spec) = inr (PDict d)) specs ds.

(** Dictionaries merged in order: a later one overrides the earlier
    ones. *)
Definition nc_merge (ds : list (gmap string pyval)) : gmap string pyval :=
  foldl (λ acc d, d ∪ acc) ∅ ds.

(** The data of the first occurrence of every input of [inp]. *)
Definition first_data_of (inp : gmap string (list wps_input))
  : gmap string pyval :=
  omap (λ l, data <$> head l) inp.

(** Every input of [inp] has an occurrence. *)
Definition all_occur (inp : gmap string (list wps_input)) : Prop :=
  ∀ key l, inp !! key = Some l → l ≠ [].

(** The keyword arguments expected from the request [inp] whose [nc_spec]
    occurrences decode to [ds]. *)
Definition keywords (inp : gmap string (list wps_input))
    (ds : list (gmap string pyval)) : kwargs :=
  Kwargs (first_data_of (left_over inp) ∪ nc_merge ds) false.

(** The status updates of a complete run. *)
Definition progress : list (string * Z) :=
  [("Inputs are read", 1%Z); ("Gauged params are read", 2%Z);
   ("Gauged properties are read", 3%Z); ("Computed regionalization", 99%Z)].

(** The request [inp] can be read, [ds] are its decoded [nc_spec]
    occurrences, the library reads the gauged catchments, and [a] are the
    arguments the request gives for [regionalize]. *)
Record well_formed (inp : gmap string (list wps_input))
    (ds : list (gmap string pyval)) (a : regionalize_args) : Prop := {
  wf_forwarded : forwarded inp a;
  wf_decoded : decoded (nc_specs inp) ds;
  wf_occur : all_occur (left_over inp);
  wf_kwds : a_kwds a = keywords inp ds
}.

(** The run expected from [s] when its request is well formed and gives
    the arguments [a]: three status updates and the three library calls;
    then the report of the exception of [regionalize], or the fourth status
    update and the two files and outputs, up to the first output that the
    response does not have. *)
Definition expected_run (workdir : string) (s : state) (a : regionalize_args)
  : result unit * state :=
  let inp := left_over (req_inputs s) in
  let called := (calls s ++ library_calls a)%list in
  match call_regionalize a with
  | inl e =>
      (inl (reported e),
       State inp (resp_status s ++ take 3 progress) (resp_outputs s)
             (log s ++ [e]) (files s) called)
  | inr (qsim, ensemble) =>
      let files1 := <[qsim_path workdir := NetCDF qsim]> (files s) in
      let files2 := <[ensemble_path workdir := NetCDF ensemble]> files1 in
      let outputs1 :=
        <["hydrograph" := Output (Some (qsim_path workdir))]>
          (resp_outputs s) in
      let outputs2 :=
        <["ensemble" := Output (Some (ensemble_path workdir))]> outputs1 in
      match resp_outputs s !! "hydrograph", resp_outputs s !! "ensemble" with
      | None, _ =>
          (inl (KeyError "hydrograph"),
           State inp (resp_status s ++ progress) (resp_outputs s)
                 (log s) files1 called)
      | Some _, None =>
          (inl (KeyError "ensemble"),
           State inp (resp_status s ++ progress) outputs1
                 (log s) files2 called)
      | Some _, Some _ =>
          (inr tt,
           State inp (resp_status s ++ progress) outputs2
                 (log s) files2 called)
      end
  end.

End Run.

End RegionalisationRun.
Import RegionalisationRun.

(** ** The forecast-graph handler, run forward *)

Module GraphRun.
Import GraphFcstUncertainty.

Section Run.

Context {figure_t : Type} {rt : Runtime} {lib : Graphs figure_t}.

Local Abbreviation state := (state (fig_file figure_t) (lib_call figure_t)).

(** From [s] to [s'] the request, the status of the response and the log
    are the same. *)
Definition untouched (s s' : state) : Prop :=
  req_inputs s' = req_inputs s
  ∧ resp_status s' = resp_status s
  ∧ log s' = log s.

(** [request.inputs[key][0]] as a value: the first occurrence of the
    input, or the exception of the lookup. *)
Definition item0 (inp : gmap string (list wps_input)) (key : string)
  : result wps_input :=
  match inp !! key with
  | Some (e :: _) => inr e
  | Some [] => inl IndexError
  | None => inl (KeyError key)
  end.

(** The inputs the handler reads, in the order it reads them: [qobs] and
    [qobs_var] only when [qobs] is in the request. *)
Definition read_inputs (inp : gmap string (list wps_input)) : list string :=
  if bool_decide (is_Some (inp !! "qobs"))
  then ["fcst"; "fcst_var"; "qobs"; "qobs_var"]
  else ["fcst"; "fcst_var"].

(** The call of a plotting helper that the request asks for, with what
    the helper answers; or the exception of the first input that cannot be
    read. *)
Definition helper (inp : gmap string (list wps_input))
  : result (lib_call figure_t * result figure_t) :=
  match item0 inp "fcst" with
  | inl e => inl e
  | inr sim =>
  match item0 inp "fcst_var" with
  | inl e => inl e
  | inr fv =>
  match inp !! "qobs" with
  | Some _ =>
      match item0 inp "qobs" with
      | inl e => inl e
      | inr qo =>
      match item0 inp "qobs_var" with
      | inl e => inl e
      | inr qv =>
          inr (Call_hindcast (file sim) (data fv) (file qo) (data qv),
               hindcast (file sim) (data fv) (file qo) (data qv))
      end end
  | None =>
      inr (Call_forecast (file sim) (data fv),
           forecast (file sim) (data fv))
  end end end.

(** The name under which a declared input or output is looked up. *)
Definition declared (d : declaration) : string :=
  match d with
  | Literal i => lit_identifier i
  | Complex i => cx_identifier i
  | ComplexOut o => co_identifier o
  | Wio name => name
  end.

(** The states [s1] and [s2] differ in their requests only. *)
Definition same_response (s1 s2 : state) : Prop :=
  resp_status s1 = resp_status s2
  ∧ resp_outputs s1 = resp_outputs s2
  ∧ log s1 = log s2
  ∧ files s1 = files s2
  ∧ calls s1 = calls s2.

End Run.

End GraphRun.
Import GraphRun.

(** ** More requests and libraries to run the handlers on *)

Module Cases.
Import Regionalisation GraphFcstUncertainty Example GraphExample.

Local Abbreviation reg_state :=
  (state (nc_file string)
         (Regionalisation.lib_call (list pyfloat) (list (list pyfloat))
                                   (gset string))).

(** The example request on a response with the given outputs. *)
Definition start_with (request : gmap string (list wps_input))
    (outputs : gmap string wps_output) : reg_state :=
  State request [] outputs [] ∅ [].

(** The example request without its [method] input. *)
Definition without_method : reg_state :=
  start_with (delete "method" request)
             {[ "hydrograph" := Output None; "ensemble" := Output None ]}.

(** The example request with a [properties] text that is cut short. *)
Definition truncated : reg_state :=
  start_with
    (<["properties" := [Input (PStr "{") "/tmp/properties.json"]]> request)
    {[ "hydrograph" := Output None; "ensemble" := Output None ]}.

(** A decoder that also knows the empty JSON array, and the example
    request with that text as its [properties]. *)
Definition runtime_arrays : Runtime := {|
  json_loads := λ v,
    match v with
    | PStr text =>
        if bool_decide (text = "[]") then inr (PList []) else decode v
    | _ => decode v
    end;
  update_iterable := update_iterable (Runtime := runtime);
  format_exc := format_exc (Runtime := runtime);
  path_join := path_join (Runtime := runtime)
|}.

Definition with_array : reg_state :=
  start_with
    (<["properties" := [Input (PStr "[]") "/tmp/properties.json"]]> request)
    {[ "hydrograph" := Output None; "ensemble" := Output None ]}.

(** A second [nc_spec] text, which gives [tasmax] again, and [pr]; a
    decoder that knows it; and the example request with the two [nc_spec]
    occurrences, for the library whose [regionalize] returns its
    arguments. *)
Definition nc_spec_json2 : string :=
  "{" ++ quote ++ "tasmax" ++ quote ++ ": {"
      ++ quote ++ "scale" ++ quote ++ ": 1.0}, "
      ++ quote ++ "pr" ++ quote ++ ": 86400}".

Definition nc_spec_dict2 : gmap string pyval :=
  {[ "tasmax" := PDict {[ "scale" := PFloat (Float 10 1) ]};
     "pr" := PInt 86400 ]}.

Definition runtime_specs : Runtime := {|
  json_loads := λ v,
    match v with
    | PStr text =>
        if bool_decide (text = nc_spec_json2) then inr (PDict nc_spec_dict2)
        else decode v
    | _ => decode v
    end;
  update_iterable := update_iterable (Runtime := runtime);
  format_exc := format_exc (Runtime := runtime);
  path_join := path_join (Runtime := runtime)
|}.

Definition two_specs
  : state (nc_file echo)
          (Regionalisation.lib_call (list pyfloat) (list (list pyfloat))
                                    (gset string)) :=
  State (<["nc_spec" := [Input (PStr nc_spec_json) "";
                         Input (PStr nc_spec_json2) ""]]> request)
        []
        {[ "hydrograph" := Output None; "ensemble" := Output None ]}
        [] ∅ [].

(** The example request on a response that has no outputs. *)
Definition no_outputs : reg_state := start_with request ∅.

(** Plotting helpers that raise. *)
Definition no_variable : exn := PyExc "KeyError" "q_sim".
Definition graphs_failing : Graphs string := {|
  hindcast := λ _ _ _ _, inl no_variable;
  forecast := λ _ _, inl no_variable
|}.

(** The request for a forecast without its [fcst_var] input. *)
Definition no_fcst_var : state (fig_file string) (GraphFcstUncertainty.lib_call string) :=
  GraphExample.start (delete "fcst_var" forecast_request).

(** The request for a forecast on a response that has no outputs. *)
Definition no_graph_output
  : state (fig_file string) (GraphFcstUncertainty.lib_call string) :=
  State forecast_request [] ∅ [] ∅ [].

(** The request for a hindcast with an input the process does not
    declare. *)
Definition with_undeclared
  : state (fig_file string) (GraphFcstUncertainty.lib_call string) :=
  GraphExample.start
    (<["title" := [Input (PStr "Salmon River") ""]]> hindcast_request).

End Cases.

(** ** The diagnostics check of the tests
    [test_wps_raven_mohyse.py], [test_wps_ostrich_gr4j_cemaneige.py] *)

Module TestDiagnostics.

(** [text.split(sep)], for a separator of one character. *)
Fixpoint split (sep : ascii) (text : string) : list string :=
  match text with
  | "" => [""]
  | String c rest =>
      if bool_decide (c = sep) then "" :: split sep rest
      else match split sep rest with
           | item :: items => String c item :: items
           | [] => [String c ""]
           end
  end.

(** [l.index(x)] *)
Fixpoint index (l : list string) (x : string) : result nat :=
  match l with
  | [] => inl (PyExc "ValueError" ("'" ++ x ++ "' is not in list"))
  | y :: l' =>
      if bool_decide (y = x) then inr 0%nat
      else match index l' x with
           | inr i => inr (S i)
           | inl e => inl e
           end
  end.

(** [text.startswith(sub)] and [sub in text] *)
Fixpoint startswith (sub text : string) : bool :=
  match sub, text with
  | "", _ => true
  | String a sub', String b text' =>
      bool_decide (a = b) && startswith sub' text'
  | String _ _, "" => false
  end.

Fixpoint contains (sub text : string) : bool :=
  startswith sub text
  || match text with
     | "" => false
     | String _ rest => contains sub rest
     end.

(** [l[i]] on a list, for an index that is not negative. *)
Definition item {A} (l : list A) (i : nat) : result A :=
  match l !! i with
  | Some x => inr x
  | None => inl (PyExc "IndexError" "list index out of range")
  end.

Definition AssertionError : exn := PyExc "AssertionError" "".

Section Diagnostic.

(** [float(text)] (and [np.float], its alias): the number that the text
    denotes, or the [ValueError] of a text that denotes none. *)
Context {number : Type} (float : string → result number).

(** The lines of [test_simple] that read the diagnostic [name] off the
    lines [tmp_content] of the diagnostics file: the assertion on the
    header, the position of the column, the item of the second line at
    that position, and its conversion by [float].  The result is the value
    of [diag]. *)
Definition read_diagnostic (name : string) (tmp_content : list string)
  : result number :=
  match item tmp_content 0 with
  | inl e => inl e
  | inr header =>
  if negb (contains name header) then inl AssertionError else
  match index (split "," header) name with
  | inl e => inl e
  | inr idx_diag =>
  match item tmp_content 1 with
  | inl e => inl e
  | inr line =>
  match item (split "," line) idx_diag with
  | inl e => inl e
  | inr text => float text
  end end end end.

End Diagnostic.

End TestDiagnostics.
(** * Properties *)

(** ** The handler monad *)

Section MonadFacts.

Context {file_t call_t : Type}.

Local Abbreviation state := (state file_t call_t).
Local Abbreviation M := (M file_t call_t).

Lemma state_eta (s : state) :
  State (req_inputs s) (resp_status s) (resp_outputs s)
        (log s) (files s) (calls s) = s.
Proof. by destruct s. Qed.

(** A loop whose body leaves the state alone is a pure fold. *)
Lemma for_each_pure {A B} (f : B → A → M B) (g : B → A → result B) s l :
  (∀ acc x, f acc x s = (g acc x, s)) →
  ∀ acc, for_each f acc l s = (fold_result g acc l, s).
Proof.
  intros Hf. induction l as [|x l IH]; intros acc; simpl; [done|].
  unfold bind. rewrite Hf. destruct (g acc x) as [e|acc']; [done|apply IH].
Qed.






















End MonadFacts.

(** ** The message of a [ProcessError] *)

Section PywpsFacts.
Import PywpsExceptions.

Lemma append_empty_r (s : string) : (s ++ "")%string = s.
Proof.
  induction s as [|c s IH]; [done|].
  change (String c (s ++ "") = String c s)%string. by f_equal.
Qed.

Lemma append_assoc (s1 s2 s3 : string) :
  ((s1 ++ s2) ++ s3)%string = (s1 ++ (s2 ++ s3))%string.
Proof.
  induction s1 as [|c s1 IH]; [done|].
  change (String c ((s1 ++ s2) ++ s3) = String c (s1 ++ (s2 ++ s3)))%string.
  by f_equal.
Qed.

(** A text whose characters all pass is one run. *)
Lemma findall_all_ok ok text : ∀ cur,
  (∀ c, c ∈ list_ascii_of_string text → ok c = true) →
  findall ok text cur
  = match (cur ++ text)%string with EmptyString => [] | run => [run] end.
Proof.
  induction text as [|c text IH]; intros cur Hall; cbn [findall].
  - rewrite append_empty_r. by destruct cur.
  - rewrite Hall by (simpl; apply list_elem_of_here).
    rewrite IH, append_assoc; [done|].
    intros c' Hc'. apply Hall. simpl. by apply list_elem_of_further.
Qed.

Lemma length_append (s1 s2 : string) :
  String.length (s1 ++ s2)%string = (String.length s1 + String.length s2)%nat.
Proof.
  induction s1 as [|c s1 IH]; [done|].
  change (S (String.length (s1 ++ s2)%string)
          = S (String.length s1 + String.length s2)). by f_equal.
Qed.

(** Cutting a text into runs and joining them with spaces does not make
    it longer. *)
Lemma findall_length ok text : ∀ cur,
  (String.length (String.concat " " (findall ok text cur))
   ≤ String.length cur + String.length text)%nat.
Proof.
  induction text as [|c text IH]; intros cur; cbn [findall].
  - destruct cur; simpl; lia.
  - destruct (ok c).
    + specialize (IH (cur ++ String c "")%string).
      rewrite length_append in IH. simpl in *. lia.
    + specialize (IH ""%string). destruct cur as [|c0 cur]; [simpl in *; lia|].
      cbn [String.concat].
      destruct (findall ok text "") as [|run runs]; [simpl; lia|].
      rewrite !length_append. simpl in *. lia.
Qed.

Lemma cleaned_length allowed_chars text :
  (String.length (cleaned allowed_chars text) ≤ String.length text)%nat.
Proof. apply (findall_length _ text ""%string). Qed.

(** [msg[:n]] of a text of at most [n] characters is the text. *)
Lemma substring_whole (n : nat) (s : string) :
  (String.length s ≤ n)%nat → substring 0 n s = s.
Proof.
  revert n. induction s as [|c s IH]; intros [|n] Hlen; simpl in *;
    try done; try lia.
  f_equal. apply IH. lia.
Qed.

(** [msg[:n]] has at most [n] characters, the first ones of the text. *)
Lemma substring_length (n : nat) (s : string) :
  String.length (substring 0 n s) = (n `min` String.length s)%nat.
Proof.
  revert n. induction s as [|c s IH]; intros [|n]; simpl; try done.
  by rewrite IH.
Qed.

(** What the client is shown is the fixed sentence or a text of at most
    [max_length] characters. *)
Lemma message_limited text max_length allowed_chars :
  message text max_length allowed_chars = default_msg
  ∨ (String.length (message text max_length allowed_chars) ≤ max_length)%nat.
Proof.
  unfold message, format_message.
  destruct (default_min_length <=? _)%nat; [|by left].
  destruct (substring 0 max_length _) as [|c m] eqn:Hcut; [by left|].
  right. rewrite <- Hcut, substring_length. lia.
Qed.

(** With the length of the text as the limit, the limit never applies:
    the cleaned text is shown, unless it is shorter than the minimum. *)
Lemma message_not_cut text :
  message text (String.length text) printable
  = if (default_min_length <=? String.length (cleaned printable text))%nat
    then cleaned printable text else default_msg.
Proof.
  unfold message.
  replace (match printable with
           | EmptyString => DEFAULT_ALLOWED_CHARS
           | _ => printable
           end) with printable by reflexivity.
  unfold format_message. fold (cleaned printable text).
  pose proof (cleaned_length printable text) as Hle.
  destruct (default_min_length <=? String.length (cleaned printable text))%nat
    eqn:Hmin; [|done].
  rewrite substring_whole by done.
  destruct (cleaned printable text); [|done].
  apply Nat.leb_le in Hmin. unfold default_min_length in Hmin.
  simpl in Hmin. lia.
Qed.

(** With the length of the text as the limit and [string.printable] as the
    allowed characters, a text of at least three printable characters is
    shown as it is. *)
Lemma message_printable text :
  (3 ≤ String.length text)%nat →
  (∀ c, c ∈ list_ascii_of_string text → c ∈ list_ascii_of_string printable) →
  message text (String.length text) printable = text.
Proof.
  intros Hlen Hprint. unfold message.
  replace (match printable with
           | EmptyString => DEFAULT_ALLOWED_CHARS
           | _ => printable
           end) with printable by reflexivity.
  unfold format_message.
  rewrite findall_all_ok.
  - destruct text as [|c text]; [simpl in Hlen; lia|].
    change ("" ++ String c text)%string with (String c text).
    cbn [String.concat].
    replace (default_min_length <=? String.length (String c text))%nat
      with true by (symmetry; by apply Nat.leb_le).
    by rewrite substring_whole.
  - intros c Hc. unfold allowed. apply orb_true_iff. right.
    apply bool_decide_eq_true. by apply Hprint.
Qed.

End PywpsFacts.

(** ** The regionalisation handler *)

Section RegionalisationFacts.
Import Regionalisation.

Context {nash_t params_t props_t dataset_t : Type}.
Context {rt : Runtime} {lib : RavenPy nash_t params_t props_t dataset_t}.

Local Abbreviation state :=
  (state (nc_file dataset_t) (lib_call nash_t params_t props_t)).
Local Abbreviation regionalize_args :=
  (regionalize_args nash_t params_t props_t).

Lemma remaining_fold inp items : ∀ kw kw',
  fold_result (remaining_step inp) kw items = inr kw' →
  kw_other kw' = kw_other kw
  ∧ (∀ key, key ∉ items.*1 → kw_named kw' !! key = kw_named kw !! key)
  ∧ (∀ key e rest, key ∈ items.*1 → inp !! key = Some (e :: rest) →
       kw_named kw' !! key = Some (data e)).
Proof.
  induction items as [|[k l] items IH]; intros kw kw'; simpl.
  - intros [= <-]. split; [done|]. split; [done|].
    intros key e rest Hin. by apply elem_of_nil in Hin.
  - unfold remaining_step at 1; simpl.
    destruct (inp !! k) as [[|e0 l0]|] eqn:Hk; try done.
    intros Hfold. destruct (IH _ _ Hfold) as (Hother & Hout & Hin).
    split; [done|]. split.
    + intros key Hkey. apply not_elem_of_cons in Hkey as [Hne Hkey].
      rewrite (Hout key Hkey). simpl. by rewrite lookup_insert_ne.
    + intros key e rest Hkey Hlook.
      destruct (decide (key ∈ items.*1)) as [Hi|Hi]; [by eapply Hin|].
      apply elem_of_cons in Hkey as [->|Hkey]; [|done].
      rewrite (Hout k Hi). simpl. rewrite lookup_insert_eq. congruence.
Qed.

Lemma read_remaining_run kw (s : state) :
  read_remaining kw s
  = (fold_result (remaining_step (req_inputs s)) kw
                 (map_to_list (req_inputs s)), s).
Proof.
  unfold read_remaining, input_items, bind.
  apply for_each_pure. intros acc [k l]. unfold remaining_step, get_input; simpl.
  by destruct (req_inputs s !! k) as [[|e l']|].
Qed.

Lemma read_remaining_inv kw kw' (s s1 : state) :
  read_remaining kw s = (inr kw', s1) →
  s1 = s
  ∧ kw_other kw' = kw_other kw
  ∧ ∀ key e rest, req_inputs s !! key = Some (e :: rest) →
                  kw_named kw' !! key = Some (data e).
Proof.
  rewrite read_remaining_run. intros [= Hfold <-]. split; [done|].
  destruct (remaining_fold _ _ _ _ Hfold) as (Hother & _ & Hin).
  split; [done|]. intros key e rest Hlook. eapply Hin; [|done].
  apply list_elem_of_fmap. exists (key, e :: rest). split; [done|].
  by apply elem_of_map_to_list.
Qed.

Lemma read_nc_spec_run (s : state) :
  (read_nc_spec s).2
  = State (delete "nc_spec" (req_inputs s)) (resp_status s) (resp_outputs s)
          (log s) (files s) (calls s).
Proof.
  unfold read_nc_spec, bind, pop_input_default.
  set (body := λ (kwds : kwargs) (spec : wps_input),
         match json_loads (data spec) with
         | inr v => kw_update kwds v
         | inl e => inl e
         end).
  destruct (req_inputs s !! "nc_spec") as [specs|] eqn:Hnc.
  - rewrite (for_each_pure _ body); [by destruct (fold_result _ _ _)|].
    intros acc x. unfold body, bind, lift.
    by destruct (json_loads (data x)).
  - simpl. by rewrite delete_id, state_eta.
Qed.

Lemma copy_fold (d : gmap string pyval) (s : state) (ks : list string) :
  ∀ acc : gmap string pyval,
  (∀ k, k ∈ ks → is_Some (d !! k)) →
  ∃ m : gmap string pyval,
       for_each
         (λ (acc : gmap string pyval) key,
            match d !! key with
            | Some v => ret (<[key := v]> acc)
            | None => raise (KeyError key)
            end) acc ks s = (inr m, s)
       ∧ ∀ k, m !! k = if decide (k ∈ ks) then d !! k else acc !! k.
Proof.
  induction ks as [|k0 ks IH]; intros acc Hks; cbn [for_each].
  - exists acc. split; [done|]. intros k.
    destruct (decide (k ∈ [])) as [Hk|_]; [by apply elem_of_nil in Hk|done].
  - destruct (Hks k0) as [v Hv]; [by left|].
    unfold bind at 1. rewrite Hv. unfold ret at 1.
    destruct (IH (<[k0 := v]> acc)) as (m & Hm & Hlook).
    { intros k Hk. apply Hks. by right. }
    exists m. split; [done|]. intros k. rewrite Hlook.
    destruct (decide (k ∈ ks)) as [Hi|Hi];
      destruct (decide (k ∈ k0 :: ks)) as [Hj|Hj]; try done.
    + exfalso. apply Hj. by right.
    + apply elem_of_cons in Hj as [->|?]; [|done]. by rewrite lookup_insert_eq.
    + rewrite lookup_insert_ne; [done|]. intros <-. apply Hj. by left.
Qed.

Lemma copy_properties_run d (s : state) :
  copy_properties (PDict d) s = (inr d, s).
Proof.
  unfold copy_properties.
  destruct (copy_fold d s (map_to_list d).*1 ∅) as (m & -> & Hm).
  { intros k [[k' v] [-> Hkv]]%list_elem_of_fmap.
    apply elem_of_map_to_list in Hkv. by exists v. }
  do 2 f_equal. apply map_eq. intros k. rewrite Hm.
  destruct (decide (k ∈ (map_to_list d).*1)) as [Hi|Hi]; [done|].
  rewrite lookup_empty. symmetry. apply eq_None_not_Some. intros [v Hv].
  apply Hi, list_elem_of_fmap. exists (k, v). split; [done|].
  by apply elem_of_map_to_list.
Qed.

Lemma pop_data_run key (s : state) :
  pop_data key s
  = match req_inputs s !! key with
    | Some l =>
        (match l with e :: _ => inr (data e) | [] => inl IndexError end,
         State (delete key (req_inputs s)) (resp_status s) (resp_outputs s)
               (log s) (files s) (calls s))
    | None => (inl (KeyError key), s)
    end.
Proof.
  unfold pop_data, bind, pop_input.
  by destruct (req_inputs s !! key) as [[|e l]|].
Qed.

Ltac proj_in H :=
  cbn [req_inputs resp_status resp_outputs log files calls fst snd] in H.

Ltac pop_in H e rest Hk :=
  unfold bind at 1 in H; rewrite pop_data_run in H; proj_in H;
  rewrite ?lookup_delete_ne in H by done;
  match type of H with
  | context [req_inputs ?s !! ?k] =>
      destruct (req_inputs s !! k) as [[|e rest]|] eqn:Hk;
      [injection H as <- <-; by apply failed_reading
      | |injection H as <- <-; by apply failed_reading]
  end.

Lemma handler_outcome workdir (s : state) :
  outcome workdir s (_handler workdir s).1 (_handler workdir s).2.
Proof.
  destruct (_handler workdir s) as [r s'] eqn:Hrun; simpl.
  unfold _handler in Hrun.
  (* the inputs are read *)
  unfold bind at 1 in Hrun. unfold pop_input at 1 in Hrun.
  destruct (req_inputs s !! "ts") as [ts_in|] eqn:Hts;
    [|injection Hrun as <- <-; by apply failed_reading].
  pop_in Hrun e_model r_model Hmodel.
  pop_in Hrun e_method r_method Hmethod.
  pop_in Hrun e_ndonors r_ndonors Hndonors.
  pop_in Hrun e_nse r_nse Hnse.
  pop_in Hrun e_prop r_prop Hprop.
  unfold bind at 1, lift at 1 in Hrun.
  destruct (json_loads (data e_prop)) as [e|properties] eqn:Hjson;
    [injection Hrun as <- <-; by apply failed_reading|].
  unfold bind at 1 in Hrun.
  match type of Hrun with
  | context [read_nc_spec ?s0] =>
      destruct (read_nc_spec s0) as [r_nc s1] eqn:Hnc;
      apply (f_equal snd) in Hnc; rewrite read_nc_spec_run in Hnc;
      simpl in Hnc; subst s1
  end.
  destruct r_nc as [e|kw_nc];
    [injection Hrun as <- <-; by apply failed_reading|].
  unfold bind at 1 in Hrun.
  match type of Hrun with
  | context [read_remaining kw_nc ?s0] =>
      destruct (read_remaining kw_nc s0) as [[e|kwds] s1] eqn:Hrem
  end.
  { rewrite read_remaining_run in Hrem. injection Hrem as _ <-.
    injection Hrun as <- <-; by apply failed_reading. }
  apply read_remaining_inv in Hrem as (-> & Hother & Hkw). proj_in Hkw.
  unfold bind at 1, update_status at 1 in Hrun; proj_in Hrun.
  (* the gauged parameters *)
  unfold bind at 1, call at 1 in Hrun; proj_in Hrun.
  destruct (read_gauged_params (data e_model)) as [e|[nash params]] eqn:Hgp;
    [injection Hrun as <- <-; by eapply failed_gauged_params|].
  unfold bind at 1, update_status at 1 in Hrun; proj_in Hrun.
  (* the gauged properties *)
  unfold bind at 1, keys at 1 in Hrun.
  destruct properties as [| | | | | |d];
    try (injection Hrun as <- <-; by eapply failed_keys).
  unfold ret at 1 in Hrun.
  unfold bind at 1, call at 1 in Hrun; proj_in Hrun.
  destruct (read_gauged_properties (dom d)) as [e|props] eqn:Hprops.
  { injection Hrun as <- <-.
    eapply failed_gauged_properties; [done|done| |done].
    simpl. by rewrite <- app_assoc. }
  unfold bind at 1 in Hrun. rewrite copy_properties_run in Hrun.
  unfold bind at 1, update_status at 1 in Hrun; proj_in Hrun.
  (* the regionalisation *)
  match type of Hrun with
  | context [Call_regionalize ?a0] => set (a := a0) in Hrun
  end.
  assert (forwarded (req_inputs s) a) as Hfw.
  { constructor; unfold first_data; simpl; eauto.
    exists (data e_prop). eauto. }
  assert (keywords_forwarded (req_inputs s) a) as Hkf.
  { intros key e rest Hkey Hlook. apply Hkw with rest.
    rewrite !lookup_delete_ne; [done|..]; intros <-; apply Hkey;
      unfold consumed; set_solver. }
  assert (∀ cs : list (lib_call nash_t params_t props_t),
            (((cs ++ [Call_read_gauged_params (data e_model)])
                ++ [Call_read_gauged_properties (dom d)])
               ++ [Call_regionalize a])%list
            = (cs ++ library_calls a)%list) as Hcalls.
  { intros cs. by rewrite <- !app_assoc. }
  unfold bind at 1, try_except at 1, call at 1 in Hrun; proj_in Hrun.
  destruct (call_regionalize a) as [e|[qsim ensemble]] eqn:Hcall.
  { unfold bind at 1, log_exception at 1, raise at 1 in Hrun.
    injection Hrun as <- <-.
    by eapply failed_regionalize; [..|apply Hcalls|idtac|idtac|idtac]. }
  (* the outputs *)
  unfold bind at 1, update_status at 1 in Hrun; proj_in Hrun.
  unfold bind at 1, write_file at 1 in Hrun; proj_in Hrun.
  unfold bind at 1, set_output_file at 1 in Hrun; proj_in Hrun.
  destruct (resp_outputs s !! "hydrograph") as [o1|];
    [|injection Hrun as <- <-;
      by eapply failed_output; [..|apply Hcalls|idtac]].
  unfold bind at 1, write_file at 1 in Hrun; proj_in Hrun.
  unfold bind at 1, set_output_file at 1 in Hrun; proj_in Hrun.
  match type of Hrun with
  | context [match ?o with Some _ => _ | None => _ end] => destruct o as [o2|]
  end; [|injection Hrun as <- <-;
         by eapply failed_output; [..|apply Hcalls|idtac]].
  unfold ret in Hrun. injection Hrun as <- <-.
  by eapply completed; [..|apply Hcalls|idtac|idtac|idtac].
Qed.

Ltac in_trace Hin :=
  simpl in Hin;
  repeat (apply elem_of_cons in Hin as [Hin|Hin]);
  try discriminate Hin; try (by apply elem_of_nil in Hin).

(** A run that called [regionalize] read the whole request, made the three
    library calls, and then either reported the exception of the call or
    went on to write the outputs. *)
Lemma regionalize_called workdir (s : state) a :
  calls s = [] →
  Call_regionalize a ∈ calls (_handler workdir s).2 →
  forwarded (req_inputs s) a
  ∧ keywords_forwarded (req_inputs s) a
  ∧ calls (_handler workdir s).2 = library_calls a
  ∧ ((∃ e, call_regionalize a = inl e
           ∧ caught_logged_converted s (_handler workdir s).1
                                       (_handler workdir s).2 e
           ∧ files (_handler workdir s).2 = files s
           ∧ resp_outputs (_handler workdir s).2 = resp_outputs s)
     ∨ (∃ qe, call_regionalize a = inr qe
              ∧ log (_handler workdir s).2 = log s)).
Proof.
  intros Hfresh Hin.
  destruct (handler_outcome workdir s)
    as [e s' Hc Hq|m e s' Hgp Hc Hq|m np s' Hgp Hc Hq
       |m np ks e s' Hgp Hprops Hc Hq
       |a' e s' Hfw Hkf Hcall Hc Hlog Hfiles Hout
       |a' qe key s' Hfw Hkf Hcall Hc Hlog
       |a' qsim ensemble s' Hfw Hkf Hcall Hc Hlog Hfiles Hout];
    rewrite Hc, Hfresh in Hin |- *; in_trace Hin;
    injection Hin as <-; (do 3 (split; [done|])).
  - left. by exists e.
  - right. by exists qe.
  - right. by exists (qsim, ensemble).
Qed.

(** With keyword arguments that can be unpacked, the call is the call
    of the library's [regionalize]. *)
Lemma call_unpackable a :
  unpackable (a_kwds a) → call_regionalize a = regionalize a.
Proof.
  intros (Hother & Hsize & Hnse & Hts). unfold call_regionalize.
  rewrite Hother, Hsize, Hnse, Hts. rewrite bool_decide_false; [done|].
  intros [[? [=]]|[[? [=]]|[? [=]]]].
Qed.

(** The run in [Hrun] has ended before the call to [regionalize]. *)
Ltac not_called Hrun Hfresh Hin :=
  injection Hrun as <- <-; proj_in Hin; rewrite ?Hfresh in Hin;
  by in_trace Hin.

Ltac pop_called Hrun Hfresh Hin :=
  unfold bind at 1 in Hrun; rewrite pop_data_run in Hrun; proj_in Hrun;
  rewrite ?lookup_delete_ne in Hrun by done;
  match type of Hrun with
  | context [req_inputs ?s !! ?k] =>
      destruct (req_inputs s !! k) as [[|? ?]|];
      [not_called Hrun Hfresh Hin| |not_called Hrun Hfresh Hin]
  end.

(** A run that called [regionalize] with arguments that can be unpacked
    went on with what the library answered on these arguments. *)
Lemma regionalize_answered workdir (s : state) a :
  calls s = [] →
  Call_regionalize a ∈ calls (_handler workdir s).2 →
  unpackable (a_kwds a) →
  answered workdir a s (_handler workdir s).1 (_handler workdir s).2.
Proof.
  intros Hfresh Hin Hkw. unfold answered.
  rewrite <- (call_unpackable a Hkw). clear Hkw.
  destruct (_handler workdir s) as [r s'] eqn:Hrun; simpl in *.
  unfold _handler in Hrun.
  unfold bind at 1 in Hrun. unfold pop_input at 1 in Hrun.
  destruct (req_inputs s !! "ts") as [ts_in|];
    [|not_called Hrun Hfresh Hin].
  do 5 pop_called Hrun Hfresh Hin.
  unfold bind at 1, lift at 1 in Hrun.
  destruct (json_loads _) as [e|properties]; [not_called Hrun Hfresh Hin|].
  unfold bind at 1 in Hrun.
  match type of Hrun with
  | context [read_nc_spec ?s0] =>
      destruct (read_nc_spec s0) as [r_nc s1] eqn:Hnc;
      apply (f_equal snd) in Hnc; rewrite read_nc_spec_run in Hnc;
      simpl in Hnc; subst s1
  end.
  destruct r_nc as [e|kw_nc]; [not_called Hrun Hfresh Hin|].
  unfold bind at 1 in Hrun. rewrite read_remaining_run in Hrun.
  destruct (fold_result _ _ _) as [e|kwds]; [not_called Hrun Hfresh Hin|].
  unfold bind at 1, update_status at 1 in Hrun; proj_in Hrun.
  unfold bind at 1, call at 1 in Hrun; proj_in Hrun.
  destruct (read_gauged_params _) as [e|[nash params]];
    [not_called Hrun Hfresh Hin|].
  unfold bind at 1, update_status at 1 in Hrun; proj_in Hrun.
  unfold bind at 1, keys at 1 in Hrun.
  destruct properties as [| | | | | |d];
    try (not_called Hrun Hfresh Hin).
  unfold ret at 1 in Hrun.
  unfold bind at 1, call at 1 in Hrun; proj_in Hrun.
  destruct (read_gauged_properties (dom d)) as [e|props];
    [not_called Hrun Hfresh Hin|].
  unfold bind at 1 in Hrun. rewrite copy_properties_run in Hrun.
  unfold bind at 1, update_status at 1 in Hrun; proj_in Hrun.
  match type of Hrun with
  | context [Call_regionalize ?a0] =>
      assert (a = a0) as ->; [|clear Hin]
  end.
  { unfold bind at 1, try_except at 1, call at 1 in Hrun; proj_in Hrun.
    destruct (call_regionalize _) as [e|[qsim ensemble]].
    - unfold bind at 1, log_exception at 1, raise at 1 in Hrun.
      injection Hrun as <- <-. proj_in Hin. rewrite Hfresh in Hin.
      in_trace Hin. by injection Hin.
    - unfold bind, update_status, write_file, set_output_file, ret in Hrun.
      proj_in Hrun.
      destruct (resp_outputs s !! "hydrograph") as [o1|];
        [proj_in Hrun;
         match type of Hrun with
         | context [match ?o with Some _ => _ | None => _ end] =>
             destruct o as [o2|]
         end|];
        injection Hrun as <- <-; proj_in Hin; rewrite Hfresh in Hin;
        in_trace Hin; by injection Hin. }
  unfold bind at 1, try_except at 1, call at 1 in Hrun; proj_in Hrun.
  destruct (call_regionalize _) as [e|[qsim ensemble]].
  { unfold bind at 1, log_exception at 1, raise at 1 in Hrun.
    by injection Hrun as <- <-. }
  unfold bind at 1, update_status at 1 in Hrun; proj_in Hrun.
  unfold bind at 1, write_file at 1 in Hrun; proj_in Hrun.
  unfold bind at 1, set_output_file at 1 in Hrun; proj_in Hrun.
  destruct (resp_outputs s !! "hydrograph") as [o1|];
    [|by injection Hrun as <- <-].
  unfold bind at 1, write_file at 1 in Hrun; proj_in Hrun.
  unfold bind at 1, set_output_file at 1 in Hrun; proj_in Hrun.
  match type of Hrun with
  | context [match ?o with Some _ => _ | None => _ end] => destruct o as [o2|]
  end; [|by injection Hrun as <- <-].
  unfold ret in Hrun. by injection Hrun as <- <-.
Qed.

(** C3.  Whenever the handler calls [regionalize], the arguments of the
    call are the request's inputs as they came: [method] and [model_name],
    the scores and parameters that [read_gauged_params] returned for the
    model, the gauged properties that [read_gauged_properties] returned for
    the keys of the decoded [properties], that decoded dictionary itself as
    the ungauged properties, [ndonors] as [size], [min_NSE], and the files
    of [ts]; each of the three library routines is called once, with these
    arguments; and it is on these arguments that the library's
    [regionalize] runs: what it answers on them is what the run goes on
    with, the exception that is reported or the datasets that are
    written. *)
Theorem C3_inputs_forwarded_unchanged workdir (s : state) a :
  calls s = [] →
  Call_regionalize a ∈ calls (_handler workdir s).2 →
  forwarded (req_inputs s) a
  ∧ calls (_handler workdir s).2 = library_calls a
  ∧ (unpackable (a_kwds a) →
     answered workdir a s (_handler workdir s).1 (_handler workdir s).2).
Proof.
  intros Hfresh Hin.
  destruct (regionalize_called workdir s a Hfresh Hin) as (? & _ & ? & _).
  split; [done|]. split; [done|].
  by apply regionalize_answered.
Qed.

(** C9.  When the call to [regionalize] raises, the handler ends with an
    error and has written no file and set no output: in particular neither
    [qsim.nc] nor [ensemble.nc] exists more than before, and the
    [hydrograph] and [ensemble] outputs are as the framework created
    them. *)
Theorem C9_no_output_when_regionalize_raises workdir (s : state) a e :
  calls s = [] →
  Call_regionalize a ∈ calls (_handler workdir s).2 →
  call_regionalize a = inl e →
  (∃ err, (_handler workdir s).1 = inl err)
  ∧ files (_handler workdir s).2 = files s
  ∧ resp_outputs (_handler workdir s).2 = resp_outputs s.
Proof.
  intros Hfresh Hin Hraise.
  destruct (regionalize_called workdir s a Hfresh Hin)
    as (_ & _ & _ & [(e' & _ & [Hr _] & Hfiles & Hout)|(qe & Hcall & _)]);
    [|congruence].
  split; [by eexists|done].
Qed.

(** C10.  Every input that is left in the request once [ts], [model_name],
    [method], [ndonors], [min_NSE], [properties] and [nc_spec] are taken out
    is passed to [regionalize] as a keyword argument whose value is the data
    of the first occurrence of the input: the other occurrences ([rest]) do
    not matter, and neither does what [nc_spec] gave for the same key.  The
    arguments that hold this keyword are the ones the library's
    [regionalize] runs on: what it answers on them is what the run goes on
    with. *)
Theorem C10_remaining_inputs_as_keywords workdir (s : state) a key e rest :
  calls s = [] →
  Call_regionalize a ∈ calls (_handler workdir s).2 →
  key ∉ consumed →
  req_inputs s !! key = Some (e :: rest) →
  kw_named (a_kwds a) !! key = Some (data e)
  ∧ (unpackable (a_kwds a) →
     answered workdir a s (_handler workdir s).1 (_handler workdir s).2).
Proof.
  intros Hfresh Hin Hkey Hlook.
  destruct (regionalize_called workdir s a Hfresh Hin) as (_ & Hkf & _).
  split; [by eapply Hkf|]. by apply regionalize_answered.
Qed.

(** C1, as the code has it.  An exception raised by the call to
    [regionalize] is caught, logged and converted into the [ProcessError]
    that carries the formatted traceback; an exception raised by
    [read_gauged_params] or by [read_gauged_properties], which are called
    outside the [try] block, leaves the handler as it is, unlogged.  In
    both cases the failed call is the last call of the run and is made
    once (no retry, no recovery), and no file is written and no output
    set. *)
Theorem C1_library_exceptions workdir (s : state) c e :
  calls s = [] →
  c ∈ calls (_handler workdir s).2 →
  raised_in c e →
  match c with
  | Call_regionalize _ =>
      caught_logged_converted s (_handler workdir s).1 (_handler workdir s).2 e
  | _ => propagated s (_handler workdir s).1 (_handler workdir s).2 e
  end
  ∧ last_call c (calls (_handler workdir s).2)
  ∧ files (_handler workdir s).2 = files s
  ∧ resp_outputs (_handler workdir s).2 = resp_outputs s.
Proof.
  intros Hfresh Hin Hraise.
  destruct (handler_outcome workdir s)
    as [e0 s' Hc Hq|m e0 s' Hgp Hc Hq|m np s' Hgp Hc Hq
       |m np ks e0 s' Hgp Hprops Hc Hq
       |a e0 s' Hfw Hkf Hcall Hc Hlog Hfiles Hout
       |a qe key s' Hfw Hkf Hcall Hc Hlog
       |a qsim ensemble s' Hfw Hkf Hcall Hc Hlog Hfiles Hout];
    rewrite Hc, Hfresh in Hin |- *; in_trace Hin; subst c;
    simpl in Hraise;
    try (destruct Hfw as [_ _ _ _ _ Hgp _ Hprops]; simpl in *);
    try congruence.
  - (* read_gauged_params raised *)
    assert (e0 = e) as -> by congruence.
    destruct Hq as (Hlog & Hfiles & Hout).
    split; [done|]. split; [|done]. exists []. split; [done|].
    apply not_elem_of_nil.
  - (* read_gauged_properties raised *)
    assert (e0 = e) as -> by congruence.
    destruct Hq as (Hlog & Hfiles & Hout).
    split; [done|]. split; [|done].
    exists [Call_read_gauged_params m]. split; [done|].
    intros Hmem. in_trace Hmem.
  - (* regionalize raised *)
    assert (e0 = e) as -> by congruence.
    split; [done|]. split; [|done].
    exists [Call_read_gauged_params (a_model_name a);
            Call_read_gauged_properties (dom (a_ungauged_props a))].
    split; [done|]. intros Hmem. in_trace Hmem.
Qed.

(** C2, as the code has it.  When the call to [regionalize] raises, the
    [ProcessError] that reaches the caller carries the whole formatted
    traceback, with the length of that traceback as its length limit and
    [string.printable] as its allowed characters.  So the limit never
    applies; and a traceback of at least three printable characters is
    shown to the client as it is, neither shortened nor rid of its special
    characters. *)
Theorem C2_traceback_shown_in_full workdir (s : state) a e :
  calls s = [] →
  Call_regionalize a ∈ calls (_handler workdir s).2 →
  call_regionalize a = inl e →
  (_handler workdir s).1
  = inl (ProcessError (format_exc e) (String.length (format_exc e))
                      printable (Some e))
  ∧ PywpsExceptions.shown (reported e)
    = Some (if (PywpsExceptions.default_min_length
                <=? String.length
                      (PywpsExceptions.cleaned printable (format_exc e)))%nat
            then PywpsExceptions.cleaned printable (format_exc e)
            else PywpsExceptions.default_msg)
  ∧ ((3 ≤ String.length (format_exc e))%nat →
     (∀ c, c ∈ list_ascii_of_string (format_exc e) →
           c ∈ list_ascii_of_string printable) →
     PywpsExceptions.shown (reported e) = Some (format_exc e)).
Proof.
  intros Hfresh Hin Hraise.
  destruct (regionalize_called workdir s a Hfresh Hin)
    as (_ & _ & _ & [(e' & Hcall & [Hr _] & _)|(qe & Hcall & _)]);
    [|congruence].
  assert (e' = e) as -> by congruence.
  split; [done|]. unfold reported; simpl. split.
  - by rewrite message_not_cut.
  - intros Hlen Hprint. by rewrite message_printable.
Qed.

End RegionalisationFacts.

(** ** The handler on the example request *)

Section RegionalisationExamples.
Import Regionalisation Example PywpsExceptions.

Example run_ok_completes : run_ok.1 = inr tt.
Proof. vm_compute. reflexivity. Qed.

Example run_ok_files :
  files run_ok.2
  = {[ "/tmp/pywps/job-1/qsim.nc" := NetCDF "qsim";
       "/tmp/pywps/job-1/ensemble.nc" := NetCDF "ensemble" ]}.
Proof. vm_compute. reflexivity. Qed.

Example run_ok_outputs :
  resp_outputs run_ok.2
  = {[ "hydrograph" := Output (Some "/tmp/pywps/job-1/qsim.nc");
       "ensemble" := Output (Some "/tmp/pywps/job-1/ensemble.nc") ]}.
Proof. vm_compute. reflexivity. Qed.

Example run_no_properties_propagates :
  run_no_properties.1 = inl unknown_property
  ∧ log run_no_properties.2 = []
  ∧ calls run_no_properties.2
    = [Call_read_gauged_params (PStr "GR4JCN");
       Call_read_gauged_properties (dom properties_dict)].
Proof. vm_compute. by repeat split. Qed.

Example run_failing_logs :
  log run_failing.2 = [raven_error] ∧ files run_failing.2 = ∅.
Proof. vm_compute. by repeat split. Qed.

Example run_ok_calls : calls run_ok.2 = library_calls expected_args.
Proof. vm_compute. reflexivity. Qed.

Example run_failing_calls :
  calls run_failing.2 = library_calls expected_args.
Proof. vm_compute. reflexivity. Qed.

Lemma called_ok : Call_regionalize expected_args ∈ calls run_ok.2.
Proof.
  rewrite run_ok_calls. unfold library_calls.
  do 2 apply list_elem_of_further. apply list_elem_of_here.
Qed.

Lemma called_failing : Call_regionalize expected_args ∈ calls run_failing.2.
Proof.
  rewrite run_failing_calls. unfold library_calls.
  do 2 apply list_elem_of_further. apply list_elem_of_here.
Qed.

Example run_echo_calls : calls run_echo.2 = library_calls expected_args.
Proof. vm_compute. reflexivity. Qed.

Lemma called_echo : Call_regionalize expected_args ∈ calls run_echo.2.
Proof.
  rewrite run_echo_calls. unfold library_calls.
  do 2 apply list_elem_of_further. apply list_elem_of_here.
Qed.

Lemma expected_args_unpackable : unpackable (a_kwds expected_args).
Proof. by repeat split. Qed.

(** C3 on the example request, with the library whose [regionalize]
    returns its arguments: the datasets written are the ones made from the
    arguments of the request. *)
Lemma C3_witness :
  (calls start_echo = []
   ∧ Call_regionalize expected_args ∈ calls run_echo.2
   ∧ unpackable (a_kwds expected_args))
  ∧ forwarded (rt := runtime) (lib := lib_echo) request expected_args
  ∧ calls run_echo.2 = library_calls expected_args
  ∧ files run_echo.2
    = <["/tmp/pywps/job-1/ensemble.nc" := NetCDF ("ensemble", expected_args)]>
        (<["/tmp/pywps/job-1/qsim.nc" := NetCDF ("qsim", expected_args)]> ∅).
Proof.
  split; [split; [reflexivity|split;
                  [exact called_echo|exact expected_args_unpackable]]|].
  destruct (C3_inputs_forwarded_unchanged (rt := runtime) (lib := lib_echo)
              workdir start_echo expected_args eq_refl called_echo)
    as (Hfw & Hcalls & Hanswer).
  split; [exact Hfw|]. split; [exact Hcalls|].
  exact (proj2 (Hanswer expected_args_unpackable)).
Defined.

(** C9 on the example request, with a library whose [regionalize]
    raises. *)
Lemma C9_witness :
  calls start = []
  ∧ Call_regionalize expected_args ∈ calls run_failing.2
  ∧ call_regionalize (lib := lib_failing) expected_args = inl raven_error
  ∧ (∃ err, run_failing.1 = inl err)
  ∧ files run_failing.2 = files start
  ∧ resp_outputs run_failing.2 = resp_outputs start.
Proof.
  split; [reflexivity|]. split; [exact called_failing|].
  split; [reflexivity|].
  exact (C9_no_output_when_regionalize_raises (rt := runtime)
           (lib := lib_failing) workdir start expected_args raven_error
           eq_refl called_failing eq_refl).
Defined.

(** C10 on the example request, with the library whose [regionalize]
    returns its arguments: [latitude] occurs twice and its first value is
    the keyword argument; [elevation] is also a key of [nc_spec], and the
    value of the input wins; the datasets written are made from the
    arguments that hold these keywords. *)
Lemma C10_witness :
  (calls start_echo = []
   ∧ Call_regionalize expected_args ∈ calls run_echo.2
   ∧ ("latitude" ∉ consumed) ∧ ("elevation" ∉ consumed)
   ∧ request !! "latitude"
     = Some [Input (PFloat (Float 544848 4)) ""; Input (PFloat (Float 0 1)) ""]
   ∧ nc_spec_dict !! "elevation" = Some (PFloat (Float 0 1))
   ∧ unpackable (a_kwds expected_args))
  ∧ kw_named (a_kwds expected_args) !! "latitude"
    = Some (PFloat (Float 544848 4))
  ∧ kw_named (a_kwds expected_args) !! "elevation"
    = Some (PFloat (Float 8430 1))
  ∧ files run_echo.2
    = <["/tmp/pywps/job-1/ensemble.nc" := NetCDF ("ensemble", expected_args)]>
        (<["/tmp/pywps/job-1/qsim.nc" := NetCDF ("qsim", expected_args)]> ∅).
Proof.
  assert ("latitude" ∉ consumed) as Hlat.
  { intros Hin. unfold consumed in Hin.
    repeat (apply elem_of_cons in Hin as [Hin|Hin]; [discriminate Hin|]).
    by apply elem_of_nil in Hin. }
  assert ("elevation" ∉ consumed) as Helev.
  { intros Hin. unfold consumed in Hin.
    repeat (apply elem_of_cons in Hin as [Hin|Hin]; [discriminate Hin|]).
    by apply elem_of_nil in Hin. }
  split.
  { split; [reflexivity|]. split; [exact called_echo|].
    split; [exact Hlat|]. split; [exact Helev|].
    split; [reflexivity|]. split; [reflexivity|].
    exact expected_args_unpackable. }
  destruct (C10_remaining_inputs_as_keywords (rt := runtime)
              (lib := lib_echo) workdir start_echo expected_args "latitude"
              (Input (PFloat (Float 544848 4)) "")
              [Input (PFloat (Float 0 1)) ""]
              eq_refl called_echo Hlat eq_refl) as (Hlatitude & Hanswer).
  destruct (C10_remaining_inputs_as_keywords (rt := runtime)
              (lib := lib_echo) workdir start_echo expected_args "elevation"
              (Input (PFloat (Float 8430 1)) "") []
              eq_refl called_echo Helev eq_refl) as (Helevation & _).
  split; [exact Hlatitude|]. split; [exact Helevation|].
  exact (proj2 (Hanswer expected_args_unpackable)).
Defined.

(** C1 on the example request, with a library whose [regionalize]
    raises. *)
Lemma C1_witness :
  calls start = []
  ∧ Call_regionalize expected_args ∈ calls run_failing.2
  ∧ raised_in (lib := lib_failing) (Call_regionalize expected_args) raven_error
  ∧ caught_logged_converted (rt := runtime) start run_failing.1 run_failing.2
      raven_error
  ∧ last_call (Call_regionalize expected_args) (calls run_failing.2)
  ∧ files run_failing.2 = files start
  ∧ resp_outputs run_failing.2 = resp_outputs start.
Proof.
  split; [reflexivity|]. split; [exact called_failing|].
  split; [reflexivity|].
  exact (C1_library_exceptions (rt := runtime) (lib := lib_failing)
           workdir start (Call_regionalize expected_args) raven_error
           eq_refl called_failing eq_refl).
Defined.

(** C1 as stated fails: [read_gauged_params] is called outside the [try]
    block.  When it raises, its exception leaves the handler as it is: it
    is not converted into a [ProcessError] and nothing is logged. *)
Lemma C1_counterexample :
  Call_read_gauged_params (PStr "GR4JCN") ∈ calls run_no_params.2
  ∧ raised_in (lib := lib_no_params)
      (Call_read_gauged_params (PStr "GR4JCN")) missing_file
  ∧ run_no_params.1 = inl missing_file
  ∧ shown missing_file = None
  ∧ log run_no_params.2 = []
  ∧ ¬ caught_logged_converted (rt := runtime) start
        run_no_params.1 run_no_params.2 missing_file.
Proof.
  split; [vm_compute; apply list_elem_of_here|].
  do 4 (split; [reflexivity|]).
  intros [Hr _]. vm_compute in Hr. discriminate Hr.
Qed.

(** C2 on the example request: the traceback of the example runtime is
    printable, and is shown in full. *)
Lemma C2_witness :
  (calls start = []
   ∧ Call_regionalize expected_args ∈ calls run_failing.2
   ∧ call_regionalize (lib := lib_failing) expected_args = inl raven_error
   ∧ (3 ≤ String.length (traceback raven_error))%nat
   ∧ ∀ c, c ∈ list_ascii_of_string (traceback raven_error) →
          c ∈ list_ascii_of_string printable)
  ∧ run_failing.1
    = inl (ProcessError (traceback raven_error)
             (String.length (traceback raven_error)) printable
             (Some raven_error))
  ∧ shown (reported (rt := runtime) raven_error)
    = Some (traceback raven_error).
Proof.
  assert (3 ≤ String.length (traceback raven_error))%nat as Hlen.
  { vm_compute. lia. }
  assert (∀ c, c ∈ list_ascii_of_string (traceback raven_error) →
               c ∈ list_ascii_of_string printable) as Hprint.
  { apply Forall_forall, (bool_decide_unpack _). vm_compute. exact I. }
  split; [by repeat split; try exact called_failing|].
  destruct (C2_traceback_shown_in_full (rt := runtime) (lib := lib_failing)
              workdir start expected_args raven_error
              eq_refl called_failing eq_refl) as (Hr & _ & Hshown).
  split; [exact Hr|exact (Hshown Hlen Hprint)].
Defined.

(** C2 as stated fails: the message that reaches the client is the whole
    traceback, longer than the 300 characters of the framework's default
    limit and with its parentheses, quotes and brackets. *)
Lemma C2_counterexample :
  Call_regionalize expected_args ∈ calls run_failing.2
  ∧ call_regionalize (lib := lib_failing) expected_args = inl raven_error
  ∧ (∃ err, run_failing.1 = inl err
            ∧ shown err = Some (traceback raven_error))
  ∧ String.length (traceback raven_error) = 443%nat
  ∧ ¬ limited_in_length (traceback raven_error)
  ∧ ¬ stripped_of_special_characters (traceback raven_error).
Proof.
  split; [exact called_failing|]. split; [reflexivity|].
  split; [eexists; split; vm_compute; reflexivity|].
  split; [vm_compute; reflexivity|]. split.
  - unfold limited_in_length. vm_compute. lia.
  - intros Hs. destruct (Hs "("%char) as [Hc|Hc].
    + apply (bool_decide_unpack _). vm_compute. exact I.
    + vm_compute in Hc. discriminate Hc.
    + discriminate Hc.
Qed.

End RegionalisationExamples.

(** ** The forecast-graph handler *)

Section GraphFacts.
Import GraphFcstUncertainty.

Context {figure_t : Type} {rt : Runtime} {lib : Graphs figure_t}.

Local Abbreviation state := (state (fig_file figure_t) (lib_call figure_t)).

Lemma input0_run key (s : state) :
  input0 key s
  = (match req_inputs s !! key with
     | Some (e :: _) => inr e
     | Some [] => inl IndexError
     | None => inl (KeyError key)
     end, s).
Proof.
  unfold input0, bind, get_input.
  by destruct (req_inputs s !! key) as [[|e l]|].
Qed.

Ltac graph_trace Hin :=
  simpl in Hin;
  repeat (apply elem_of_cons in Hin as [Hin|Hin]);
  try discriminate Hin; try (by apply elem_of_nil in Hin).

Lemma handler_hindcast workdir (s : state) sim fv qo qv r1 r2 r3 r4 fig o :
  req_inputs s !! "fcst" = Some (sim :: r1) →
  req_inputs s !! "fcst_var" = Some (fv :: r2) →
  req_inputs s !! "qobs" = Some (qo :: r3) →
  req_inputs s !! "qobs_var" = Some (qv :: r4) →
  hindcast (file sim) (data fv) (file qo) (data qv) = inr fig →
  resp_outputs s !! "graph_forecasts" = Some o →
  _handler workdir s
  = (inr tt,
     State (req_inputs s) (resp_status s)
           (<["graph_forecasts" := Output (Some (figure_path workdir))]>
              (resp_outputs s))
           (log s)
           (<[figure_path workdir := Saved fig]> (files s))
           ((calls s
             ++ [Call_hindcast (file sim) (data fv) (file qo) (data qv)])
            ++ [Call_close fig])).
Proof.
  intros Hfcst Hvar Hqobs Hqv Hhind Hout. unfold _handler.
  unfold bind at 1. rewrite input0_run, Hfcst.
  unfold bind at 1. rewrite input0_run, Hvar.
  unfold bind at 1. unfold has_input at 1.
  rewrite Hqobs, bool_decide_true by done.
  unfold bind at 1. unfold bind at 1. rewrite input0_run, Hqobs.
  unfold bind at 1. rewrite input0_run, Hqv.
  unfold call at 1. rewrite Hhind.
  unfold bind, write_file, call, set_output_file, ret; simpl.
  by rewrite Hout.
Qed.

Lemma handler_forecast workdir (s : state) sim fv r1 r2 fig o :
  req_inputs s !! "fcst" = Some (sim :: r1) →
  req_inputs s !! "fcst_var" = Some (fv :: r2) →
  req_inputs s !! "qobs" = None →
  forecast (file sim) (data fv) = inr fig →
  resp_outputs s !! "graph_forecasts" = Some o →
  _handler workdir s
  = (inr tt,
     State (req_inputs s) (resp_status s)
           (<["graph_forecasts" := Output (Some (figure_path workdir))]>
              (resp_outputs s))
           (log s)
           (<[figure_path workdir := Saved fig]> (files s))
           ((calls s ++ [Call_forecast (file sim) (data fv)])
            ++ [Call_close fig])).
Proof.
  intros Hfcst Hvar Hqobs Hfore Hout. unfold _handler.
  unfold bind at 1. rewrite input0_run, Hfcst.
  unfold bind at 1. rewrite input0_run, Hvar.
  unfold bind at 1. unfold has_input at 1.
  rewrite Hqobs, bool_decide_false by (by intros [? ?]).
  unfold bind at 1. unfold call at 1. rewrite Hfore.
  unfold bind, write_file, call, set_output_file, ret; simpl.
  by rewrite Hout.
Qed.

(** The helper that is called tells whether [qobs] was in the request. *)
Lemma helper_called workdir (s : state) :
  calls s = [] →
  (∀ sim_fn fcst_var qobs_fn qobs_var,
     Call_hindcast sim_fn fcst_var qobs_fn qobs_var
       ∈ calls (_handler workdir s).2 →
     is_Some (req_inputs s !! "qobs"))
  ∧ (∀ sim_fn fcst_var,
       Call_forecast sim_fn fcst_var ∈ calls (_handler workdir s).2 →
       req_inputs s !! "qobs" = None).
Proof.
  intros Hfresh.
  destruct (_handler workdir s) as [r s'] eqn:Hrun. simpl.
  unfold _handler in Hrun.
  unfold bind at 1 in Hrun. rewrite input0_run in Hrun.
  destruct (req_inputs s !! "fcst") as [[|sim r1]|];
    try (injection Hrun as <- <-; rewrite Hfresh;
         split; [intros ? ? ? ? Hin|intros ? ? Hin]; by graph_trace Hin).
  unfold bind at 1 in Hrun. rewrite input0_run in Hrun.
  destruct (req_inputs s !! "fcst_var") as [[|fv r2]|];
    try (injection Hrun as <- <-; rewrite Hfresh;
         split; [intros ? ? ? ? Hin|intros ? ? Hin]; by graph_trace Hin).
  unfold bind at 1 in Hrun. unfold has_input at 1 in Hrun.
  destruct (req_inputs s !! "qobs") as [qobs_in|] eqn:Hqobs.
  - rewrite bool_decide_true in Hrun by done.
    split; [by eauto|]. intros sim_fn fcst_var Hin. exfalso.
    unfold bind at 1 in Hrun. unfold bind at 1 in Hrun.
    rewrite input0_run, Hqobs in Hrun.
    destruct qobs_in as [|qo r3];
      [injection Hrun as <- <-; rewrite Hfresh in Hin; by graph_trace Hin|].
    unfold bind at 1 in Hrun. rewrite input0_run in Hrun.
    destruct (req_inputs s !! "qobs_var") as [[|qv r4]|];
      try (injection Hrun as <- <-; rewrite Hfresh in Hin; by graph_trace Hin).
    unfold call at 1 in Hrun.
    destruct (hindcast _ _ _ _) as [e|fig];
      unfold bind, write_file, call, set_output_file, ret in Hrun;
      simpl in Hrun;
      try destruct (resp_outputs s !! "graph_forecasts");
      injection Hrun as <- <-; rewrite Hfresh in Hin; by graph_trace Hin.
  - rewrite bool_decide_false in Hrun by (by intros [? ?]).
    split; [|done]. intros sim_fn fcst_var qobs_fn qobs_var Hin. exfalso.
    unfold bind at 1 in Hrun. unfold call at 1 in Hrun.
    destruct (forecast _ _) as [e|fig];
      unfold bind, write_file, call, set_output_file, ret in Hrun;
      simpl in Hrun;
      try destruct (resp_outputs s !! "graph_forecasts");
      injection Hrun as <- <-; rewrite Hfresh in Hin; by graph_trace Hin.
Qed.

(** C5.  On a request that has its [fcst] and [fcst_var] inputs, and a
    response that has the [graph_forecasts] output: when [qobs] is there
    (with [qobs_var]) the handler calls [hindcast] with the forecast file,
    [fcst_var], the observation file and [qobs_var]; when [qobs] is not
    there it calls [forecast] with the forecast file and [fcst_var].  In
    both cases the figure that comes back is saved as
    [forecast_hydrographs.png] in the working directory, closed, and that
    file is set as the [graph_forecasts] output, which is declared with
    the PNG format.  On any request at all, [hindcast] is called only if
    [qobs] is there and [forecast] only if it is not. *)
Theorem C5_hindcast_or_forecast workdir (s : state) sim fv rest1 rest2 :
  calls s = [] →
  req_inputs s !! "fcst" = Some (sim :: rest1) →
  req_inputs s !! "fcst_var" = Some (fv :: rest2) →
  is_Some (resp_outputs s !! "graph_forecasts") →
  (∀ qo qv rest3 rest4 fig,
     req_inputs s !! "qobs" = Some (qo :: rest3) →
     req_inputs s !! "qobs_var" = Some (qv :: rest4) →
     hindcast (file sim) (data fv) (file qo) (data qv) = inr fig →
     (_handler workdir s).1 = inr tt
     ∧ calls (_handler workdir s).2
       = [Call_hindcast (file sim) (data fv) (file qo) (data qv);
          Call_close fig]
     ∧ saved workdir fig s (_handler workdir s).2)
  ∧ (∀ fig,
       req_inputs s !! "qobs" = None →
       forecast (file sim) (data fv) = inr fig →
       (_handler workdir s).1 = inr tt
       ∧ calls (_handler workdir s).2
         = [Call_forecast (file sim) (data fv); Call_close fig]
       ∧ saved workdir fig s (_handler workdir s).2)
  ∧ (∀ sim_fn fcst_var qobs_fn qobs_var,
       Call_hindcast sim_fn fcst_var qobs_fn qobs_var
         ∈ calls (_handler workdir s).2 →
       is_Some (req_inputs s !! "qobs"))
  ∧ (∀ sim_fn fcst_var,
       Call_forecast sim_fn fcst_var ∈ calls (_handler workdir s).2 →
       req_inputs s !! "qobs" = None)
  ∧ (ComplexOut graph_forecasts ∈ outputs
     ∧ co_identifier graph_forecasts = "graph_forecasts"
     ∧ co_supported_formats graph_forecasts = [Format "image/png"]).
Proof.
  intros Hfresh Hfcst Hvar [o Hout].
  split; [|split; [|rewrite (assoc (∧)); split;
                     [by apply helper_called|]]];
    [| |by split; [apply list_elem_of_here|]].
  - intros qo qv rest3 rest4 fig Hqobs Hqv Hhind.
    rewrite (handler_hindcast workdir s _ _ _ _ _ _ _ _ _ _
               Hfcst Hvar Hqobs Hqv Hhind Hout); simpl.
    by rewrite Hfresh.
  - intros fig Hqobs Hfore.
    rewrite (handler_forecast workdir s _ _ _ _ _ _
               Hfcst Hvar Hqobs Hfore Hout); simpl.
    by rewrite Hfresh.
Qed.

End GraphFacts.

(** ** Statelessness *)

Section Stateless.

Context {nash_t params_t props_t dataset_t figure_t : Type}.
Context {rt : Runtime}.
Context {ravenpy : Regionalisation.RavenPy nash_t params_t props_t dataset_t}.
Context {graphs : GraphFcstUncertainty.Graphs figure_t}.





End Stateless.

(** ** The process descriptors *)

Section Descriptors.

(** C4.  The declared inputs of the regionalisation process: [method]
    takes exactly the seven method names and defaults to [SP_IDW];
    [ndonors] is an integer that defaults to 5; [min_NSE] is a float that
    defaults to 0.6; the three are optional ([min_occurs] is 0);
    [properties] is required and occurs once ([min_occurs] and
    [max_occurs] are 1), in the JSON format; and the four are inputs of the
    process. *)
Theorem C4_regionalisation_input_schema :
  (∀ v, allows Regionalisation.method v
        ↔ v ∈ ["MLR"; "SP"; "PS"; "SP_IDW"; "PS_IDW"; "SP_IDW_RA"; "PS_IDW_RA"])
  ∧ lit_default Regionalisation.method = Some (PStr "SP_IDW")
  ∧ (lit_data_type Regionalisation.ndonors = "integer"
     ∧ lit_default Regionalisation.ndonors = Some (PInt 5))
  ∧ (lit_data_type Regionalisation.min_NSE = "float"
     ∧ lit_default Regionalisation.min_NSE = Some (PFloat (Float 6 1))
     ∧ HbvEc.str (Float 6 1) = "0.6")
  ∧ (lit_min_occurs Regionalisation.method = Some 0%nat
     ∧ lit_min_occurs Regionalisation.ndonors = Some 0%nat
     ∧ lit_min_occurs Regionalisation.min_NSE = Some 0%nat)
  ∧ (cx_min_occurs Regionalisation.properties = Some 1%nat
     ∧ cx_max_occurs Regionalisation.properties = Some 1%nat
     ∧ cx_supported_formats Regionalisation.properties = [FORMATS_JSON])
  ∧ (Literal Regionalisation.method ∈ Regionalisation.inputs
     ∧ Literal Regionalisation.ndonors ∈ Regionalisation.inputs
     ∧ Literal Regionalisation.min_NSE ∈ Regionalisation.inputs
     ∧ Complex Regionalisation.properties ∈ Regionalisation.inputs).
Proof.
  split.
  { intros v. unfold allows; simpl. rewrite !elem_of_cons, !elem_of_nil.
    split; intros Hv; repeat destruct Hv as [Hv|Hv]; try done;
      (injection Hv as -> || subst v); tauto. }
  split; [done|]. split; [done|]. split; [done|]. split; [done|].
  split; [done|].
  unfold Regionalisation.inputs.
  repeat split;
    repeat first [apply list_elem_of_here|apply list_elem_of_further].
Qed.

(** C6.  The [params] input of the HBV-EC process.  Its default is the 21
    default values of [HBVEC.Params], from [par_x01 = 0.05984519] to
    [par_x21 = 1.024278], each printed by [str] and joined by a comma and a
    space, in the order of the fields; its abstract lists the names of the
    fields in the same order: the value at each place of the default is the
    value of the field named at that place of the abstract. *)
Theorem C6_hbv_ec_params_default (max_parallel_processes : nat) :
  lit_default (HbvEc.params max_parallel_processes)
  = Some (PStr ("0.05984519, 4.072232, 2.001574, 0.03473693, 0.09985144, "
                ++ "0.506052, 3.438486, 38.32455, 0.4606565, 0.06303738, "
                ++ "2.277781, 4.873686, 0.5718813, 0.04505643, 0.877607, "
                ++ "18.94145, 2.036937, 0.4452843, 0.6771759, 1.141608, "
                ++ "1.024278"))
  ∧ lit_abstract (HbvEc.params max_parallel_processes)
    = "Parameters: par_x01, par_x02, par_x03, par_x04, par_x05, par_x06, "
      ++ "par_x07, par_x08, par_x09, par_x10, par_x11, par_x12, par_x13, "
      ++ "par_x14, par_x15, par_x16, par_x17, par_x18, par_x19, par_x20, "
      ++ "par_x21"
  ∧ lit_default (HbvEc.params max_parallel_processes)
    = Some (PStr (String.concat ", "
              (map HbvEc.str (HbvEc.astuple HbvEc.params_defaults))))
  ∧ lit_abstract (HbvEc.params max_parallel_processes)
    = "Parameters: "
      ++ String.concat ", " (HbvEc.fields HbvEc.params_defaults)
  ∧ length (HbvEc.astuple HbvEc.params_defaults) = 21%nat
  ∧ length (HbvEc.fields HbvEc.params_defaults) = 21%nat
  ∧ (∀ (i : nat) (name : string),
       HbvEc.fields HbvEc.params_defaults !! i = Some name →
       ∃ v, HbvEc.field_value HbvEc.params_defaults !! name = Some v
            ∧ HbvEc.astuple HbvEc.params_defaults !! i = Some v)
  ∧ Forall (λ f, HbvEc.plain f = true) (HbvEc.astuple HbvEc.params_defaults).
Proof.
  split; [vm_compute; reflexivity|]. split; [vm_compute; reflexivity|].
  split; [reflexivity|]. split; [reflexivity|].
  split; [vm_compute; reflexivity|]. split; [vm_compute; reflexivity|].
  split.
  - intros i name Hi.
    do 21 (destruct i as [|i];
           [injection Hi as <-; eexists; split; vm_compute; reflexivity|]).
    discriminate Hi.
  - apply (bool_decide_unpack _). vm_compute. exact I.
Qed.

End Descriptors.

(** ** The handlers on the example requests, continued *)

Section MoreExamples.
Import Example.

Example run_forecast_calls :
  calls GraphExample.run_forecast.2
  = [GraphFcstUncertainty.Call_forecast "/data/fcst.nc" (PStr "q_sim");
     GraphFcstUncertainty.Call_close "forecast of /data/fcst.nc"].
Proof. vm_compute. reflexivity. Qed.

(** C5 on the example request with observations. *)
Lemma C5_witness :
  (calls (GraphExample.start GraphExample.hindcast_request) = []
   ∧ GraphExample.hindcast_request !! "fcst" = Some [GraphExample.fcst_in]
   ∧ GraphExample.hindcast_request !! "fcst_var"
     = Some [GraphExample.fcst_var_in]
   ∧ GraphExample.hindcast_request !! "qobs" = Some [GraphExample.qobs_in]
   ∧ GraphExample.hindcast_request !! "qobs_var"
     = Some [GraphExample.qobs_var_in])
  ∧ GraphExample.run_hindcast.1 = inr tt
  ∧ calls GraphExample.run_hindcast.2
    = [GraphFcstUncertainty.Call_hindcast
         "/data/fcst.nc" (PStr "q_sim") "/data/qobs.nc" (PStr "q_obs");
       GraphFcstUncertainty.Call_close
         "hindcast of /data/fcst.nc against /data/qobs.nc"]
  ∧ saved (rt := runtime) workdir
      "hindcast of /data/fcst.nc against /data/qobs.nc"
      (GraphExample.start GraphExample.hindcast_request)
      GraphExample.run_hindcast.2.
Proof.
  split; [by repeat split|].
  exact (proj1 (C5_hindcast_or_forecast (rt := runtime)
                  (lib := GraphExample.graphs) workdir
                  (GraphExample.start GraphExample.hindcast_request)
                  GraphExample.fcst_in GraphExample.fcst_var_in [] []
                  eq_refl eq_refl eq_refl (ex_intro _ (Output None) eq_refl))
           GraphExample.qobs_in GraphExample.qobs_var_in [] []
           "hindcast of /data/fcst.nc against /data/qobs.nc"
           eq_refl eq_refl eq_refl).
Defined.

End MoreExamples.

(** * More properties of the handlers *)

(** ** Bounds on the effects of a handler *)

Section EffectsFacts.

Context {file_t call_t : Type}.

Local Abbreviation state := (state file_t call_t).
Local Abbreviation M := (M file_t call_t).

#[local] Instance bounded_refl written set :
  Reflexive (bounded (file_t := file_t) (call_t := call_t) written set).
Proof. intros s. by split. Qed.

#[local] Instance bounded_trans written set :
  Transitive (bounded (file_t := file_t) (call_t := call_t) written set).
Proof.
  intros s1 s2 s3 [Hi1 Hs1 Hd1 Ho1 Hl1 Hfd1 Hf1 Hc1]
                  [Hi2 Hs2 Hd2 Ho2 Hl2 Hfd2 Hf2 Hc2].
  split.
  - by trans (req_inputs s2).
  - by trans (resp_status s2).
  - congruence.
  - intros key Hkey. rewrite Ho2, Ho1; done.
  - by trans (log s2).
  - by trans (dom (files s2)).
  - intros path Hpath. rewrite Hf2, Hf1; done.
  - by trans (calls s2).
Qed.

Section Keeps.

Context (R : relation state) `{!Reflexive R} `{!Transitive R}.

Lemma keeps_ret {A} (a : A) : keeps R (ret a : M A).
Proof. intros s. simpl. reflexivity. Qed.

Lemma keeps_raise {A} e : keeps R (raise e : M A).
Proof. intros s. simpl. reflexivity. Qed.

Lemma keeps_lift {A} (r : result A) : keeps R (lift r : M A).
Proof. intros s. simpl. reflexivity. Qed.

Lemma keeps_first {A} (l : list A) : keeps R (first l : M A).
Proof. destruct l; [apply keeps_raise|apply keeps_ret]. Qed.

Lemma keeps_bind {A B} (m : M A) (k : A → M B) :
  keeps R m → (∀ a, keeps R (k a)) → keeps R (bind m k).
Proof.
  intros Hm Hk s. unfold bind. specialize (Hm s).
  destruct (m s) as [[e|a] s1]; simpl in *; [done|].
  etrans; [done|apply Hk].
Qed.

Lemma keeps_try_except {A} (m : M A) (h : exn → M A) :
  keeps R m → (∀ e, keeps R (h e)) → keeps R (try_except m h).
Proof.
  intros Hm Hh s. unfold try_except. specialize (Hm s).
  destruct (m s) as [[e|a] s1]; simpl in *; [|done].
  etrans; [done|apply Hh].
Qed.

Lemma keeps_for_each {A B} (f : B → A → M B) l :
  (∀ acc x, keeps R (f acc x)) → ∀ acc, keeps R (for_each f acc l).
Proof.
  intros Hf. induction l as [|x l IH]; intros acc; simpl.
  - apply keeps_ret.
  - apply keeps_bind; [apply Hf|apply IH].
Qed.

Lemma keeps_get_input key : keeps R (get_input key : M _).
Proof.
  intros s. unfold get_input. by destruct (req_inputs s !! key).
Qed.

Lemma keeps_has_input key : keeps R (has_input key : M _).
Proof. intros s. simpl. reflexivity. Qed.

Lemma keeps_input_items : keeps R (input_items : M _).
Proof. intros s. simpl. reflexivity. Qed.

End Keeps.

Section Bounded.

Context (written set : string → Prop).

Local Abbreviation R := (bounded (file_t := file_t) (call_t := call_t)
                           written set).

Lemma bounded_pop_input key : keeps R (pop_input key : M _).
Proof.
  intros s. unfold pop_input.
  destruct (req_inputs s !! key); simpl; [|done].
  split; simpl; try done. apply delete_subseteq.
Qed.

Lemma bounded_pop_input_default key dflt :
  keeps R (pop_input_default key dflt : M _).
Proof.
  intros s. unfold pop_input_default.
  destruct (req_inputs s !! key); simpl; [|done].
  split; simpl; try done. apply delete_subseteq.
Qed.

Lemma bounded_update_status msg pct : keeps R (update_status msg pct : M _).
Proof.
  intros s. split; simpl; try done. by apply prefix_app_r.
Qed.

Lemma bounded_log_exception e : keeps R (log_exception e : M _).
Proof.
  intros s. split; simpl; try done. by apply prefix_app_r.
Qed.

Lemma bounded_call {A} c (r : result A) : keeps R (call c r : M A).
Proof.
  intros s. split; simpl; try done. by apply prefix_app_r.
Qed.

Lemma bounded_write_file path content :
  written path → keeps R (write_file path content : M _).
Proof.
  intros Hw s. split; simpl; try done.
  - rewrite dom_insert_L. set_solver.
  - intros p Hp. rewrite lookup_insert_ne; [done|]. by intros <-.
Qed.

Lemma bounded_set_output_file key path :
  set key → keeps R (set_output_file key path : M _).
Proof.
  intros Hs s. unfold set_output_file.
  destruct (resp_outputs s !! key) as [o|] eqn:Ho; simpl; [|done].
  split; simpl; try done.
  - by apply dom_insert_lookup_L.
  - intros k Hk. rewrite lookup_insert_ne; [done|]. by intros <-.
Qed.

End Bounded.

End EffectsFacts.

Ltac keeps_step :=
  first
    [ (apply keeps_bind; try tc_solve); [|intros ?]
    | (apply keeps_try_except; try tc_solve); [|intros ?]
    | (apply keeps_for_each; try tc_solve); intros ? ?
    | by apply keeps_ret; tc_solve
    | by apply keeps_raise; tc_solve
    | by apply keeps_lift; tc_solve
    | by apply keeps_first; tc_solve
    | by apply keeps_get_input; tc_solve
    | by apply keeps_has_input; tc_solve
    | by apply keeps_input_items; tc_solve
    | apply bounded_pop_input | apply bounded_pop_input_default
    | apply bounded_update_status | apply bounded_log_exception
    | apply bounded_call
    | apply bounded_write_file; first [by left|by right|done]
    | apply bounded_set_output_file; first [by left|by right|done] ].

Ltac keeps_auto :=
  repeat first
    [ keeps_step
    | match goal with
      | |- keeps _ (match ?x with _ => _ end) => destruct x
      end ].

Section RegionalisationBounds.
Import Regionalisation.

Context {nash_t params_t props_t dataset_t : Type}.
Context {rt : Runtime} {lib : RavenPy nash_t params_t props_t dataset_t}.

Local Abbreviation state :=
  (state (nc_file dataset_t) (lib_call nash_t params_t props_t)).

#[local] Existing Instances bounded_refl bounded_trans.

(** X1.  Whatever the request and however the run ends, the
    regionalisation handler only takes inputs out of the request, only adds
    status updates, log records and library calls, leaves the response with
    the same outputs and changes at most [hydrograph] and [ensemble], removes
    no file, and changes no file other than [qsim.nc] and [ensemble.nc] of
    the working directory. *)
Theorem X1_regionalisation_effects_bounded workdir (s : state) :
  bounded (output_file workdir) output_key s (_handler workdir s).2.
Proof.
  revert s. change (keeps (bounded (output_file workdir) output_key)
                          (_handler workdir)).
  unfold _handler, pop_data, read_nc_spec, read_remaining, keys,
    copy_properties.
  keeps_auto.
Qed.

End RegionalisationBounds.

Section GraphBounds.
Import GraphFcstUncertainty.

Context {figure_t : Type} {rt : Runtime} {lib : Graphs figure_t}.

Local Abbreviation state := (state (fig_file figure_t) (lib_call figure_t)).

#[local] Existing Instances bounded_refl bounded_trans.

#[local] Instance untouched_refl :
  Reflexive (untouched (figure_t := figure_t)).
Proof. by intros s. Qed.

#[local] Instance untouched_trans :
  Transitive (untouched (figure_t := figure_t)).
Proof.
  intros s1 s2 s3 (Hi1 & Hs1 & Hl1) (Hi2 & Hs2 & Hl2).
  unfold untouched. by rewrite Hi2, Hs2, Hl2.
Qed.

Lemma graph_untouched workdir : keeps untouched (_handler workdir).
Proof.
  unfold _handler, input0.
  repeat first
    [ (apply keeps_bind; try tc_solve); [|intros ?]
    | by apply keeps_ret; tc_solve
    | by apply keeps_first; tc_solve
    | by apply keeps_get_input; tc_solve
    | by apply keeps_has_input; tc_solve
    | match goal with
      | |- keeps _ (match ?x with _ => _ end) => destruct x
      end
    | by intros s0; unfold call, write_file, set_output_file; simpl;
         try destruct (resp_outputs s0 !! _) ].
Qed.

(** X2.  Whatever the request and however the run ends, the
    forecast-graph handler leaves the request, the status of the response
    and the log as they are; it only adds calls, leaves the response with
    the same outputs and changes at most [graph_forecasts], removes no
    file, and changes no file other than [forecast_hydrographs.png] of the
    working directory. *)
Theorem X2_graph_effects_bounded workdir (s : state) :
  untouched s (_handler workdir s).2
  ∧ bounded (λ path, path = figure_path workdir)
            (λ key, key = "graph_forecasts") s (_handler workdir s).2.
Proof.
  split; [apply graph_untouched|].
  revert s. change (keeps (bounded (λ path, path = figure_path workdir)
                                   (λ key, key = "graph_forecasts"))
                          (_handler workdir)).
  unfold _handler, input0. keeps_auto.
Qed.

End GraphBounds.

(** ** Statelessness, as the code has it *)

Section StatelessHandlers.

Context {nash_t params_t props_t dataset_t figure_t : Type}.
Context {rt : Runtime}.
Context {ravenpy : Regionalisation.RavenPy nash_t params_t props_t dataset_t}.
Context {graphs : GraphFcstUncertainty.Graphs figure_t}.

#[local] Existing Instances bounded_refl bounded_trans.


End StatelessHandlers.

Section StatelessExamples.
Import Example.



End StatelessExamples.

(** ** The regionalisation handler on a request that can be read *)

Section RegionalisationForward.
Import Regionalisation.

Context {nash_t params_t props_t dataset_t : Type}.
Context {rt : Runtime} {lib : RavenPy nash_t params_t props_t dataset_t}.

Local Abbreviation state :=
  (state (nc_file dataset_t) (lib_call nash_t params_t props_t)).
Local Abbreviation regionalize_args :=
  (regionalize_args nash_t params_t props_t).

Lemma read_nc_spec_result (s : state) :
  read_nc_spec s
  = (fold_result nc_step kw_empty (nc_specs (req_inputs s)),
     State (delete "nc_spec" (req_inputs s)) (resp_status s) (resp_outputs s)
           (log s) (files s) (calls s)).
Proof.
  unfold read_nc_spec, bind, pop_input_default, nc_specs.
  destruct (req_inputs s !! "nc_spec") as [specs|] eqn:Hnc; simpl.
  - rewrite (for_each_pure _ nc_step); [by destruct (fold_result _ _ _)|].
    intros acc x. unfold nc_step, bind, lift.
    by destruct (json_loads (data x)).
  - by rewrite delete_id, state_eta.
Qed.

Lemma nc_fold_decoded specs ds : ∀ kw,
  decoded specs ds →
  fold_result nc_step kw specs
  = inr (Kwargs (foldl (λ acc d, d ∪ acc) (kw_named kw) ds) (kw_other kw)).
Proof.
  intros kw Hdec. revert kw.
  induction Hdec as [|spec d specs ds Hspec _ IH]; intros kw; simpl.
  - by destruct kw.
  - unfold nc_step at 1. rewrite Hspec. simpl. by rewrite IH.
Qed.

Lemma remaining_total inp items : ∀ kw,
  (∀ k l, (k, l) ∈ items → ∃ e rest, inp !! k = Some (e :: rest)) →
  ∃ kw', fold_result (remaining_step inp) kw items = inr kw'.
Proof.
  induction items as [|[k l] items IH]; intros kw Hitems; simpl.
  - by eexists.
  - destruct (Hitems k l) as (e & rest & Hk); [by left|].
    unfold remaining_step at 1; simpl. rewrite Hk.
    apply IH. intros k' l' Hin. apply (Hitems k' l'). by right.
Qed.

Lemma remaining_fold_all_occur inp kw :
  all_occur inp →
  fold_result (remaining_step inp) kw (map_to_list inp)
  = inr (Kwargs (first_data_of inp ∪ kw_named kw) (kw_other kw)).
Proof.
  intros Hocc.
  destruct (remaining_total inp (map_to_list inp) kw) as [kw' Hfold].
  { intros k l Hin%elem_of_map_to_list.
    destruct l as [|e rest]; [by destruct (Hocc k [] Hin)|by eauto]. }
  rewrite Hfold. f_equal.
  destruct (remaining_fold _ _ _ _ Hfold) as (Hother & Hout & Hin).
  destruct kw' as [named other]; simpl in *. f_equal; [|done].
  apply map_eq. intros key. unfold first_data_of.
  destruct (inp !! key) as [l|] eqn:Hkey.
  - destruct l as [|e rest]; [by destruct (Hocc key [] Hkey)|].
    rewrite (Hin key e rest); [|
      apply list_elem_of_fmap; exists (key, e :: rest); split; [done|];
      by apply elem_of_map_to_list|done].
    symmetry. apply lookup_union_Some_l. by rewrite lookup_omap, Hkey.
  - rewrite Hout.
    + symmetry. rewrite lookup_union_r; [done|]. by rewrite lookup_omap, Hkey.
    + intros [[k l] [-> Hkl]]%list_elem_of_fmap.
      apply elem_of_map_to_list in Hkl. simpl in Hkey. congruence.
Qed.

Ltac proj :=
  cbn [req_inputs resp_status resp_outputs log files calls fst snd].

Ltac pop H :=
  unfold bind at 1; rewrite pop_data_run; proj;
  rewrite ?lookup_delete_ne by done; rewrite H.

Lemma handler_well_formed workdir (s : state) ds a :
  well_formed (req_inputs s) ds a →
  _handler workdir s = expected_run workdir s a.
Proof.
  intros [Hfw Hdec Hocc Hkw].
  destruct Hfw as [(e_method & r_method & Hmethod & Ea)
                   (e_model & r_model & Hmodel & Eb)
                   (e_size & r_size & Hsize & Ec)
                   (e_nse & r_nse & Hnse & Ed)
                   (ts_in & Hts & Ee) Hgp
                   (p & (e_prop & r_prop & Hprop & ->) & Hjson) Hprops].
  destruct a as [method model nash params props ungauged size nse ts kwds].
  simpl in *. subst.
  unfold expected_run, _handler, keywords, nc_merge.
  unfold bind at 1. unfold pop_input at 1. rewrite Hts.
  pop Hmodel. pop Hmethod. pop Hsize. pop Hnse. pop Hprop.
  unfold bind at 1, lift at 1. rewrite Hjson.
  unfold bind at 1. rewrite read_nc_spec_result. proj.
  unfold nc_specs at 1. rewrite !lookup_delete_ne by done.
  fold (nc_specs (req_inputs s)).
  rewrite (nc_fold_decoded _ ds) by done.
  unfold bind at 1. rewrite read_remaining_run. proj.
  fold (left_over (req_inputs s)).
  rewrite remaining_fold_all_occur by done.
  cbn [kw_named kw_other kw_empty].
  unfold bind at 1, update_status at 1; proj.
  unfold bind at 1, call at 1; proj. rewrite Hgp.
  unfold bind at 1, update_status at 1; proj.
  unfold bind at 1, keys at 1, ret at 1.
  unfold bind at 1, call at 1; proj. rewrite Hprops.
  unfold bind at 1. rewrite copy_properties_run.
  unfold bind at 1, update_status at 1; proj.
  unfold bind at 1, try_except at 1, call at 1; proj.
  set (a := Args _ _ _ _ _ _ _ _ _ _).
  assert (∀ cs : list (lib_call nash_t params_t props_t),
            (((cs ++ [Call_read_gauged_params (data e_model)])
                ++ [Call_read_gauged_properties (dom ungauged)])
               ++ [Call_regionalize a])%list
            = (cs ++ library_calls a)%list) as ->.
  { intros cs. by rewrite <- !app_assoc. }
  assert (∀ st : list (string * Z),
            (((st ++ [("Inputs are read", 1%Z)])
                ++ [("Gauged params are read", 2%Z)])
               ++ [("Gauged properties are read", 3%Z)])%list
            = (st ++ take 3 progress)%list) as Hst.
  { intros st. by rewrite <- !app_assoc. }
  rewrite Hst.
  destruct (call_regionalize a) as [e|[qsim ensemble]].
  { by unfold bind, log_exception, raise. }
  unfold bind at 1, update_status at 1; proj.
  replace ((resp_status s ++ take 3 progress)
             ++ [("Computed regionalization", 99%Z)])%list
    with (resp_status s ++ progress)%list
    by (unfold progress; simpl; by rewrite <- !app_assoc).
  unfold bind at 1, write_file at 1; proj.
  unfold bind at 1, set_output_file at 1; proj.
  destruct (resp_outputs s !! "hydrograph") as [o1|]; [|done].
  unfold bind at 1, write_file at 1; proj.
  unfold bind at 1, set_output_file at 1; proj.
  rewrite lookup_insert_ne by done.
  by destruct (resp_outputs s !! "ensemble") as [o2|].
Qed.

End RegionalisationForward.

Section RegionalisationExtras.
Import Regionalisation.

Context {nash_t params_t props_t dataset_t : Type}.
Context {rt : Runtime} {lib : RavenPy nash_t params_t props_t dataset_t}.

Local Abbreviation state :=
  (state (nc_file dataset_t) (lib_call nash_t params_t props_t)).
Local Abbreviation regionalize_args :=
  (regionalize_args nash_t params_t props_t).

(** X3.  On a well-formed request whose [regionalize] call returns, and
    with a response that has the [hydrograph] and [ensemble] outputs, the
    handler returns: it has made the three library calls, reported the four
    status updates in order, written the two datasets as [qsim.nc] and
    [ensemble.nc] in the working directory and set them as the outputs,
    logged nothing, and left in the request the inputs it does not take
    itself. *)
Theorem X3_well_formed_request_completes workdir (s : state) ds a
    qsim ensemble :
  well_formed (req_inputs s) ds a →
  call_regionalize a = inr (qsim, ensemble) →
  is_Some (resp_outputs s !! "hydrograph") →
  is_Some (resp_outputs s !! "ensemble") →
  (_handler workdir s).1 = inr tt
  ∧ calls (_handler workdir s).2 = (calls s ++ library_calls a)%list
  ∧ resp_status (_handler workdir s).2 = (resp_status s ++ progress)%list
  ∧ files (_handler workdir s).2
    = <[ensemble_path workdir := NetCDF ensemble]>
        (<[qsim_path workdir := NetCDF qsim]> (files s))
  ∧ resp_outputs (_handler workdir s).2
    = <["ensemble" := Output (Some (ensemble_path workdir))]>
        (<["hydrograph" := Output (Some (qsim_path workdir))]>
           (resp_outputs s))
  ∧ log (_handler workdir s).2 = log s
  ∧ req_inputs (_handler workdir s).2 = left_over (req_inputs s).
Proof.
  intros Hwf Hcall [o1 Ho1] [o2 Ho2].
  rewrite (handler_well_formed workdir s ds a Hwf).
  unfold expected_run. rewrite Hcall, Ho1, Ho2. by repeat split.
Qed.

Lemma nc_merge_snoc (ds : list (gmap string pyval)) d :
  nc_merge (ds ++ [d]) = d ∪ nc_merge ds.
Proof. unfold nc_merge. by rewrite foldl_app. Qed.

Lemma nc_merge_none (ds : list (gmap string pyval)) key :
  Forall (λ d, d !! key = None) ds → nc_merge ds !! key = None.
Proof.
  induction ds as [|d ds IH] using rev_ind; intros Hall; [done|].
  apply Forall_app in Hall as [Hds Hd%Forall_inv].
  rewrite nc_merge_snoc. apply lookup_union_None. auto.
Qed.

Lemma nc_merge_last (ds1 ds2 : list (gmap string pyval)) d key v :
  d !! key = Some v →
  Forall (λ d', d' !! key = None) ds2 →
  nc_merge (ds1 ++ d :: ds2) !! key = Some v.
Proof.
  intros Hd. induction ds2 as [|d2 ds2 IH] using rev_ind; intros Hall.
  - rewrite nc_merge_snoc. by apply lookup_union_Some_l.
  - apply Forall_app in Hall as [Hds Hd2%Forall_inv].
    change (d :: ds2 ++ [d2])%list with ((d :: ds2) ++ [d2])%list.
    rewrite app_assoc, nc_merge_snoc, lookup_union_r by done. by apply IH.
Qed.

(** With keyword arguments that can be unpacked, the run expected from
    a well-formed request is the one that follows from what the library's
    [regionalize] answers on the arguments. *)
Lemma expected_run_answered workdir (s : state) a :
  unpackable (a_kwds a) →
  answered workdir a s (expected_run workdir s a).1
                       (expected_run workdir s a).2.
Proof.
  intros Hkw. unfold answered, expected_run.
  rewrite (call_unpackable a Hkw).
  destruct (regionalize a) as [e|[qsim ensemble]]; [done|].
  by destruct (resp_outputs s !! "hydrograph"),
              (resp_outputs s !! "ensemble").
Qed.

(** X4.  The keyword arguments of the call to [regionalize], on a request
    that can be read and whose [nc_spec] occurrences decode to the
    dictionaries [ds]: every key is a string; an input left in the request
    gives the data of its first occurrence; any other key has the value of
    the last [nc_spec] occurrence that has it; and a key that neither has
    is no keyword argument.  These are the arguments the library's
    [regionalize] runs on: what it answers on them is what the run goes on
    with, the exception that is reported or the datasets that are
    written. *)
Theorem X4_keyword_arguments workdir (s : state) ds a0 :
  forwarded (req_inputs s) a0 →
  decoded (nc_specs (req_inputs s)) ds →
  all_occur (left_over (req_inputs s)) →
  ∃ a,
    calls (_handler workdir s).2 = (calls s ++ library_calls a)%list
    ∧ kw_other (a_kwds a) = false
    ∧ (∀ key e rest,
         left_over (req_inputs s) !! key = Some (e :: rest) →
         kw_named (a_kwds a) !! key = Some (data e))
    ∧ (∀ key ds1 d ds2 v,
         left_over (req_inputs s) !! key = None →
         ds = (ds1 ++ d :: ds2)%list →
         d !! key = Some v →
         Forall (λ d', d' !! key = None) ds2 →
         kw_named (a_kwds a) !! key = Some v)
    ∧ (∀ key,
         left_over (req_inputs s) !! key = None →
         Forall (λ d, d !! key = None) ds →
         kw_named (a_kwds a) !! key = None)
    ∧ (unpackable (a_kwds a) →
       answered workdir a s (_handler workdir s).1 (_handler workdir s).2).
Proof.
  intros Hfw Hdec Hocc.
  set (a := Args (a_method a0) (a_model_name a0) (a_nash a0) (a_params a0)
                 (a_props a0) (a_ungauged_props a0) (a_size a0)
                 (a_min_NSE a0) (a_ts a0) (keywords (req_inputs s) ds)).
  assert (well_formed (req_inputs s) ds a) as Hwf.
  { split; [|done|done|done]. by destruct Hfw. }
  exists a. rewrite (handler_well_formed workdir s ds a Hwf).
  split.
  { unfold expected_run.
    destruct (call_regionalize a) as [e|[qsim ensemble]]; [done|].
    by destruct (resp_outputs s !! "hydrograph"),
                (resp_outputs s !! "ensemble"). }
  split; [done|].
  split; [|split; [|split; [|apply expected_run_answered]]];
    simpl; unfold first_data_of.
  - intros key e rest Hkey. apply lookup_union_Some_l.
    by rewrite lookup_omap, Hkey.
  - intros key ds1 d ds2 v Hkey -> Hd Hds2.
    rewrite lookup_union_r by (by rewrite lookup_omap, Hkey).
    by apply nc_merge_last.
  - intros key Hkey Hds. apply lookup_union_None. split.
    + by rewrite lookup_omap, Hkey.
    + by apply nc_merge_none.
Qed.

(** X5.  The handler takes its inputs out of the request it is given: run
    again on the request and response that a first run on a well-formed
    request left, it raises [KeyError] for [ts] and does nothing else. *)
Theorem X5_second_run_on_same_request workdir (s : state) ds a :
  well_formed (req_inputs s) ds a →
  _handler workdir (_handler workdir s).2
  = (inl (KeyError "ts"), (_handler workdir s).2).
Proof.
  intros Hwf.
  assert (req_inputs (_handler workdir s).2 !! "ts" = None) as Hts.
  { rewrite (handler_well_formed workdir s ds a Hwf). unfold expected_run.
    assert (left_over (req_inputs s) !! "ts" = None) as Hleft.
    { unfold left_over. rewrite !lookup_delete_ne by done.
      apply lookup_delete_eq. }
    destruct (call_regionalize a) as [e|[qsim ensemble]]; [done|].
    by destruct (resp_outputs s !! "hydrograph"),
                (resp_outputs s !! "ensemble"). }
  unfold _handler at 1. unfold bind at 1, pop_input at 1. by rewrite Hts.
Qed.

(** X6.  When the response lacks an output, the handler raises [KeyError]
    for it after the file of that output is written: without [hydrograph],
    [qsim.nc] is written and nothing else is done; with [hydrograph] but
    without [ensemble], both files are written and [hydrograph] is set. *)
Theorem X6_missing_output workdir (s : state) ds a qsim ensemble :
  well_formed (req_inputs s) ds a →
  call_regionalize a = inr (qsim, ensemble) →
  (resp_outputs s !! "hydrograph" = None →
   (_handler workdir s).1 = inl (KeyError "hydrograph")
   ∧ files (_handler workdir s).2
     = <[qsim_path workdir := NetCDF qsim]> (files s)
   ∧ resp_outputs (_handler workdir s).2 = resp_outputs s)
  ∧ (is_Some (resp_outputs s !! "hydrograph") →
     resp_outputs s !! "ensemble" = None →
     (_handler workdir s).1 = inl (KeyError "ensemble")
     ∧ files (_handler workdir s).2
       = <[ensemble_path workdir := NetCDF ensemble]>
           (<[qsim_path workdir := NetCDF qsim]> (files s))
     ∧ resp_outputs (_handler workdir s).2
       = <["hydrograph" := Output (Some (qsim_path workdir))]>
           (resp_outputs s)).
Proof.
  intros Hwf Hcall.
  rewrite (handler_well_formed workdir s ds a Hwf).
  unfold expected_run. rewrite Hcall. split.
  - by intros ->.
  - by intros [o1 ->] ->.
Qed.


End RegionalisationExtras.

Section RegionalisationFailures.
Import Regionalisation.

Context {nash_t params_t props_t dataset_t : Type}.
Context {rt : Runtime} {lib : RavenPy nash_t params_t props_t dataset_t}.

Local Abbreviation state :=
  (state (nc_file dataset_t) (lib_call nash_t params_t props_t)).

Ltac proj_h H :=
  cbn [req_inputs resp_status resp_outputs log files calls fst snd] in H.

Ltac pop_h Hrun Hk :=
  unfold bind at 1 in Hrun; rewrite pop_data_run in Hrun; proj_h Hrun;
  rewrite ?lookup_delete_ne in Hrun by done; rewrite Hk in Hrun.

Ltac pop_ts Hrun Hk :=
  unfold _handler in Hrun;
  unfold bind at 1 in Hrun; unfold pop_input at 1 in Hrun;
  rewrite Hk in Hrun.

Ltac earlier Hbefore k l Hk :=
  let Hl := fresh "Hl" in
  destruct (Hbefore k) as (l & Hk & Hl);
  [ repeat first [by left|right]
  | try (destruct Hl as [Hl|Hl]; [discriminate Hl|];
         destruct l; [done|]) ].

(** X8.  When one of the inputs [ts], [model_name], [method], [ndonors],
    [min_NSE] and [properties] is not in the request, and those before it
    in this order are (with an occurrence, but for [ts]), the handler
    raises [KeyError] for it, and nothing but the request has changed: no
    status update, no library call, no log record, no file, no output. *)
Theorem X8_missing_required_input workdir (s : state) before key after :
  required = (before ++ key :: after)%list →
  (∀ k, k ∈ before →
        ∃ l, req_inputs s !! k = Some l ∧ (k = "ts" ∨ l ≠ [])) →
  req_inputs s !! key = None →
  (_handler workdir s).1 = inl (KeyError key)
  ∧ only_request_changed s (_handler workdir s).2.
Proof.
  intros Hsplit Hbefore Hkey.
  destruct (_handler workdir s) as [r s'] eqn:Hrun. simpl.
  unfold required in Hsplit.
  destruct before as [|b0 [|b1 [|b2 [|b3 [|b4 [|b5 more]]]]]];
    simpl in Hsplit; injection Hsplit as <-; subst.
  - pop_ts Hrun Hkey. by injection Hrun as <- <-.
  - earlier Hbefore "ts" l0 H0.
    pop_ts Hrun H0. pop_h Hrun Hkey. by injection Hrun as <- <-.
  - earlier Hbefore "ts" l0 H0. earlier Hbefore "model_name" l1 H1.
    pop_ts Hrun H0. pop_h Hrun H1. pop_h Hrun Hkey.
    by injection Hrun as <- <-.
  - earlier Hbefore "ts" l0 H0. earlier Hbefore "model_name" l1 H1.
    earlier Hbefore "method" l2 H2.
    pop_ts Hrun H0. pop_h Hrun H1. pop_h Hrun H2. pop_h Hrun Hkey.
    by injection Hrun as <- <-.
  - earlier Hbefore "ts" l0 H0. earlier Hbefore "model_name" l1 H1.
    earlier Hbefore "method" l2 H2. earlier Hbefore "ndonors" l3 H3.
    pop_ts Hrun H0. pop_h Hrun H1. pop_h Hrun H2. pop_h Hrun H3.
    pop_h Hrun Hkey. by injection Hrun as <- <-.
  - earlier Hbefore "ts" l0 H0. earlier Hbefore "model_name" l1 H1.
    earlier Hbefore "method" l2 H2. earlier Hbefore "ndonors" l3 H3.
    earlier Hbefore "min_NSE" l4 H4.
    pop_ts Hrun H0. pop_h Hrun H1. pop_h Hrun H2. pop_h Hrun H3.
    pop_h Hrun H4. pop_h Hrun Hkey. by injection Hrun as <- <-.
  - by destruct more.
Qed.

(** X9.  When the text of [properties] is not JSON, the exception of the
    decoder leaves the handler as it is (it is not turned into a
    [ProcessError]), and nothing but the request has changed: no status
    update, no library call, no log record. *)
Theorem X9_properties_not_json workdir (s : state) p e :
  is_Some (req_inputs s !! "ts") →
  occurs (req_inputs s) "model_name" →
  occurs (req_inputs s) "method" →
  occurs (req_inputs s) "ndonors" →
  occurs (req_inputs s) "min_NSE" →
  first_data (req_inputs s) "properties" p →
  json_loads p = inl e →
  (_handler workdir s).1 = inl e
  ∧ only_request_changed s (_handler workdir s).2.
Proof.
  intros [ts_in Hts] (e1 & r1 & H1) (e2 & r2 & H2) (e3 & r3 & H3)
         (e4 & r4 & H4) (e5 & r5 & H5 & ->) Hjson.
  destruct (_handler workdir s) as [r s'] eqn:Hrun. simpl.
  pop_ts Hrun Hts. pop_h Hrun H1. pop_h Hrun H2. pop_h Hrun H3.
  pop_h Hrun H4. pop_h Hrun H5.
  unfold bind at 1, lift at 1 in Hrun. rewrite Hjson in Hrun.
  by injection Hrun as <- <-.
Qed.

(** X10.  When [properties] decodes to a JSON value that is not an object,
    on a request that can otherwise be read, the handler raises
    [AttributeError] only after two status updates and the call to
    [read_gauged_params]; [read_gauged_properties] and [regionalize] are
    not called, and nothing is logged or written. *)
Theorem X10_properties_not_an_object workdir (s : state) m p v ds np :
  is_Some (req_inputs s !! "ts") →
  first_data (req_inputs s) "model_name" m →
  occurs (req_inputs s) "method" →
  occurs (req_inputs s) "ndonors" →
  occurs (req_inputs s) "min_NSE" →
  first_data (req_inputs s) "properties" p →
  json_loads p = inr v →
  (∀ d, v ≠ PDict d) →
  decoded (nc_specs (req_inputs s)) ds →
  all_occur (left_over (req_inputs s)) →
  read_gauged_params m = inr np →
  (_handler workdir s).1 = inl (AttributeError "keys")
  ∧ calls (_handler workdir s).2
    = (calls s ++ [Call_read_gauged_params m])%list
  ∧ resp_status (_handler workdir s).2
    = (resp_status s ++ take 2 progress)%list
  ∧ log (_handler workdir s).2 = log s
  ∧ files (_handler workdir s).2 = files s
  ∧ resp_outputs (_handler workdir s).2 = resp_outputs s.
Proof.
  intros [ts_in Hts] (e1 & r1 & H1 & ->) (e2 & r2 & H2) (e3 & r3 & H3)
         (e4 & r4 & H4) (e5 & r5 & H5 & ->) Hjson Hv Hdec Hocc Hgp.
  destruct (_handler workdir s) as [r s'] eqn:Hrun. simpl.
  pop_ts Hrun Hts. pop_h Hrun H1. pop_h Hrun H2. pop_h Hrun H3.
  pop_h Hrun H4. pop_h Hrun H5.
  unfold bind at 1, lift at 1 in Hrun. rewrite Hjson in Hrun.
  unfold bind at 1 in Hrun. rewrite read_nc_spec_result in Hrun.
  proj_h Hrun. unfold nc_specs at 1 in Hrun.
  rewrite !lookup_delete_ne in Hrun by done.
  fold (nc_specs (req_inputs s)) in Hrun.
  rewrite (nc_fold_decoded _ ds) in Hrun by done.
  unfold bind at 1 in Hrun. rewrite read_remaining_run in Hrun.
  proj_h Hrun. fold (left_over (req_inputs s)) in Hrun.
  rewrite remaining_fold_all_occur in Hrun by done.
  unfold bind at 1, update_status at 1 in Hrun; proj_h Hrun.
  unfold bind at 1, call at 1 in Hrun; proj_h Hrun. rewrite Hgp in Hrun.
  destruct np as [nash params].
  unfold bind at 1, update_status at 1 in Hrun; proj_h Hrun.
  unfold bind at 1, keys at 1 in Hrun.
  destruct v as [| | | | | |d]; try (by destruct (Hv d));
    injection Hrun as <- <-; simpl; by rewrite <- !app_assoc.
Qed.

End RegionalisationFailures.

Section GraphExtras.
Import GraphFcstUncertainty.

Context {figure_t : Type} {rt : Runtime} {lib : Graphs figure_t}.

Local Abbreviation state := (state (fig_file figure_t) (lib_call figure_t)).

Lemma input0_item0 key (s : state) :
  input0 key s = (item0 (req_inputs s) key, s).
Proof.
  rewrite input0_run. unfold item0.
  by destruct (req_inputs s !! key) as [[|e l]|].
Qed.

(** The handler, in terms of the helper call of the request. *)
Lemma handler_helper workdir (s : state) :
  _handler workdir s
  = match helper (req_inputs s) with
    | inl e => (inl e, s)
    | inr (c, inl e) =>
        (inl e,
         State (req_inputs s) (resp_status s) (resp_outputs s) (log s)
               (files s) (calls s ++ [c]))
    | inr (c, inr fig) =>
        set_output_file "graph_forecasts" (figure_path workdir)
          (State (req_inputs s) (resp_status s) (resp_outputs s) (log s)
                 (<[figure_path workdir := Saved fig]> (files s))
                 ((calls s ++ [c]) ++ [Call_close fig]))
    end.
Proof.
  unfold _handler, helper.
  unfold bind at 1. rewrite input0_item0.
  destruct (item0 (req_inputs s) "fcst") as [e|sim]; [done|].
  unfold bind at 1. rewrite input0_item0.
  destruct (item0 (req_inputs s) "fcst_var") as [e|fv]; [done|].
  unfold bind at 1. unfold has_input at 1.
  destruct (req_inputs s !! "qobs") as [qobs_in|] eqn:Hqobs.
  - rewrite bool_decide_true by done.
    unfold bind at 1. unfold bind at 1. rewrite input0_item0.
    destruct (item0 (req_inputs s) "qobs") as [e|qo]; [done|].
    unfold bind at 1. rewrite input0_item0.
    destruct (item0 (req_inputs s) "qobs_var") as [e|qv]; [done|].
    unfold call at 1.
    destruct (hindcast _ _ _ _) as [e|fig]; [done|].
    unfold bind, write_file, call, set_output_file, ret; simpl.
    by destruct (resp_outputs s !! "graph_forecasts").
  - rewrite bool_decide_false by (by intros [? ?]).
    unfold bind at 1. unfold call at 1.
    destruct (forecast _ _) as [e|fig]; [done|].
    unfold bind, write_file, call, set_output_file, ret; simpl.
    by destruct (resp_outputs s !! "graph_forecasts").
Qed.

Ltac readable Hbefore k x Hk :=
  destruct (Hbefore k) as (x & Hk); [repeat first [by left|right]|].

(** X11.  When an input the graph handler reads is not in the request
    (or has no occurrence), and the inputs read before it are, the handler
    raises the exception of that lookup, [KeyError] or [IndexError], and
    the state is the one it started from: no helper is called, nothing is
    saved.  The inputs are read in the order [fcst], [fcst_var], and then
    [qobs], [qobs_var] when [qobs] is in the request; the defaults declared
    for [fcst_var] and [qobs_var] are not used by the handler. *)
Theorem X11_graph_input_missing workdir (s : state) before key after e :
  read_inputs (req_inputs s) = (before ++ key :: after)%list →
  (∀ k, k ∈ before → ∃ x, item0 (req_inputs s) k = inr x) →
  item0 (req_inputs s) key = inl e →
  _handler workdir s = (inl e, s).
Proof.
  intros Hsplit Hbefore Hkey.
  rewrite handler_helper.
  assert (helper (req_inputs s) = inl e) as ->; [|done].
  unfold helper. unfold read_inputs in Hsplit.
  destruct (req_inputs s !! "qobs") as [qobs_in|] eqn:Hqobs.
  - rewrite bool_decide_true in Hsplit by done.
    destruct before as [|b0 [|b1 [|b2 [|b3 more]]]];
      simpl in Hsplit; injection Hsplit as <-; subst.
    + by rewrite Hkey.
    + readable Hbefore "fcst" x0 H0. by rewrite H0, Hkey.
    + readable Hbefore "fcst" x0 H0. readable Hbefore "fcst_var" x1 H1.
      by rewrite H0, H1, Hkey.
    + readable Hbefore "fcst" x0 H0. readable Hbefore "fcst_var" x1 H1.
      readable Hbefore "qobs" x2 H2. by rewrite H0, H1, H2, Hkey.
    + by destruct more.
  - rewrite bool_decide_false in Hsplit by (by intros [? ?]).
    destruct before as [|b0 [|b1 more]];
      simpl in Hsplit; injection Hsplit as <-; subst.
    + by rewrite Hkey.
    + readable Hbefore "fcst" x0 H0. by rewrite H0, Hkey.
    + by destruct more.
Qed.

(** X12.  When the plotting helper raises, its exception leaves the graph
    handler unchanged, and the call of the helper is all that has
    happened: no figure is saved or closed, and no output is set. *)
Theorem X12_graph_helper_raises workdir (s : state) c e :
  helper (req_inputs s) = inr (c, inl e) →
  _handler workdir s
  = (inl e,
     State (req_inputs s) (resp_status s) (resp_outputs s) (log s)
           (files s) (calls s ++ [c])).
Proof. intros Hhelper. by rewrite handler_helper, Hhelper. Qed.

(** X13.  When the response has no [graph_forecasts] output, the graph
    handler raises [KeyError] for it only after the figure has been drawn,
    saved in the working directory and closed. *)
Theorem X13_graph_output_missing workdir (s : state) c fig :
  helper (req_inputs s) = inr (c, inr fig) →
  resp_outputs s !! "graph_forecasts" = None →
  (_handler workdir s).1 = inl (KeyError "graph_forecasts")
  ∧ files (_handler workdir s).2
    = <[figure_path workdir := Saved fig]> (files s)
  ∧ calls (_handler workdir s).2 = (calls s ++ [c; Call_close fig])%list
  ∧ resp_outputs (_handler workdir s).2 = resp_outputs s.
Proof.
  intros Hhelper Hout. rewrite handler_helper, Hhelper.
  unfold set_output_file; simpl. rewrite Hout; simpl.
  by rewrite <- app_assoc.
Qed.

(** X14.  The graph handler does not consume its request: after a run
    that has completed, a second run on the state the first one left
    completes as well, calls the same helper with the same arguments, and
    leaves the same files and the same outputs. *)
Theorem X14_graph_second_run workdir (s : state) c fig :
  helper (req_inputs s) = inr (c, inr fig) →
  is_Some (resp_outputs s !! "graph_forecasts") →
  (_handler workdir s).1 = inr tt
  ∧ (_handler workdir (_handler workdir s).2).1 = inr tt
  ∧ files (_handler workdir (_handler workdir s).2).2
    = files (_handler workdir s).2
  ∧ resp_outputs (_handler workdir (_handler workdir s).2).2
    = resp_outputs (_handler workdir s).2
  ∧ calls (_handler workdir (_handler workdir s).2).2
    = (calls (_handler workdir s).2 ++ [c; Call_close fig])%list.
Proof.
  intros Hhelper [o Hout].
  assert (_handler workdir s
          = (inr tt,
             State (req_inputs s) (resp_status s)
               (<["graph_forecasts" := Output (Some (figure_path workdir))]>
                  (resp_outputs s))
               (log s)
               (<[figure_path workdir := Saved fig]> (files s))
               ((calls s ++ [c]) ++ [Call_close fig]))) as Hfirst.
  { rewrite handler_helper, Hhelper.
    unfold set_output_file; simpl. by rewrite Hout. }
  rewrite Hfirst; simpl. split; [done|].
  rewrite handler_helper; simpl. rewrite Hhelper.
  unfold set_output_file; simpl. rewrite lookup_insert_eq; simpl.
  split; [done|]. split; [by rewrite insert_insert_eq|].
  split; [by rewrite insert_insert_eq|].
  by rewrite <- (app_assoc _ [c] [Call_close fig]).
Qed.

(** X15.  The graph handler looks at the inputs its process declares and
    at no other: on two requests that agree on [fcst], [fcst_var], [qobs]
    and [qobs_var], with the same response, it returns or raises the same,
    makes the same calls and leaves the same response and files. *)
Theorem X15_graph_reads_declared_inputs workdir (s1 s2 : state) :
  (∀ d, d ∈ inputs →
        req_inputs s1 !! declared d = req_inputs s2 !! declared d) →
  same_response s1 s2 →
  (_handler workdir s1).1 = (_handler workdir s2).1
  ∧ same_response (_handler workdir s1).2 (_handler workdir s2).2.
Proof.
  intros Hin (Hst & Hout & Hlog & Hfiles & Hcalls).
  assert (helper (req_inputs s1) = helper (req_inputs s2)) as Hhelper.
  { pose proof (Hin (Complex fcst)) as H1.
    pose proof (Hin (Literal fcst_var)) as H2.
    pose proof (Hin (Complex qobs)) as H3.
    pose proof (Hin (Literal qobs_var)) as H4.
    unfold inputs in H1, H2, H3, H4. simpl in H1, H2, H3, H4.
    unfold helper, item0.
    rewrite H1, H2, H3, H4; try done;
      repeat first [apply list_elem_of_here|apply list_elem_of_further]. }
  rewrite !handler_helper, Hhelper.
  destruct (helper (req_inputs s2)) as [e|[c [e|fig]]].
  - done.
  - simpl. by rewrite Hst, Hout, Hlog, Hfiles, Hcalls.
  - unfold set_output_file; simpl. rewrite Hout.
    destruct (resp_outputs s2 !! "graph_forecasts"); simpl;
      by rewrite Hst, ?Hout, Hlog, Hfiles, Hcalls.
Qed.

End GraphExtras.

(** ** The properties above on the example requests *)

Section RegionalisationCases.
Import Regionalisation Example Cases.

Lemma request_forwarded :
  forwarded (rt := runtime) (lib := lib_ok) request expected_args.
Proof.
  split.
  - by exists (Input (PStr "SP_IDW") ""), [].
  - by exists (Input (PStr "GR4JCN") ""), [].
  - by exists (Input (PInt 5) ""), [].
  - by exists (Input (PFloat (Float 6 1)) ""), [].
  - by eexists.
  - reflexivity.
  - exists (PStr properties_json). split.
    + by exists (Input (PStr properties_json) "/tmp/properties.json"), [].
    + vm_compute. reflexivity.
  - reflexivity.
Qed.

Lemma request_decoded :
  decoded (rt := runtime) (nc_specs request) [nc_spec_dict].
Proof.
  unfold decoded.
  replace (nc_specs request) with [Input (PStr nc_spec_json) ""]
    by (vm_compute; reflexivity).
  constructor; [vm_compute; reflexivity|constructor].
Qed.

Lemma request_all_occur : all_occur (left_over request).
Proof.
  unfold all_occur.
  replace (left_over request)
    with (<["latitude" := [Input (PFloat (Float 544848 4)) "";
                           Input (PFloat (Float 0 1)) ""]]>
            (<["elevation" := [Input (PFloat (Float 8430 1)) ""]]>
               (∅ : gmap string (list wps_input))))
    by (vm_compute; reflexivity).
  intros key l Hl.
  apply lookup_insert_Some in Hl as [[_ <-]|[_ Hl]]; [done|].
  apply lookup_insert_Some in Hl as [[_ <-]|[_ Hl]]; [done|].
  by rewrite lookup_empty in Hl.
Qed.

Lemma request_well_formed :
  well_formed (rt := runtime) (lib := lib_ok) request [nc_spec_dict]
              expected_args.
Proof.
  split.
  - exact request_forwarded.
  - exact request_decoded.
  - exact request_all_occur.
  - vm_compute. reflexivity.
Qed.

(** X3 on the example request. *)
Lemma X3_witness :
  (well_formed (rt := runtime) (lib := lib_ok) (req_inputs start)
               [nc_spec_dict] expected_args
   ∧ call_regionalize (lib := lib_ok) expected_args
     = inr ("qsim", "ensemble"))
  ∧ run_ok.1 = inr tt
  ∧ calls run_ok.2 = (calls start ++ library_calls expected_args)%list
  ∧ resp_status run_ok.2 = (resp_status start ++ progress)%list
  ∧ files run_ok.2
    = <[ensemble_path (rt := runtime) workdir := NetCDF "ensemble"]>
        (<[qsim_path (rt := runtime) workdir := NetCDF "qsim"]>
           (files start))
  ∧ resp_outputs run_ok.2
    = <["ensemble" := Output (Some (ensemble_path (rt := runtime) workdir))]>
        (<["hydrograph" := Output (Some (qsim_path (rt := runtime) workdir))]>
           (resp_outputs start))
  ∧ log run_ok.2 = log start
  ∧ req_inputs run_ok.2 = left_over (req_inputs start).
Proof.
  split; [split; [exact request_well_formed|reflexivity]|].
  apply (X3_well_formed_request_completes (rt := runtime) (lib := lib_ok)
           workdir start [nc_spec_dict] expected_args "qsim" "ensemble").
  - exact request_well_formed.
  - reflexivity.
  - by eexists.
  - by eexists.
Defined.

Lemma two_specs_forwarded :
  forwarded (rt := runtime_specs) (lib := lib_echo) (req_inputs two_specs)
            expected_args.
Proof.
  split.
  - by exists (Input (PStr "SP_IDW") ""), [].
  - by exists (Input (PStr "GR4JCN") ""), [].
  - by exists (Input (PInt 5) ""), [].
  - by exists (Input (PFloat (Float 6 1)) ""), [].
  - by eexists.
  - reflexivity.
  - exists (PStr properties_json). split.
    + by exists (Input (PStr properties_json) "/tmp/properties.json"), [].
    + vm_compute. reflexivity.
  - reflexivity.
Qed.

Lemma two_specs_decoded :
  decoded (rt := runtime_specs) (nc_specs (req_inputs two_specs))
          [nc_spec_dict; nc_spec_dict2].
Proof.
  unfold decoded.
  replace (nc_specs (req_inputs two_specs))
    with [Input (PStr nc_spec_json) ""; Input (PStr nc_spec_json2) ""]
    by (vm_compute; reflexivity).
  repeat (constructor; [vm_compute; reflexivity|]). constructor.
Qed.

Lemma two_specs_all_occur : all_occur (left_over (req_inputs two_specs)).
Proof.
  replace (left_over (req_inputs two_specs)) with (left_over request)
    by (vm_compute; reflexivity).
  exact request_all_occur.
Qed.

(** X4 on the example request with two [nc_spec] occurrences, both giving
    [tasmax], and with the library whose [regionalize] returns its
    arguments: [elevation] is an input and overrides the first [nc_spec];
    [tasmax] has the value of the second [nc_spec]; [pr] comes from the
    second alone; [slope] is nowhere; and the datasets written are made
    from these arguments. *)
Lemma X4_witness :
  (decoded (rt := runtime_specs) (nc_specs (req_inputs two_specs))
           [nc_spec_dict; nc_spec_dict2]
   ∧ all_occur (left_over (req_inputs two_specs))
   ∧ nc_spec_dict !! "elevation" = Some (PFloat (Float 0 1))
   ∧ is_Some (nc_spec_dict !! "tasmax"))
  ∧ ∃ a,
      calls (_handler (rt := runtime_specs) (lib := lib_echo)
               workdir two_specs).2
      = (calls two_specs ++ library_calls a)%list
      ∧ kw_named (a_kwds a) !! "elevation" = Some (PFloat (Float 8430 1))
      ∧ kw_named (a_kwds a) !! "tasmax"
        = Some (PDict {[ "scale" := PFloat (Float 10 1) ]})
      ∧ kw_named (a_kwds a) !! "pr" = Some (PInt 86400)
      ∧ kw_named (a_kwds a) !! "slope" = None
      ∧ files (_handler (rt := runtime_specs) (lib := lib_echo)
                 workdir two_specs).2
        = <["/tmp/pywps/job-1/ensemble.nc" := NetCDF ("ensemble", a)]>
            (<["/tmp/pywps/job-1/qsim.nc" := NetCDF ("qsim", a)]> ∅).
Proof.
  split.
  { split; [exact two_specs_decoded|]. split; [exact two_specs_all_occur|].
    split; [reflexivity|]. by eexists. }
  destruct (X4_keyword_arguments (rt := runtime_specs) (lib := lib_echo)
              workdir two_specs [nc_spec_dict; nc_spec_dict2] expected_args
              two_specs_forwarded two_specs_decoded two_specs_all_occur)
    as (a & Hcalls & Hother & Hinput & Hspec & Hnone & Hanswer).
  assert (∀ key,
            left_over (req_inputs two_specs) !! key = None →
            nc_spec_dict !! key = None → nc_spec_dict2 !! key = None →
            kw_named (a_kwds a) !! key = None) as Habsent.
  { intros key Hkey H1 H2. apply Hnone; [exact Hkey|].
    constructor; [exact H1|]. constructor; [exact H2|]. constructor. }
  assert (unpackable (a_kwds a)) as Hkw.
  { split; [exact Hother|].
    split; [|split]; apply Habsent; reflexivity. }
  exists a. split; [exact Hcalls|]. split.
  { exact (Hinput "elevation" (Input (PFloat (Float 8430 1)) "") []
                  eq_refl). }
  split.
  { exact (Hspec "tasmax" [nc_spec_dict] nc_spec_dict2 [] _
                 eq_refl eq_refl eq_refl (List.Forall_nil _)). }
  split.
  { exact (Hspec "pr" [nc_spec_dict] nc_spec_dict2 [] _
                 eq_refl eq_refl eq_refl (List.Forall_nil _)). }
  split; [apply Habsent; reflexivity|].
  exact (proj2 (Hanswer Hkw)).
Defined.

(** X5 on the example request. *)
Lemma X5_witness :
  well_formed (rt := runtime) (lib := lib_ok) (req_inputs start)
              [nc_spec_dict] expected_args
  ∧ _handler (rt := runtime) (lib := lib_ok) workdir run_ok.2
    = (inl (KeyError "ts"), run_ok.2).
Proof.
  split; [exact request_well_formed|].
  apply (X5_second_run_on_same_request (rt := runtime) (lib := lib_ok)
           workdir start [nc_spec_dict] expected_args).
  exact request_well_formed.
Defined.

(** X6 on the example request, with a response that has no outputs. *)
Lemma X6_witness :
  (well_formed (rt := runtime) (lib := lib_ok) (req_inputs no_outputs)
               [nc_spec_dict] expected_args
   ∧ call_regionalize (lib := lib_ok) expected_args
     = inr ("qsim", "ensemble")
   ∧ resp_outputs no_outputs !! "hydrograph" = None)
  ∧ (_handler (rt := runtime) (lib := lib_ok) workdir no_outputs).1
    = inl (KeyError "hydrograph")
  ∧ files (_handler (rt := runtime) (lib := lib_ok) workdir no_outputs).2
    = <[qsim_path (rt := runtime) workdir := NetCDF "qsim"]>
        (files no_outputs)
  ∧ resp_outputs
      (_handler (rt := runtime) (lib := lib_ok) workdir no_outputs).2
    = resp_outputs no_outputs.
Proof.
  split; [split; [exact request_well_formed|split; reflexivity]|].
  apply (X6_missing_output (rt := runtime) (lib := lib_ok)
           workdir no_outputs [nc_spec_dict] expected_args
           "qsim" "ensemble").
  - exact request_well_formed.
  - reflexivity.
  - reflexivity.
Defined.

(** X8 on the example request without [method]. *)
Lemma X8_witness :
  (required
   = (["ts"; "model_name"]
      ++ "method" :: ["ndonors"; "min_NSE"; "properties"])%list
   ∧ req_inputs without_method !! "method" = None)
  ∧ (_handler (rt := runtime) (lib := lib_ok) workdir without_method).1
    = inl (KeyError "method")
  ∧ only_request_changed without_method
      (_handler (rt := runtime) (lib := lib_ok) workdir without_method).2.
Proof.
  split; [split; reflexivity|].
  apply (X8_missing_required_input (rt := runtime) (lib := lib_ok)
           workdir without_method ["ts"; "model_name"] "method"
           ["ndonors"; "min_NSE"; "properties"]).
  - reflexivity.
  - intros k Hk.
    apply elem_of_cons in Hk as [->|Hk]; [eexists; split; [reflexivity|by left]|].
    apply elem_of_cons in Hk as [->|Hk];
      [eexists; split; [reflexivity|by right]|].
    by apply elem_of_nil in Hk.
  - reflexivity.
Defined.

(** X9 on the example request with a [properties] text that is cut
    short. *)
Lemma X9_witness :
  (first_data (req_inputs truncated) "properties" (PStr "{")
   ∧ json_loads (Runtime := runtime) (PStr "{")
     = inl (PyExc "JSONDecodeError" "Expecting value"))
  ∧ (_handler (rt := runtime) (lib := lib_ok) workdir truncated).1
    = inl (PyExc "JSONDecodeError" "Expecting value")
  ∧ only_request_changed truncated
      (_handler (rt := runtime) (lib := lib_ok) workdir truncated).2.
Proof.
  assert (first_data (req_inputs truncated) "properties" (PStr "{")) as Hp.
  { by exists (Input (PStr "{") "/tmp/properties.json"), []. }
  split; [split; [exact Hp|reflexivity]|].
  apply (X9_properties_not_json (rt := runtime) (lib := lib_ok)
           workdir truncated (PStr "{")).
  - by eexists.
  - by eexists _, _.
  - by eexists _, _.
  - by eexists _, _.
  - by eexists _, _.
  - exact Hp.
  - reflexivity.
Defined.

(** X10 on the example request with the empty array as its
    [properties]. *)
Lemma X10_witness :
  (first_data (req_inputs with_array) "properties" (PStr "[]")
   ∧ json_loads (Runtime := runtime_arrays) (PStr "[]") = inr (PList []))
  ∧ (_handler (rt := runtime_arrays) (lib := lib_ok) workdir with_array).1
    = inl (AttributeError "keys")
  ∧ calls (_handler (rt := runtime_arrays) (lib := lib_ok)
             workdir with_array).2
    = (calls with_array ++ [Call_read_gauged_params (PStr "GR4JCN")])%list
  ∧ resp_status (_handler (rt := runtime_arrays) (lib := lib_ok)
                   workdir with_array).2
    = (resp_status with_array ++ take 2 progress)%list
  ∧ log (_handler (rt := runtime_arrays) (lib := lib_ok)
           workdir with_array).2 = log with_array
  ∧ files (_handler (rt := runtime_arrays) (lib := lib_ok)
             workdir with_array).2 = files with_array
  ∧ resp_outputs (_handler (rt := runtime_arrays) (lib := lib_ok)
                    workdir with_array).2 = resp_outputs with_array.
Proof.
  assert (first_data (req_inputs with_array) "properties" (PStr "[]")) as Hp.
  { by exists (Input (PStr "[]") "/tmp/properties.json"), []. }
  split; [split; [exact Hp|reflexivity]|].
  apply (X10_properties_not_an_object (rt := runtime_arrays) (lib := lib_ok)
           workdir with_array (PStr "GR4JCN") (PStr "[]") (PList [])
           [nc_spec_dict] (scores, parameter_sets)).
  - by eexists.
  - by exists (Input (PStr "GR4JCN") ""), [].
  - by eexists _, _.
  - by eexists _, _.
  - by eexists _, _.
  - exact Hp.
  - reflexivity.
  - by intros d.
  - unfold decoded.
    replace (nc_specs (req_inputs with_array))
      with [Input (PStr nc_spec_json) ""] by (vm_compute; reflexivity).
    constructor; [vm_compute; reflexivity|constructor].
  - replace (left_over (req_inputs with_array)) with (left_over request)
      by (vm_compute; reflexivity).
    exact request_all_occur.
  - reflexivity.
Defined.

End RegionalisationCases.

Section GraphCases.
Import GraphFcstUncertainty Example GraphExample Cases.

(** X11 on the request for a forecast without [fcst_var]. *)
Lemma X11_witness :
  (read_inputs (req_inputs no_fcst_var) = (["fcst"] ++ "fcst_var" :: [])%list
   ∧ item0 (req_inputs no_fcst_var) "fcst_var" = inl (KeyError "fcst_var"))
  ∧ _handler (rt := runtime) (lib := graphs) workdir no_fcst_var
    = (inl (KeyError "fcst_var"), no_fcst_var).
Proof.
  split; [split; reflexivity|].
  apply (X11_graph_input_missing (rt := runtime) (lib := graphs)
           workdir no_fcst_var ["fcst"] "fcst_var" []).
  - reflexivity.
  - intros k Hk. apply elem_of_cons in Hk as [->|Hk]; [by eexists|].
    by apply elem_of_nil in Hk.
  - reflexivity.
Defined.

(** X12 on the request for a hindcast, with helpers that raise. *)
Lemma X12_witness :
  helper (lib := graphs_failing) (req_inputs (start hindcast_request))
  = inr (Call_hindcast "/data/fcst.nc" (PStr "q_sim")
                       "/data/qobs.nc" (PStr "q_obs"),
         inl no_variable)
  ∧ _handler (rt := runtime) (lib := graphs_failing) workdir
      (start hindcast_request)
    = (inl no_variable,
       State (req_inputs (start hindcast_request))
             (resp_status (start hindcast_request))
             (resp_outputs (start hindcast_request))
             (log (start hindcast_request))
             (files (start hindcast_request))
             (calls (start hindcast_request)
              ++ [Call_hindcast "/data/fcst.nc" (PStr "q_sim")
                                "/data/qobs.nc" (PStr "q_obs")])).
Proof.
  split; [reflexivity|].
  apply (X12_graph_helper_raises (rt := runtime) (lib := graphs_failing)
           workdir (start hindcast_request)).
  reflexivity.
Defined.

(** X13 on the request for a forecast, with a response that has no
    outputs. *)
Lemma X13_witness :
  (helper (lib := graphs) (req_inputs no_graph_output)
   = inr (Call_forecast "/data/fcst.nc" (PStr "q_sim"),
          inr "forecast of /data/fcst.nc")
   ∧ resp_outputs no_graph_output !! "graph_forecasts" = None)
  ∧ (_handler (rt := runtime) (lib := graphs) workdir no_graph_output).1
    = inl (KeyError "graph_forecasts")
  ∧ files (_handler (rt := runtime) (lib := graphs)
             workdir no_graph_output).2
    = <[figure_path (rt := runtime) workdir
        := Saved "forecast of /data/fcst.nc"]> (files no_graph_output)
  ∧ calls (_handler (rt := runtime) (lib := graphs)
             workdir no_graph_output).2
    = (calls no_graph_output
       ++ [Call_forecast "/data/fcst.nc" (PStr "q_sim");
           Call_close "forecast of /data/fcst.nc"])%list
  ∧ resp_outputs (_handler (rt := runtime) (lib := graphs)
                    workdir no_graph_output).2
    = resp_outputs no_graph_output.
Proof.
  split; [split; reflexivity|].
  apply (X13_graph_output_missing (rt := runtime) (lib := graphs)
           workdir no_graph_output).
  - reflexivity.
  - reflexivity.
Defined.

(** X14 on the request for a forecast. *)
Lemma X14_witness :
  (helper (lib := graphs) (req_inputs (start forecast_request))
   = inr (Call_forecast "/data/fcst.nc" (PStr "q_sim"),
          inr "forecast of /data/fcst.nc")
   ∧ is_Some (resp_outputs (start forecast_request) !! "graph_forecasts"))
  ∧ run_forecast.1 = inr tt
  ∧ (_handler (rt := runtime) (lib := graphs) workdir run_forecast.2).1
    = inr tt
  ∧ files (_handler (rt := runtime) (lib := graphs)
             workdir run_forecast.2).2
    = files run_forecast.2
  ∧ resp_outputs (_handler (rt := runtime) (lib := graphs)
                    workdir run_forecast.2).2
    = resp_outputs run_forecast.2
  ∧ calls (_handler (rt := runtime) (lib := graphs)
             workdir run_forecast.2).2
    = (calls run_forecast.2
       ++ [Call_forecast "/data/fcst.nc" (PStr "q_sim");
           Call_close "forecast of /data/fcst.nc"])%list.
Proof.
  assert (is_Some (resp_outputs (start forecast_request)
                   !! "graph_forecasts")) as Hout by (by eexists).
  split; [split; [reflexivity|exact Hout]|].
  apply (X14_graph_second_run (rt := runtime) (lib := graphs)
           workdir (start forecast_request)).
  - reflexivity.
  - exact Hout.
Defined.

(** X15 on the request for a hindcast, with and without an input that is
    not declared. *)
Lemma X15_witness :
  same_response with_undeclared (start hindcast_request)
  ∧ (_handler (rt := runtime) (lib := graphs) workdir with_undeclared).1
    = run_hindcast.1
  ∧ same_response
      (_handler (rt := runtime) (lib := graphs) workdir with_undeclared).2
      run_hindcast.2.
Proof.
  assert (same_response with_undeclared (start hindcast_request)) as Hsame.
  { by repeat split. }
  split; [exact Hsame|].
  apply (X15_graph_reads_declared_inputs (rt := runtime) (lib := graphs)
           workdir with_undeclared (start hindcast_request)).
  - intros d Hd. unfold inputs in Hd.
    repeat (apply elem_of_cons in Hd as [->|Hd]; [reflexivity|]).
    by apply elem_of_nil in Hd.
  - exact Hsame.
Defined.

End GraphCases.

Section RegionalisationProgress.
Import Regionalisation.

Context {nash_t params_t props_t dataset_t : Type}.
Context {rt : Runtime} {lib : RavenPy nash_t params_t props_t dataset_t}.

Local Abbreviation state :=
  (state (nc_file dataset_t) (lib_call nash_t params_t props_t)).

Ltac proj_h H :=
  cbn [req_inputs resp_status resp_outputs log files calls fst snd] in H.

(** The run in [Hrun] has ended after [n] status updates. *)
Ltac ended Hrun n :=
  injection Hrun as <- <-; exists n; simpl;
  split; [lia|];
  split; [by rewrite <- ?app_assoc, ?app_nil_r|];
  split; [|done];
  first [ by (exists []; rewrite app_nil_r; split; [done|simpl; lia])
        | eexists; split; [by rewrite <- ?app_assoc|simpl; lia] ].

Ltac pop_or_end Hrun :=
  unfold bind at 1 in Hrun; rewrite pop_data_run in Hrun; proj_h Hrun;
  rewrite ?lookup_delete_ne in Hrun by done;
  match type of Hrun with
  | context [req_inputs ?s !! ?k] =>
      destruct (req_inputs s !! k) as [[|? ?]|];
      [by ended Hrun 0%nat| |by ended Hrun 0%nat]
  end.

(** X16.  In every run of the regionalisation handler the status updates
    reported are the first [n] of the four it has, in their order, and each
    library call comes after the update of its stage: the calls made are
    at most [n] and at least [n - 1].  A run that returns has reported the
    four. *)
Theorem X16_status_updates_precede_calls workdir (s : state) :
  ∃ n : nat,
    (n ≤ 4)%nat
    ∧ resp_status (_handler workdir s).2
      = (resp_status s ++ take n progress)%list
    ∧ (∃ made,
         calls (_handler workdir s).2 = (calls s ++ made)%list
         ∧ (length made ≤ n ≤ S (length made))%nat)
    ∧ ((_handler workdir s).1 = inr tt → n = 4%nat).
Proof.
  destruct (_handler workdir s) as [r s'] eqn:Hrun; simpl.
  unfold _handler in Hrun.
  unfold bind at 1 in Hrun. unfold pop_input at 1 in Hrun.
  destruct (req_inputs s !! "ts") as [ts_in|]; [|by ended Hrun 0%nat].
  do 5 pop_or_end Hrun.
  unfold bind at 1, lift at 1 in Hrun.
  destruct (json_loads _) as [e|properties]; [by ended Hrun 0%nat|].
  unfold bind at 1 in Hrun.
  match type of Hrun with
  | context [read_nc_spec ?s0] =>
      destruct (read_nc_spec s0) as [r_nc s1] eqn:Hnc;
      apply (f_equal snd) in Hnc; rewrite read_nc_spec_run in Hnc;
      simpl in Hnc; subst s1
  end.
  destruct r_nc as [e|kw_nc]; [by ended Hrun 0%nat|].
  unfold bind at 1 in Hrun. rewrite read_remaining_run in Hrun.
  destruct (fold_result _ _ _) as [e|kwds]; [by ended Hrun 0%nat|].
  unfold bind at 1, update_status at 1 in Hrun; proj_h Hrun.
  unfold bind at 1, call at 1 in Hrun; proj_h Hrun.
  destruct (read_gauged_params _) as [e|[nash params]];
    [by ended Hrun 1%nat|].
  unfold bind at 1, update_status at 1 in Hrun; proj_h Hrun.
  unfold bind at 1, keys at 1 in Hrun.
  destruct properties as [| | | | | |d]; try (by ended Hrun 2%nat).
  unfold ret at 1 in Hrun.
  unfold bind at 1, call at 1 in Hrun; proj_h Hrun.
  destruct (read_gauged_properties (dom d)) as [e|props];
    [by ended Hrun 2%nat|].
  unfold bind at 1 in Hrun. rewrite copy_properties_run in Hrun.
  unfold bind at 1, update_status at 1 in Hrun; proj_h Hrun.
  unfold bind at 1, try_except at 1, call at 1 in Hrun; proj_h Hrun.
  destruct (call_regionalize _) as [e|[qsim ensemble]].
  { unfold bind at 1, log_exception at 1, raise at 1 in Hrun.
    by ended Hrun 3%nat. }
  unfold bind at 1, update_status at 1 in Hrun; proj_h Hrun.
  unfold bind at 1, write_file at 1 in Hrun; proj_h Hrun.
  unfold bind at 1, set_output_file at 1 in Hrun; proj_h Hrun.
  destruct (resp_outputs s !! "hydrograph") as [o1|];
    [|by ended Hrun 4%nat].
  unfold bind at 1, write_file at 1 in Hrun; proj_h Hrun.
  unfold bind at 1, set_output_file at 1 in Hrun; proj_h Hrun.
  match type of Hrun with
  | context [match ?o with Some _ => _ | None => _ end] => destruct o as [o2|]
  end; [|by ended Hrun 4%nat].
  unfold ret in Hrun. by ended Hrun 4%nat.
Qed.

End RegionalisationProgress.

(** ** The diagnostics check of the tests *)

Section TestDiagnosticsFacts.
Import TestDiagnostics.

Lemma append_cons c (s t : string) : String c s ++ t = String c (s ++ t).
Proof. reflexivity. Qed.

Lemma index_found l x i :
  index l x = inr i
  ↔ l !! i = Some x ∧ ∀ j, (j < i)%nat → l !! j ≠ Some x.
Proof.
  revert i. induction l as [|y l IH]; intros i; simpl.
  - split; [done|]. by intros [? _].
  - destruct (bool_decide_reflect (y = x)) as [->|Hne].
    + split.
      * intros [= <-]. split; [done|]. intros j Hj. lia.
      * intros [Hi Hfirst]. destruct i as [|i]; [done|].
        destruct (Hfirst 0%nat); [lia|done].
    + destruct (index l x) as [e|i'] eqn:Hidx.
      * split; [done|]. intros [Hi Hfirst]. destruct i as [|i].
        { injection Hi as ->. done. }
        assert (@inl exn nat e = inr i) as Habs; [|done].
        apply IH. split; [done|]. intros j Hj. apply (Hfirst (S j)). lia.
      * split.
        { intros [= <-]. destruct (proj1 (IH i') eq_refl) as [Hi Hfirst].
          split; [done|]. intros [|j] Hj; simpl.
          - by intros [= ->].
          - apply Hfirst. lia. }
        intros [Hi Hfirst]. destruct i as [|i].
        { injection Hi as ->. done. }
        assert (@inr exn nat i' = inr i) as [= ->]; [|done].
        apply IH. split; [done|]. intros j Hj. apply (Hfirst (S j)). lia.
Qed.

Lemma index_raises l x e : index l x = inl e → x ∉ l.
Proof.
  induction l as [|y l IH]; simpl; [intros _; apply not_elem_of_nil|].
  destruct (bool_decide_reflect (y = x)) as [->|Hne]; [done|].
  destruct (index l x) as [e'|i]; [|done].
  intros [= <-] Hin. apply elem_of_cons in Hin as [->|Hin]; [done|].
  by apply IH.
Qed.

Lemma split_head sep text :
  ∃ first_item items post,
    split sep text = first_item :: items ∧ text = first_item ++ post.
Proof.
  induction text as [|c rest (it & its & post & Hsplit & Hrest)]; simpl.
  - by exists "", [], "".
  - destruct (bool_decide (c = sep)).
    + by exists "", (split sep rest), (String c rest).
    + rewrite Hsplit. exists (String c it), its, post.
      split; [done|]. by rewrite append_cons, <- Hrest.
Qed.

Lemma split_items sep text x :
  x ∈ split sep text → ∃ pre post, text = pre ++ x ++ post.
Proof.
  revert x. induction text as [|c rest IH]; intros x; simpl.
  - intros Hx. apply elem_of_cons in Hx as [->|Hx];
      [by exists "", ""|by apply elem_of_nil in Hx].
  - destruct (bool_decide (c = sep)).
    + intros Hx. apply elem_of_cons in Hx as [->|Hx].
      * by exists "", (String c rest).
      * destruct (IH x Hx) as (pre & post & ->).
        by exists (String c pre), post.
    + destruct (split_head sep rest) as (it & its & post & Hsplit & Hrest).
      rewrite Hsplit. intros Hx. apply elem_of_cons in Hx as [->|Hx].
      * exists "", post. by rewrite Hrest.
      * destruct (IH x) as (pre & post' & ->).
        { rewrite Hsplit. by apply list_elem_of_further. }
        by exists (String c pre), post'.
Qed.

Lemma startswith_append sub post : startswith sub (sub ++ post) = true.
Proof.
  induction sub as [|a sub IH]; [by destruct post|].
  rewrite append_cons. simpl. by rewrite bool_decide_true, IH.
Qed.

Lemma contains_append pre sub post : contains sub (pre ++ sub ++ post) = true.
Proof.
  induction pre as [|c pre IH].
  - change ("" ++ sub ++ post) with (sub ++ post).
    destruct (sub ++ post) eqn:Hs; simpl; rewrite <- Hs;
      by rewrite startswith_append.
  - rewrite append_cons. simpl. rewrite IH. apply orb_true_r.
Qed.

Lemma index_contains sep header name i :
  index (split sep header) name = inr i → contains name header = true.
Proof.
  intros [Hi _]%index_found.
  destruct (split_items sep header name) as (pre & post & ->).
  { by eapply list_elem_of_lookup_2. }
  apply contains_append.
Qed.

(** X17.  The diagnostics check of the tests gets a value for [diag]
    exactly when the header (the first line of the file) has a column named
    as the diagnostic, the second line has an item at the place of the first
    such column, and [float] converts that item; the value is the number
    [float] gives for it.  The assertion before the lookup rejects no such
    file: a header that has the column has the name in it, and the check
    is then the lookup and the conversion alone. *)
Theorem X17_diagnostic_read_from_first_column {number : Type}
    (float : string → result number) name tmp_content :
  (∀ value,
     read_diagnostic float name tmp_content = inr value
     ↔ ∃ header line i text,
         tmp_content !! 0%nat = Some header
         ∧ tmp_content !! 1%nat = Some line
         ∧ split "," header !! i = Some name
         ∧ (∀ j, (j < i)%nat → split "," header !! j ≠ Some name)
         ∧ split "," line !! i = Some text
         ∧ float text = inr value)
  ∧ (∀ header,
       tmp_content !! 0%nat = Some header →
       name ∈ split "," header →
       contains name header = true
       ∧ read_diagnostic float name tmp_content
         = match index (split "," header) name with
           | inl e => inl e
           | inr idx_diag =>
               match item tmp_content 1 with
               | inl e => inl e
               | inr line =>
                   match item (split "," line) idx_diag with
                   | inl e => inl e
                   | inr text => float text
                   end
               end
           end).
Proof.
  split.
  - intros value. unfold read_diagnostic, item. split.
    + destruct (tmp_content !! 0%nat) as [header|] eqn:Hheader; [|done].
      destruct (contains name header); [|done]. simpl.
      destruct (index (split "," header) name) as [e|i] eqn:Hidx; [done|].
      destruct (tmp_content !! 1%nat) as [line|] eqn:Hline; [|done].
      destruct (split "," line !! i) as [text|] eqn:Htext; [|done].
      intros Hfloat. apply index_found in Hidx as [Hi Hfirst].
      by exists header, line, i, text.
    + intros (header & line & i & text & -> & -> & Hi & Hfirst & Htext
              & Hfloat).
      assert (index (split "," header) name = inr i) as Hidx.
      { by apply index_found. }
      rewrite (index_contains _ _ _ _ Hidx). simpl.
      by rewrite Hidx, Htext.
  - intros header Hheader Hin.
    assert (contains name header = true) as Hcontains.
    { destruct (split_items _ _ _ Hin) as (pre & post & ->).
      apply contains_append. }
    split; [done|]. unfold read_diagnostic at 1, item at 1.
    by rewrite Hheader, Hcontains.
Qed.

End TestDiagnosticsFacts.
